(** * The Terminal: terminal core and the hex-editor puzzle

    A shallow embedding of [terminal.py] (command dispatch, command history,
    countdown timer) and [programs/hexedit.py] (the hex-editor program), with
    the properties of the specification stated over it. *)

From Stdlib Require Import ZArith Lia Ascii String List Bool.
From stdpp Require Import base option list strings gmap.

Open Scope Z_scope.

(** ** The Python runtime the sources rely on *)

Module Py.

(** Exceptions that cross function boundaries in the modelled sources.
    [BadInput] is the signal of [programs.program]. *)
Inductive exn : Type :=
| ValueError
| IndexError
| KeyError
| TypeError
| BadInput (reason : string).

(** The outcome of a call: a value or a raised exception. *)
Inductive res (A : Type) : Type :=
| Ok (a : A)
| Raise (e : exn).
Arguments Ok {A} a.
Arguments Raise {A} e.

(** Stateful computations that may raise.  Mutations made before a raise
    stay visible, as on Python objects. *)
Definition M (S A : Type) : Type := S -> res A * S.

Definition ret {S A} (a : A) : M S A := fun s => (Ok a, s).

Definition bind {S A B} (m : M S A) (k : A -> M S B) : M S B :=
  fun s => match m s with
           | (Ok a, s') => k a s'
           | (Raise e, s') => (Raise e, s')
           end.

(** Sequencing of pure fallible expressions. *)
Definition rbind {A B} (r : res A) (k : A -> res B) : res B :=
  match r with
  | Ok a => k a
  | Raise e => Raise e
  end.

End Py.

Notation "m ;;; k" := (Py.bind m (fun _ => k))
  (at level 100, k at level 200, right associativity).
Notation "'let?' x := r 'in' k" := (Py.rbind r (fun x => k))
  (at level 10, x name, r at level 100, k at level 200).

Module PyList.
Import Py.

Section Seq.
Context {A : Type}.

(** [l[i]]: negative indices count from the end, anything outside
    [-len, len) raises IndexError. *)
Definition getitem (l : list A) (i : Z) : res A :=
  let n := Z.of_nat (length l) in
  let j := if i <? 0 then i + n else i in
  if (j <? 0) || (n <=? j) then Raise IndexError
  else match l !! Z.to_nat j with
       | Some x => Ok x
       | None => Raise IndexError
       end.

(** [l[i] = x] *)
Definition setitem (l : list A) (i : Z) (x : A) : res (list A) :=
  let n := Z.of_nat (length l) in
  let j := if i <? 0 then i + n else i in
  if (j <? 0) || (n <=? j) then Raise IndexError
  else Ok (<[Z.to_nat j := x]> l).

(** [l[:-1]] *)
Definition but_last (l : list A) : list A := removelast l.

(** [list(enumerate(l))] *)
Definition enumerate (l : list A) : list (Z * A) :=
  imap (fun i x => (Z.of_nat i, x)) l.
End Seq.

(** [l.count(v)] *)
Definition count (l : list Z) (v : Z) : Z :=
  Z.of_nat (length (filter (fun x => x = v) l)).

(** [l.index(v)]: position of the first occurrence, ValueError if absent. *)
Fixpoint index (l : list Z) (v : Z) : res Z :=
  match l with
  | [] => Raise ValueError
  | x :: l' => if decide (x = v) then Ok 0
               else let? i := index l' v in Ok (i + 1)
  end.

End PyList.

(** Strings.  A character is an 8-bit code; the definitions are exact on
    ASCII, and [Terminal._ACCEPTED_CHARS] lets only printable ASCII into an
    input line. *)
Module PyStr.
Import Py.

Definition code (c : ascii) : Z := Z.of_N (N_of_ascii c).
Definition chr (z : Z) : ascii := ascii_of_N (Z.to_N z).

Definition between (lo hi : Z) (c : ascii) : bool :=
  (lo <=? code c) && (code c <=? hi).

(** [str.isspace] for one character: TAB..CR, FS..US and the space. *)
Definition isspace (c : ascii) : bool :=
  between 9 13 c || between 28 32 c.

Definition lower_char (c : ascii) : ascii :=
  if between 65 90 c then chr (code c + 32) else c.

Definition upper_char (c : ascii) : ascii :=
  if between 97 122 c then chr (code c - 32) else c.

Fixpoint map_chars (f : ascii -> ascii) (s : string) : string :=
  match s with
  | EmptyString => EmptyString
  | String c s' => String (f c) (map_chars f s')
  end.

(** [s.lower()] *)
Definition lower (s : string) : string := map_chars lower_char s.

(** [s.capitalize()] *)
Definition capitalize (s : string) : string :=
  match s with
  | EmptyString => EmptyString
  | String c s' => String (upper_char c) (lower s')
  end.

(** [s.lstrip()] *)
Fixpoint lstrip (s : string) : string :=
  match s with
  | EmptyString => EmptyString
  | String c s' => if isspace c then lstrip s' else s
  end.

Definition reverse (s : string) : string :=
  string_of_list_ascii (rev (list_ascii_of_string s)).

(** [s.rstrip()] *)
Definition rstrip (s : string) : string := reverse (lstrip (reverse s)).

(** [s.startswith(p)] *)
Fixpoint startswith (s p : string) {struct p} : bool :=
  match p, s with
  | EmptyString, _ => true
  | String a p', String b s' => Ascii.eqb a b && startswith s' p'
  | String _ _, EmptyString => false
  end.

(** [s.split(sep)] for a one-character separator. *)
Fixpoint split (sep : ascii) (s : string) : list string :=
  match s with
  | EmptyString => [EmptyString]
  | String c s' =>
      if Ascii.eqb c sep then EmptyString :: split sep s'
      else match split sep s' with
           | w :: ws => String c w :: ws
           | [] => [String c EmptyString]
           end
  end.

(** [sorted(items, key=lambda i: i[0])] for string keys. *)
Fixpoint insert_by_key {A} (x : string * A) (l : list (string * A))
  : list (string * A) :=
  match l with
  | [] => [x]
  | y :: l' => if String.ltb x.1 y.1 then x :: l
               else y :: insert_by_key x l'
  end.

Definition sorted_by_key {A} (l : list (string * A)) : list (string * A) :=
  foldr insert_by_key [] l.

(** [sep.join(parts)] *)
Fixpoint join (sep : string) (parts : list string) : string :=
  match parts with
  | [] => EmptyString
  | [x] => x
  | x :: rest => x ++ sep ++ join sep rest
  end.

(** *** [int(s, base)] for bases 10 and 16 *)

(** Whitespace that [int] skips around the literal. *)
Definition int_space (c : ascii) : bool := between 9 13 c || between 32 32 c.

Definition digit_value (c : ascii) : option Z :=
  if between 48 57 c then Some (code c - 48)
  else if between 97 122 c then Some (code c - 97 + 10)
  else if between 65 90 c then Some (code c - 65 + 10)
  else None.

Definition is_underscore (c : ascii) : bool := between 95 95 c.

(** Scan digits of [base], single underscores allowed between two digits.
    [prev_us] tells whether the previous character was an underscore.
    Returns the value and what follows the literal; [None] on a doubled or
    trailing underscore. *)
Fixpoint scan_digits (base : Z) (acc : Z) (prev_us : bool) (s : string)
  : option (Z * string) :=
  match s with
  | EmptyString => if prev_us then None else Some (acc, EmptyString)
  | String c s' =>
      if is_underscore c then
        if prev_us then None else scan_digits base acc true s'
      else
        match digit_value c with
        | Some d =>
            if d <? base then scan_digits base (acc * base + d) false s'
            else if prev_us then None else Some (acc, s)
        | None => if prev_us then None else Some (acc, s)
        end
  end.

Definition starts_with_digit (base : Z) (s : string) : bool :=
  match s with
  | String c _ => match digit_value c with
                  | Some d => d <? base
                  | None => false
                  end
  | EmptyString => false
  end.

Fixpoint skip_int_space (s : string) : string :=
  match s with
  | EmptyString => EmptyString
  | String c s' => if int_space c then skip_int_space s' else s
  end.

(** After the sign: the optional [0x] of base 16, itself optionally
    followed by one underscore. *)
Definition skip_prefix (base : Z) (s : string) : string :=
  match s with
  | String "0" (String x s') =>
      if (base =? 16) && (Ascii.eqb x "x" || Ascii.eqb x "X") then
        match s' with
        | String "_" s'' => s''
        | _ => s'
        end
      else s
  | _ => s
  end.

(** Bases that are powers of two are converted in linear time; the
    digit-count limit does not apply to them. *)
Definition is_binary_base (base : Z) : bool := Z.land base (base - 1) =? 0.

(** [sys.get_int_max_str_digits()]: 4300 unless the interpreter was told
    otherwise. *)
Definition int_max_str_digits : Z := 4300.

(** The number of digit characters in the run of digits and underscores
    that [s] starts with; underscores are not counted, leading zeros
    are. *)
Fixpoint count_digits (base : Z) (s : string) : Z :=
  match s with
  | EmptyString => 0
  | String c s' =>
      if is_underscore c then count_digits base s'
      else match digit_value c with
           | Some d => if d <? base then 1 + count_digits base s' else 0
           | None => 0
           end
  end.

(** [int(s, base)]: surrounding whitespace, an optional sign, the literal;
    ValueError otherwise, also for a literal of more than
    [int_max_str_digits] digits in a base that is not a power of two
    (CPython 3.11 and later). *)
Definition int (base : Z) (s : string) : res Z :=
  let s1 := skip_int_space s in
  let '(sign, s2) :=
    match s1 with
    | String "+" r => (1, r)
    | String "-" r => (-1, r)
    | _ => (1, s1)
    end in
  let s3 := skip_prefix base s2 in
  if negb (starts_with_digit base s3) then Raise ValueError
  else if negb (is_binary_base base)
          && (int_max_str_digits <? count_digits base s3)
  then Raise ValueError
  else match scan_digits base 0 false s3 with
       | Some (v, tail) =>
           match skip_int_space tail with
           | EmptyString => Ok (sign * v)
           | _ => Raise ValueError
           end
       | None => Raise ValueError
       end.

(** *** Formatting *)

Definition hex_digit (d : Z) : ascii :=
  if d <? 10 then chr (48 + d) else chr (97 + d - 10).

Fixpoint digits_of (fuel : nat) (base : Z) (n : Z) (acc : string) : string :=
  match fuel with
  | O => acc
  | S fuel' =>
      let acc' := String (hex_digit (n mod base)) acc in
      if n / base =? 0 then acc' else digits_of fuel' base (n / base) acc'
  end.

(** Digits of a nonnegative number in base 10 or 16. *)
Definition digits (base : Z) (n : Z) : string :=
  digits_of (S (Z.to_nat (Z.log2 n))) base n EmptyString.

Fixpoint replicate_char (n : nat) (c : ascii) : string :=
  match n with
  | O => EmptyString
  | S n' => String c (replicate_char n' c)
  end.

Definition len (s : string) : Z := Z.of_nat (String.length s).

(** ["{:N}".format(i)] for an integer: decimal, right-aligned with
    spaces in a field of [width]. *)
Definition format_d (width : Z) (i : Z) : string :=
  let sign : string := if i <? 0 then "-"%string else ""%string in
  let body := (sign ++ digits 10 (Z.abs i))%string in
  (replicate_char (Z.to_nat (width - len body)) " " ++ body)%string.

(** ["{:#04x}".format(c)]: sign, [0x], then hexadecimal digits padded
    with zeros to a total width of 4. *)
Definition format_hex04 (c : Z) : string :=
  let sign : string := if c <? 0 then "-"%string else ""%string in
  let ds := digits 16 (Z.abs c) in
  (sign ++ "0x"
   ++ replicate_char (Z.to_nat (4 - len sign - 2 - len ds)) "0" ++ ds)%string.

(** ["{:N}".format(s)] for a string: left-aligned, padded with spaces. *)
Definition format_s (width : Z) (s : string) : string :=
  (s ++ replicate_char (Z.to_nat (width - len s)) " ")%string.

End PyStr.

(** ** [terminal.py]: CountdownTimer *)

Module CountdownTimer.

Definition _FLASH_TIME : Z := 3000.
Definition _FLASH_ON : Z := 600.
Definition _FLASH_OFF : Z := 400.

Record t : Type := mk {
  _timeleft : Z;                (* milliseconds *)
  _warning_secs : Z;
  _flash_start : option Z;      (* None when the timer is not flashing *)
  _flash_times : list Z         (* thresholds (seconds) not yet reached *)
}.

(** [__init__(time_in_s, warning_secs)] *)
Definition init (time_in_s warning_secs : Z) : t :=
  {| _timeleft := time_in_s * 1000;
     _warning_secs := warning_secs;
     _flash_start := None;
     _flash_times := [warning_secs; 15; 5; 4; 3; 2; 1] |}.

Definition secs_left (self : t) : Z := _timeleft self / 1000.
Definition ended (self : t) : bool := _timeleft self <=? 0.

(** The inner [while] of [update]: drop thresholds from the front as long
    as the seconds left are at or below them. *)
Fixpoint strip (secs : Z) (times : list Z) : list Z :=
  match times with
  | [] => []
  | th :: rest => if secs <=? th then strip secs rest else times
  end.

(** The thresholds that loop removes. *)
Fixpoint crossed (secs : Z) (times : list Z) : list Z :=
  match times with
  | [] => []
  | th :: rest => if secs <=? th then th :: crossed secs rest else []
  end.

(** What a call of [update] did to the flash window: nothing, or the
    assignment [self._flash_start = self._timeleft], recorded with the
    thresholds the inner loop removed along with it. *)
Inductive flash_event : Type :=
| NoFlash
| FlashStarted (crossed : list Z).

Definition crossed_by (e : flash_event) : list Z :=
  match e with
  | NoFlash => []
  | FlashStarted l => l
  end.

Definition is_start (e : flash_event) : bool :=
  match e with
  | NoFlash => false
  | FlashStarted _ => true
  end.

(** [update(ms_to_subtract)], returning the new timer and the event. *)
Definition update_traced (ms_to_subtract : Z) (self : t) : t * flash_event :=
  let timeleft := _timeleft self - ms_to_subtract in
  if timeleft <=? 0 then
    ({| _timeleft := 0;
        _warning_secs := _warning_secs self;
        _flash_start := None;
        _flash_times := _flash_times self |}, NoFlash)
  else
    let secs := timeleft / 1000 in
    (* Should we end current flash time? *)
    let flash_start :=
      match _flash_start self with
      | Some fs => if _FLASH_TIME <? fs - timeleft then None else Some fs
      | None => None
      end in
    (* Should we start a new flash time? *)
    match flash_start, _flash_times self with
    | None, th :: rest =>
        if secs <=? th then
          let times' := strip secs (th :: rest) in
          ({| _timeleft := timeleft;
              _warning_secs := _warning_secs self;
              _flash_start := Some timeleft;
              _flash_times := times' |},
           FlashStarted (crossed secs (th :: rest)))
        else
          ({| _timeleft := timeleft;
              _warning_secs := _warning_secs self;
              _flash_start := flash_start;
              _flash_times := _flash_times self |}, NoFlash)
    | _, _ =>
        ({| _timeleft := timeleft;
            _warning_secs := _warning_secs self;
            _flash_start := flash_start;
            _flash_times := _flash_times self |}, NoFlash)
    end.

(** An event is either no flash, or a start that removed at least the
    threshold at the head of the queue. *)
Definition consumes_head (e : flash_event) : Prop :=
  e = NoFlash ∨ ∃ th more, e = FlashStarted (th :: more).

Definition update (ms_to_subtract : Z) (self : t) : t :=
  fst (update_traced ms_to_subtract self).

(** A whole lifetime: the calls of [update] in order, with their events. *)
Fixpoint run (steps : list Z) (self : t) : t * list flash_event :=
  match steps with
  | [] => (self, [])
  | ms :: steps' =>
      let '(self1, e) := update_traced ms self in
      let '(self2, es) := run steps' self1 in
      (self2, e :: es)
  end.

(** Number of flash windows started by a list of events. *)
Definition starts (es : list flash_event) : nat :=
  length (filter (fun e => is_start e = true) es).

End CountdownTimer.

(** ** [terminal.py]: CommandHistory *)

Module CommandHistory.
Import Py.

Record t : Type := mk {
  _history : list string;       (* deque, newest first *)
  maxlen : nat;
  _pos : Z;                     (* -1: not navigating *)
  _saved_line : option string   (* None until a draft has been saved *)
}.

(** [__init__(terminal, maxlen)] *)
Definition init (maxlen : nat) : t :=
  {| _history := []; maxlen := maxlen; _pos := -1; _saved_line := None |}.

(** [deque.appendleft] on a deque bounded by [maxlen]. *)
Definition appendleft (n : nat) (x : string) (d : list string) : list string :=
  take n (x :: d).

(** [add_command(cmd)] *)
Definition add_command (cmd : string) (self : t) : t :=
  match _history self with
  | front :: _ =>
      if decide (front ≠ cmd)
      then {| _history := appendleft (maxlen self) cmd (_history self);
              maxlen := maxlen self; _pos := _pos self;
              _saved_line := _saved_line self |}
      else self
  | [] => {| _history := appendleft (maxlen self) cmd (_history self);
             maxlen := maxlen self; _pos := _pos self;
             _saved_line := _saved_line self |}
  end.

(** [reset_navigation()] *)
Definition reset_navigation (self : t) : t :=
  {| _history := _history self; maxlen := maxlen self; _pos := -1;
     _saved_line := _saved_line self |}.

(** The history together with the terminal's current input line, which
    [navigate] reads and writes through [get_current_line] and
    [set_current_line].  The line is a Python value: [None] stands for
    Python's None, which is what [set_current_line(self._saved_line)]
    stores when no draft was ever saved. *)
Definition state : Type := t * option string.

Definition set_pos (p : Z) (self : t) : t :=
  {| _history := _history self; maxlen := maxlen self; _pos := p;
     _saved_line := _saved_line self |}.

Definition set_saved_line (l : option string) (self : t) : t :=
  {| _history := _history self; maxlen := maxlen self; _pos := _pos self;
     _saved_line := l |}.

(** [self._terminal.set_current_line(self._history[self._pos])] *)
Definition show_entry : M state unit := fun '(self, line) =>
  match PyList.getitem (_history self) (_pos self) with
  | Ok cmd => (Ok tt, (self, Some cmd))
  | Raise e => (Raise e, (self, line))
  end.

(** [navigate(up)] *)
Definition navigate (up : bool) : M state unit := fun '(self, line) =>
  if up then
    if _pos self + 1 <? Z.of_nat (length (_history self)) then
      (* If we are starting a history navigation, then save current line *)
      let self1 := if _pos self =? -1 then set_saved_line line self
                   else self in
      let self2 := set_pos (_pos self1 + 1) self1 in
      show_entry (self2, line)
    else (Ok tt, (self, line))
  else
    if 0 <? _pos self then
      show_entry (set_pos (_pos self - 1) self, line)
    else if _pos self =? 0 then
      (* Restore saved line *)
      (Ok tt, (set_pos (-1) self, _saved_line self))
    else (Ok tt, (self, line)).

(** States reached by pressing arrows after starting from [(h0, line0)]
    with the cursor at -1 and getting onto an entry: the draft is saved
    and the cursor is on an entry. *)
Definition navigating (h0 : t) (line0 : option string) (s : state) : Prop :=
  ∃ p cmd, 0 ≤ p < Z.of_nat (length (_history h0))
           ∧ s = (set_pos p (set_saved_line line0 h0), Some cmd).

(** [n] presses of the same arrow key. *)
Fixpoint presses (n : nat) (up : bool) : M state unit :=
  match n with
  | O => ret tt
  | S n' => navigate up ;;; presses n' up
  end.

End CommandHistory.

(** ** [terminal.py]: Terminal *)

Module Terminal.
Import Py.

Definition _BUF_SIZE : nat := 100.
Definition _HISTORY_SIZE : nat := 50.
Definition _TIMER_WARNING_SECS : Z := 30.

(** The attributes of a terminal that the modelled methods read or write.
    [P] is the type of the registered program objects; the current
    program is a handle into the registry.  [start_log] is a ghost
    attribute: the commands whose program had [start()] called, newest
    first. *)
Record t (P : Type) : Type := mk {
  _current_line : string;
  _buf : list string;
  _prompt : string;
  _cmd_history : CommandHistory.t;
  _programs : gmap string P;
  _current_program : option string;
  _depends : gmap string (list string);
  _freeze_start : option Z;
  _freeze_time : option Z;
  time : Z;
  _countdown_timer : CountdownTimer.t;
  _TEXT_COLOUR : Z * Z * Z;
  start_log : list string
}.
Arguments mk {P}.
Arguments _current_line {P}.
Arguments _buf {P}.
Arguments _prompt {P}.
Arguments _cmd_history {P}.
Arguments _programs {P}.
Arguments _current_program {P}.
Arguments _depends {P}.
Arguments _freeze_start {P}.
Arguments _freeze_time {P}.
Arguments time {P}.
Arguments _countdown_timer {P}.
Arguments _TEXT_COLOUR {P}.
Arguments start_log {P}.

(** What the terminal asks of a program
    ([programs.program.TerminalProgram]).  [start] and [text_input] run on
    the program together with the terminal it belongs to. *)
Class Program (P : Type) : Type := {
  completed : P -> bool;
  security_type : P -> string;
  help : P -> string;
  prompt : P -> res (option string);
  start : M (P * t P) unit;
  text_input : string -> M (P * t P) unit
}.

Section Methods.
Context {P : Type}.

Definition set_current_line (line : string) (self : t P) : t P :=
  mk line (_buf self) (_prompt self) (_cmd_history self)
     (_programs self) (_current_program self) (_depends self)
     (_freeze_start self) (_freeze_time self) (time self)
     (_countdown_timer self) (_TEXT_COLOUR self) (start_log self).

Definition set_buf (b : list string) (self : t P) : t P :=
  mk (_current_line self) b (_prompt self) (_cmd_history self)
     (_programs self) (_current_program self) (_depends self)
     (_freeze_start self) (_freeze_time self) (time self)
     (_countdown_timer self) (_TEXT_COLOUR self) (start_log self).

Definition set_cmd_history (h : CommandHistory.t) (self : t P) : t P :=
  mk (_current_line self) (_buf self) (_prompt self) h
     (_programs self) (_current_program self) (_depends self)
     (_freeze_start self) (_freeze_time self) (time self)
     (_countdown_timer self) (_TEXT_COLOUR self) (start_log self).

Definition set_programs (ps : gmap string P) (self : t P) : t P :=
  mk (_current_line self) (_buf self) (_prompt self)
     (_cmd_history self) ps (_current_program self) (_depends self)
     (_freeze_start self) (_freeze_time self) (time self)
     (_countdown_timer self) (_TEXT_COLOUR self) (start_log self).

Definition set_current_program (c : option string) (self : t P) : t P :=
  mk (_current_line self) (_buf self) (_prompt self)
     (_cmd_history self) (_programs self) c (_depends self)
     (_freeze_start self) (_freeze_time self) (time self)
     (_countdown_timer self) (_TEXT_COLOUR self) (start_log self).

Definition set_freeze_start (x : option Z) (self : t P) : t P :=
  mk (_current_line self) (_buf self) (_prompt self)
     (_cmd_history self) (_programs self) (_current_program self)
     (_depends self) x (_freeze_time self) (time self)
     (_countdown_timer self) (_TEXT_COLOUR self) (start_log self).

Definition set_freeze_time (x : option Z) (self : t P) : t P :=
  mk (_current_line self) (_buf self) (_prompt self)
     (_cmd_history self) (_programs self) (_current_program self)
     (_depends self) (_freeze_start self) x (time self)
     (_countdown_timer self) (_TEXT_COLOUR self) (start_log self).

Definition set_countdown_timer (c : CountdownTimer.t) (self : t P) : t P :=
  mk (_current_line self) (_buf self) (_prompt self)
     (_cmd_history self) (_programs self) (_current_program self)
     (_depends self) (_freeze_start self) (_freeze_time self)
     (time self) c (_TEXT_COLOUR self) (start_log self).

Definition set_TEXT_COLOUR (c : Z * Z * Z) (self : t P) : t P :=
  mk (_current_line self) (_buf self) (_prompt self)
     (_cmd_history self) (_programs self) (_current_program self)
     (_depends self) (_freeze_start self) (_freeze_time self)
     (time self) (_countdown_timer self) c (start_log self).

Definition log_start (cmd : string) (self : t P) : t P :=
  mk (_current_line self) (_buf self) (_prompt self)
     (_cmd_history self) (_programs self) (_current_program self)
     (_depends self) (_freeze_start self) (_freeze_time self)
     (time self) (_countdown_timer self) (_TEXT_COLOUR self)
     (cmd :: start_log self).

(** [_add_to_buf(lines)]: [appendleft] each line on the bounded deque. *)
Definition _add_to_buf (lines : list string) (self : t P) : t P :=
  set_buf (foldl (fun buf line => take _BUF_SIZE (line :: buf))
                 (_buf self) lines) self.

(** [output(output)] *)
Definition output (lines : list string) (self : t P) : t P :=
  _add_to_buf lines self.

(** [freeze(time)] *)
Definition freeze (duration : Z) (self : t P) : t P :=
  set_freeze_time (Some duration)
    (set_freeze_start (Some (time self)) self).

(** [reduce_time(time)] *)
Definition reduce_time (secs : Z) (self : t P) : t P :=
  set_countdown_timer
    (CountdownTimer.update (secs * 1000) (_countdown_timer self)) self.

(** [_reset_prompt()] *)
Definition _reset_prompt (self : t P) : t P := set_current_line "" self.

Context `{Program P}.

(** [get_current_line(include_prompt)] *)
Definition get_current_line (include_prompt : bool) (self : t P)
  : res string :=
  if include_prompt then
    (* See if the current program has a prompt. *)
    let? pr :=
      match _current_program self with
      | Some c => match _programs self !! c with
                  | Some p => prompt p
                  | None => Raise KeyError
                  end
      | None => Ok (Some (_prompt self))
      end in
    Ok (match pr with
        | None => _current_line self
        | Some pr => (pr ++ _current_line self)%string
        end)
  else Ok (_current_line self).

(** [completed()] *)
Definition all_completed (self : t P) : bool :=
  forallb (fun cp => completed cp.2) (map_to_list (_programs self)).

(** [[self._programs[c] for c in depends_list
      if not self._programs[c].completed()]] *)
Fixpoint blocked_on (self : t P) (depends_list : list string)
  : res (list P) :=
  match depends_list with
  | [] => Ok []
  | c :: rest =>
      match _programs self !! c with
      | None => Raise KeyError
      | Some p =>
          let? more := blocked_on self rest in
          Ok (if completed p then more else p :: more)
      end
  end.

(** The programs of the prerequisites that are not completed, in the
    order of the prerequisite list. *)
Definition unmet (self : t P) (depends_list : list string) : list P :=
  filter (fun p => completed p = false)
         (omap (fun c => _programs self !! c) depends_list).

Definition blocked_message (cmd : string) (blocked : list P) : string :=
  (cmd ++ " currently blocked by: "
       ++ PyStr.join ", " (security_type <$> blocked))%string.

(** [_is_cmd_runnable(cmd)] *)
Definition _is_cmd_runnable (cmd : string) : M (t P) bool := fun self =>
  match
    match _depends self !! cmd with
    | None => Ok []
    | Some depends_list => blocked_on self depends_list
    end
  with
  | Raise e => (Raise e, self)
  | Ok [] => (Ok true, self)
  | Ok blocked => (Ok false, output [blocked_message cmd blocked] self)
  end.

(** [self._current_program.start()]: run the program's [start] on the
    registry entry and store the entry back. *)
Definition start_current (cmd : string) (p : P) : M (t P) unit :=
  fun self =>
    match start (p, log_start cmd self) with
    | (r, (p', self')) =>
        (r, set_programs (<[cmd := p']> (_programs self')) self')
    end.

(** [font.render("test", True, colour)] of pygame raises ValueError or
    TypeError on a colour it cannot use; which colours those are is
    given by [font_renders]. *)
Variable font_renders : Z * Z * Z -> bool.

Definition colour_command (cmd : string) (self : t P) : t P :=
  match drop 1 (PyStr.split " " cmd) with
  | [a; b; c] =>
      match
        let? r := PyStr.int 10 a in
        let? g := PyStr.int 10 b in
        let? b' := PyStr.int 10 c in
        if font_renders (r, g, b') then Ok (r, g, b')
        else Raise ValueError
      with
      | Ok colour =>
          output ["Enjoy your new colour!"%string]
                 (set_TEXT_COLOUR colour self)
      | Raise _ =>
          output ["I am not familiar with that colour code."%string] self
      end
  | _ => self
  end.

Definition freeze_command (cmd : string) : M (t P) unit := fun self =>
  match PyList.getitem (PyStr.split " " cmd) 1 with
  | Raise e => (Raise e, self)
  | Ok arg =>
      match PyStr.int 10 arg with
      | Ok n => (Ok tt, freeze n self)
      | Raise ValueError => (Ok tt, output ["Invalid time"%string] self)
      | Raise e => (Raise e, self)
      end
  end.

Definition help_lines (self : t P) : list string :=
  "Available commands:"%string ::
  ((fun cp : string * P =>
      ("  " ++ PyStr.format_s 10 cp.1 ++ "   " ++ help cp.2)%string)
     <$> PyStr.sorted_by_key (map_to_list (_programs self))).

(** [_process_command(cmd)] *)
Definition _process_command (cmd : string) : M (t P) unit := fun self =>
  match _programs self !! cmd with
  | Some _ =>
      (* Check dependencies for this command *)
      match _is_cmd_runnable cmd self with
      | (Raise e, self1) => (Raise e, self1)
      | (Ok false, self1) => (Ok tt, self1)
      | (Ok true, self1) =>
          match _programs self1 !! cmd with
          | None => (Raise KeyError, self1)
          | Some p =>
              let self2 := set_current_program (Some cmd) self1 in
              (* Don't run the program if it is already completed *)
              if negb (completed p) then start_current cmd p self2
              else
                (Ok tt,
                 set_current_program None
                   (output [PyStr.capitalize
                              (security_type p ++ " already completed!")]
                           self2))
          end
      end
  | None =>
      if decide (cmd = "help"%string ∨ cmd = "?"%string) then
        (Ok tt, output (help_lines self) self)
      else if PyStr.startswith cmd "colour " then
        (Ok tt, colour_command cmd self)
      else if PyStr.startswith cmd "freeze " then
        freeze_command cmd self
      else if decide (cmd ≠ ""%string) then
        (Ok tt, output [("Unknown command '" ++ cmd ++ "'.")%string] self)
      else (Ok tt, self)
  end.

(** [self._current_program.text_input(line)] on the registry entry
    [c], with [except BadInput as e] around it. *)
Definition forward_input (c : string) (line : string) : M (t P) unit :=
  fun self =>
    match _programs self !! c with
    | None => (Raise KeyError, self)
    | Some p =>
        match text_input line (p, self) with
        | (r, (p', self')) =>
            let self1 := set_programs (<[c := p']> (_programs self'))
                                      self' in
            match r with
            | Raise (BadInput reason) =>
                (Ok tt, output [("Error: " ++ reason)%string] self1)
            | _ => (r, self1)
            end
        end
    end.

(** [_complete_input()] *)
Definition _complete_input : M (t P) unit := fun self =>
  (* Add the current line to the buffer *)
  match get_current_line true self with
  | Raise e => (Raise e, self)
  | Ok echoed =>
      let self1 := _add_to_buf [echoed] self in
      match
        match _current_program self1 with
        | Some c => forward_input c (_current_line self1) self1
        | None =>
            (* Skip the prompt and any leading/trailing whitespace to
               get the command. *)
            let cmd := PyStr.rstrip (PyStr.lstrip (_current_line self1)) in
            (* Add to command history, skipping repeated entries *)
            let self2 :=
              if decide (cmd ≠ ""%string)
              then set_cmd_history
                     (CommandHistory.add_command cmd (_cmd_history self1))
                     self1
              else self1 in
            _process_command cmd self2
        end
      with
      | (Ok _, self3) => (Ok tt, _reset_prompt self3)   (* Reset the prompt *)
      | (Raise e, self3) => (Raise e, self3)
      end
  end.

(** The player types [line] on an empty input line and presses Enter.
    ([on_keypress] appends the characters and calls [_complete_input].) *)
Definition enter (line : string) : M (t P) unit := fun self =>
  _complete_input (set_current_line line self).

Fixpoint enter_all (lines : list string) : M (t P) unit :=
  match lines with
  | [] => ret tt
  | line :: rest => enter line ;;; enter_all rest
  end.

End Methods.

End Terminal.

(** ** [programs/hexedit.py]: HexEditor *)

Module HexEditor.
Import Py.

Inductive States : Type := QUERY_ROW | ENTER_COL | ENTER_VAL | FINISHED.

Definition _MIN_FILE_LENGTH : Z := 3.
Definition _MAX_FILE_LENGTH : Z := 5.

(* How long is the freeze time (in ms) when a mistake is made *)
Definition _FREEZE_TIME : Z := 5 * 1000.

(** A table is a Python list of row objects.  Rows are mutable and may be
    shared, so a table holds references into [heap], the store of the row
    objects this program created; the outer lists are never mutated and
    are kept as values. *)
Definition ref : Type := nat.

Record t : Type := mk {
  _completed : bool;
  _row : Z;
  _col : Z;
  _state : States;
  _start_data : list ref;
  _end_data : list ref;
  heap : list (list Z)
}.

(** [__init__(terminal)] *)
Definition init : t :=
  {| _completed := false; _row := 0; _col := 0; _state := QUERY_ROW;
     _start_data := []; _end_data := []; heap := [] |}.

Definition set_completed (b : bool) (self : t) : t :=
  mk b (_row self) (_col self) (_state self) (_start_data self)
     (_end_data self) (heap self).
Definition set_row (r : Z) (self : t) : t :=
  mk (_completed self) r (_col self) (_state self) (_start_data self)
     (_end_data self) (heap self).
Definition set_col (c : Z) (self : t) : t :=
  mk (_completed self) (_row self) c (_state self) (_start_data self)
     (_end_data self) (heap self).
Definition set_state (s : States) (self : t) : t :=
  mk (_completed self) (_row self) (_col self) s (_start_data self)
     (_end_data self) (heap self).
Definition set_heap (h : list (list Z)) (self : t) : t :=
  mk (_completed self) (_row self) (_col self) (_state self)
     (_start_data self) (_end_data self) h.

(** The row object behind a reference. *)
Definition deref (h : list (list Z)) (r : ref) : list Z :=
  default [] (h !! r).

(** The contents of a table, row by row. *)
Definition rows_of (h : list (list Z)) (table : list ref) : list (list Z) :=
  deref h <$> table.

Definition start_rows (self : t) : list (list Z) :=
  rows_of (heap self) (_start_data self).
Definition end_rows (self : t) : list (list Z) :=
  rows_of (heap self) (_end_data self).

(** What [_generate_data] can return: 3 or 4 rows
    ([randrange(_MIN_FILE_LENGTH, _MAX_FILE_LENGTH)]) of 6 values each
    drawn by [randrange(0x10)]. *)
Definition generated (data : list (list Z)) : Prop :=
  (_MIN_FILE_LENGTH ≤ Z.of_nat (length data) < _MAX_FILE_LENGTH)
  ∧ Forall (fun row => length row = 6%nat
                       ∧ Forall (fun v => 0 ≤ v < 16) row) data.

(** The [help] and [security_type] properties. *)
Definition help : string := "Modify raw software data.".
Definition security_type : string := "software lock".

(** *** [_data_correct] *)

(** The local variables that live across iterations of the loop. *)
Record vars : Type := mk_vars {
  edited_previous : bool;
  edits : Z;
  edited_idx : Z;
  edited_old : Z;
  edited_new : Z
}.

(** How one iteration ends: with [return False], or with the value of
    [expect_edit] and the loop going on. *)
Inductive verdict : Type :=
| ReturnFalse
| Expect (expect_edit : bool).

Definition must (b : bool) : verdict :=
  if b then Expect true else ReturnFalse.

(** First line, or the previous line was not edited: (d), (e), (f), (x). *)
Definition rule_unedited_previous (start end_ : list Z) : res verdict :=
  let? s0 := PyList.getitem start 0 in
  if s0 <? 7 then
    (* (d) in the manual *)
    let? e := PyList.getitem end_ s0 in
    Ok (must (e =? 0))
  else if 0 <? PyList.count start 0 then
    (* (e) in the manual *)
    let? i := PyList.index start 0 in
    let? e := PyList.getitem end_ i in
    Ok (must (e =? 15))
  else
    (* Count odd numbers. *)
    let odds := filter (fun iv : Z * Z => iv.1 mod 2 = 1)
                       (PyList.enumerate start) in
    if 3 <? Z.of_nat (length odds) then
      (* (f) in the manual *)
      let? o := PyList.getitem odds 0 in
      let? e := PyList.getitem end_ o.1 in
      let? s := PyList.getitem start o.1 in
      Ok (must (e =? s - 1))
    else
      (* (x) in the manual - don't edit. *)
      Ok (Expect false).

(** The last line, previous line edited: (j). *)
Definition rule_last (v : vars) (start end_ : list Z) : res verdict :=
  let? e := PyList.getitem end_ (-1) in
  if negb (e =? edits v) then Ok ReturnFalse
  else if decide (PyList.but_last end_ ≠ PyList.but_last start)
       then Ok ReturnFalse
       else Ok (Expect true).

(** A middle line, previous line edited: (g), (h), (i), (x). *)
Definition rule_middle (v : vars) (start end_ : list Z) : res verdict :=
  let? sl := PyList.getitem start (-1) in
  if sl <? 7 then
    (* (g) in the manual *)
    let? e := PyList.getitem end_ sl in
    Ok (must (e =? edited_old v))
  else if negb (PyList.count start 15 =? 0) then
    (* (h) in the manual *)
    let? i := PyList.index start 15 in
    let? e := PyList.getitem end_ i in
    Ok (must (e =? edited_idx v))
  else if negb (PyList.count start (edited_new v) =? 0) then
    (* (i) in the manual *)
    let? i := PyList.index start (edited_new v) in
    let? e := PyList.getitem end_ i in
    Ok (must (e =? 0))
  else
    (* (x) in the manual - don't edit. *)
    Ok (Expect false).

(** The rule chosen for line [idx] of a file of [len_start] lines. *)
Definition rule (len_start : Z) (v : vars) (idx : Z) (start end_ : list Z)
  : res verdict :=
  if (idx =? 0) || negb (edited_previous v) then
    rule_unedited_previous start end_
  else if idx + 1 =? len_start then rule_last v start end_
  else rule_middle v start end_.

(** [[i for i, (s, e) in enumerate(zip(start, end)) if s != e]] *)
Definition differing (start end_ : list Z) : list Z :=
  (fun ise : Z * (Z * Z) => ise.1)
    <$> filter (fun ise : Z * (Z * Z) => ise.2.1 ≠ ise.2.2)
               (PyList.enumerate (zip start end_)).

(** The bookkeeping after the rule: [edited_previous = start != end] and,
    for an edited line, the count and the first edited cell. *)
Definition track (v : vars) (start end_ : list Z) : res vars :=
  if decide (start ≠ end_) then
    let? idx := PyList.getitem (differing start end_) 0 in
    let? old := PyList.getitem start idx in
    let? new := PyList.getitem end_ idx in
    Ok (mk_vars true (edits v + 1) idx old new)
  else
    Ok (mk_vars false (edits v) (edited_idx v) (edited_old v)
                (edited_new v)).

(** How the loop stands after some iterations. *)
Inductive flow : Type :=
| Continue (v : vars)
| Return (b : bool).

(** One iteration of the [for] loop. *)
Definition check_row (len_start : Z) (v : vars) (idx : Z)
    (start end_ : list Z) : res flow :=
  let? r := rule len_start v idx start end_ in
  match r with
  | ReturnFalse => Ok (Return false)
  | Expect expect_edit =>
      let? v' := track v start end_ in
      (* Check that we didn't edit a line we didn't expect to. *)
      if edited_previous v' && negb expect_edit then Ok (Return false)
      else Ok (Continue v')
  end.

(** The iterations over [rows], starting at line [idx]. *)
Fixpoint run_rows (len_start : Z) (v : vars) (idx : Z)
    (rows : list (list Z * list Z)) : res flow :=
  match rows with
  | [] => Ok (Continue v)
  | (start, end_) :: rest =>
      let? f := check_row len_start v idx start end_ in
      match f with
      | Return b => Ok (Return b)
      | Continue v' => run_rows len_start v' (idx + 1) rest
      end
  end.

(** The loop of [_data_correct] and the [return True] after it, entered
    with [edited_previous = False] and the given values of [edits],
    [edited_idx], [edited_old] and [edited_new]. *)
Definition _data_correct_loop (edits0 idx0 old0 new0 : Z)
    (start_data end_data : list (list Z)) : res bool :=
  let? f := run_rows (Z.of_nat (length start_data))
                     (mk_vars false edits0 idx0 old0 new0) 0
                     (zip start_data end_data) in
  match f with
  | Return b => Ok b
  | Continue _ => Ok true
  end.

(** Number of lines among [rows] (pairs of a reference and an edited
    line) whose edited line differs from its reference. *)
Definition edited_count (rows : list (list Z * list Z)) : Z :=
  Z.of_nat (length (filter (fun se : list Z * list Z => se.1 ≠ se.2) rows)).

(** [a, b, c, d = values] *)
Definition unpack4 (values : list Z) : res (Z * Z * Z * Z) :=
  match values with
  | [a; b; c; d] => Ok (a, b, c, d)
  | _ => Raise ValueError
  end.

(** [_data_correct()] on the contents of the two tables.  The source
    unpacks the three-element list [[0, 0, 0]] into four names. *)
Definition _data_correct_rows (start_data end_data : list (list Z))
  : res bool :=
  let? init := unpack4 [0; 0; 0] in
  let '(edits0, idx0, old0, new0) := init in
  _data_correct_loop edits0 idx0 old0 new0 start_data end_data.

(** [self._data_correct()] *)
Definition _data_correct (self : t) : res bool :=
  _data_correct_rows (start_rows self) (end_rows self).

(** *** The methods that talk to the terminal *)

Section WithTerminal.
Context {P : Type}.

(** [self.failure_prefix] of [programs.program.TerminalProgram]. *)
Variable failure_prefix : string.

(** The program object and the terminal it was created for. *)
Definition world : Type := t * Terminal.t P.

(** [_output_data()] *)
Definition _output_data : M world unit := fun '(self, term) =>
  match PyList.getitem (start_rows self) 0 with
  | Raise e => (Raise e, (self, term))
  | Ok row0 =>
      let col_count := length row0 in
      let header :=
        [""%string;
         ("   | " ++ PyStr.join "  "
            ((fun i => PyStr.format_d 4 (Z.of_nat i)) <$> seq 0 col_count))
           %string;
         PyStr.replicate_char (5 + 6 * col_count) "-"] in
      let body :=
        ((fun ir : Z * list Z =>
            (PyStr.format_d 2 ir.1 ++ " | "
             ++ PyStr.join "  " (PyStr.format_hex04 <$> ir.2))%string)
           <$> PyList.enumerate (start_rows self)) ++ [""%string] in
      (Ok tt, (self, Terminal.output body (Terminal.output header term)))
  end.

(** [start()], with the table that [_generate_data()] drew.  The row
    objects are new; [list(self._start_data)] makes a new outer list of
    the same row objects. *)
Definition start (data : list (list Z)) : M world unit :=
  fun '(self, term) =>
    let _start_data := seq (length (heap self)) (length data) in
    let self' :=
      {| _completed := _completed self;
         _row := 0;
         _col := 0;
         _state := QUERY_ROW;
         _start_data := _start_data;
         _end_data := _start_data;
         heap := heap self ++ data |} in
    _output_data (self', term).

(** [completed()] and [exited()] *)
Definition completed (self : t) : bool := _completed self.
Definition exited (self : t) : bool :=
  match _state self with
  | FINISHED => true
  | _ => false
  end.

(** [prompt] *)
Definition prompt (self : t) : res (option string) :=
  match _state self with
  | QUERY_ROW =>
      Ok (Some ("Edit line " ++ PyStr.format_d 0 (_row self)
                  ++ "? (y/n)")%string)
  | ENTER_COL => Ok (Some "Edit col num: "%string)
  | ENTER_VAL =>
      let? row := PyList.getitem (start_rows self) (_row self) in
      let? v := PyList.getitem row (_col self) in
      Ok (Some ("Change " ++ PyStr.format_hex04 v
                  ++ " to (leave empty to cancel): ")%string)
  | FINISHED => Ok None
  end.

(** [_check_finished()] *)
Definition _check_finished : M world unit := fun '(self, term) =>
  if _row self =? Z.of_nat (length (_start_data self)) then
    let self1 := set_state FINISHED self in
    match _data_correct self1 with
    | Raise e => (Raise e, (self1, term))
    | Ok true => (Ok tt, (set_completed true self1, term))
    | Ok false =>
        (Ok tt,
         (self1,
          Terminal.freeze _FREEZE_TIME
            (Terminal.output
               [(failure_prefix
                 ++ "corruption detected in system file, repairing!")
                  %string] term)))
    end
  else (Ok tt, (self, term)).

(** [self._end_data[self._row][self._col] = value] *)
Definition write_cell (value : Z) (self : t) : res t :=
  let? r := PyList.getitem (_end_data self) (_row self) in
  let? row' := PyList.setitem (deref (heap self) r) (_col self) value in
  Ok (set_heap (<[r := row']> (heap self)) self).

(** [text_input(line)] *)
Definition text_input (line : string) : M world unit :=
  fun '(self, term) =>
    (* Remove any leading whitespace and convert to lowercase. *)
    let line := PyStr.lower (PyStr.lstrip line) in
    match _state self with
    | QUERY_ROW =>
        if PyStr.startswith line "y"
        then _check_finished (set_state ENTER_COL self, term)
        else _check_finished (set_row (_row self + 1) self, term)
    | ENTER_COL =>
        match PyStr.int 10 line with
        | Raise ValueError =>
            (Raise (BadInput "Not a number"), (self, term))
        | Raise e => (Raise e, (self, term))
        | Ok col =>
            let self1 := set_col col self in
            match PyList.getitem (start_rows self1) 0 with
            | Raise e =>
                if col <? 0
                then (Raise (BadInput "Column out of range"),
                      (self1, term))
                else (Raise e, (self1, term))
            | Ok row0 =>
                if (col <? 0) || (Z.of_nat (length row0) <=? col)
                then (Raise (BadInput "Column out of range"),
                      (self1, term))
                else _check_finished (set_state ENTER_VAL self1, term)
            end
        end
    | ENTER_VAL =>
        (* If the user has cancelled, go back to the row query. *)
        if decide (line = ""%string)
        then _check_finished (set_state QUERY_ROW self, term)
        else
          match PyStr.int 16 line with
          | Raise ValueError =>
              (Raise (BadInput "Not a number"), (self, term))
          | Raise e => (Raise e, (self, term))
          | Ok value =>
              match write_cell value self with
              | Raise ValueError =>
                  (Raise (BadInput "Not a number"), (self, term))
              | Raise e => (Raise e, (self, term))
              | Ok self1 =>
                  _check_finished
                    (set_state QUERY_ROW
                       (set_row (_row self1 + 1) self1), term)
              end
          end
    | FINISHED => _check_finished (self, term)
    end.

(** A session: the lines given to [text_input] one after the other,
    stopping at the first exception that is not caught. *)
Fixpoint text_inputs (lines : list string) : M world unit :=
  match lines with
  | [] => ret tt
  | line :: rest => text_input line ;;; text_inputs rest
  end.

End WithTerminal.

End HexEditor.

(** The hex editor as a program of the terminal; [data] is the table that
    [_generate_data] draws when the program is started. *)
Definition hexedit_program (failure_prefix : string) (data : list (list Z))
  : Terminal.Program HexEditor.t :=
  {| Terminal.completed := HexEditor.completed;
     Terminal.security_type := fun _ => HexEditor.security_type;
     Terminal.help := fun _ => HexEditor.help;
     Terminal.prompt := HexEditor.prompt;
     Terminal.start := HexEditor.start data;
     Terminal.text_input := HexEditor.text_input failure_prefix |}.

(** ** Sample data used by the examples *)

Module Samples.

(** A terminal with no programs registered, at clock 0, with 300 s left. *)
Definition terminal0 : Terminal.t HexEditor.t :=
  Terminal.mk "" [] "$ " (CommandHistory.init Terminal._HISTORY_SIZE)
              ∅ None ∅ None None 0
              (CountdownTimer.init 300 Terminal._TIMER_WARNING_SECS)
              (20, 200, 20) [].

(** A table [_generate_data] can draw in which every row takes branch (x)
    of the first rule set: first cell at least 7, no zero, three cells at
    odd positions. *)
Definition quiet_table : list (list Z) :=
  [[9; 3; 9; 4; 9; 9]; [12; 1; 2; 3; 4; 8]; [7; 7; 7; 7; 7; 7]].

(** A table whose first row takes branch (d) and already has a zero in
    the cell that (d) names. *)
Definition lucky_table : list (list Z) :=
  [[1; 0; 9; 9; 9; 9]; [9; 9; 9; 9; 9; 9]; [9; 9; 9; 9; 9; 9]].

(** A table whose first row starts with 6. *)
Definition six_table : list (list Z) :=
  [[6; 1; 2; 3; 4; 5]; [9; 9; 9; 9; 9; 9]; [9; 9; 9; 9; 9; 9]].

(** A table whose line 1 takes branch (d), which asks for cell 1 to be
    zeroed, and whose last line ends in 4. *)
Definition mismatch_table : list (list Z) :=
  [[9; 3; 9; 4; 9; 9]; [1; 5; 9; 9; 9; 9]; [9; 9; 9; 9; 9; 4]].

(** A two-line file and a correct edit of it: line 0 takes (d) and gets
    its cell 1 zeroed, line 1 is the last line and gets the edit count. *)
Definition edited_pair : list (list Z * list Z) :=
  [([1; 5; 9; 9; 9; 9], [1; 0; 9; 9; 9; 9]);
   ([9; 9; 9; 9; 9; 4], [9; 9; 9; 9; 9; 1])].

(** A level with two hex editors: [door] needs [hexedit] completed. *)
Definition level_terminal : Terminal.t HexEditor.t :=
  Terminal.mk "" [] "$ " (CommandHistory.init Terminal._HISTORY_SIZE)
    {[ "hexedit"%string := HexEditor.init; "door"%string := HexEditor.init ]}
    None
    {[ "door"%string := ["hexedit"%string] ]}
    None None 0
    (CountdownTimer.init 300 Terminal._TIMER_WARNING_SECS)
    (20, 200, 20) [].


(** pygame renders colours whose components are bytes. *)
Definition byte_colour (c : Z * Z * Z) : bool :=
  let '(r, g, b) := c in
  (0 <=? r) && (r <=? 255) && (0 <=? g) && (g <=? 255)
  && (0 <=? b) && (b <=? 255).

(** A value for [failure_prefix]: a colour directive and a tag. *)
Definition failure_prefix : string := "<c r>[FAIL] ".

(** A program object fresh from [__init__]. *)
Definition world0 : HexEditor.t * Terminal.t HexEditor.t :=
  (HexEditor.init, terminal0).

End Samples.

From Stdlib Require Import Sorted.

(** ** Predicates used by the further properties *)

Module Invariants.

(** No entry of a history equals the entry next to it. *)
Definition no_adjacent_repeat (l : list string) : Prop :=
∀ i x y, l !! i = Some x → l !! S i = Some y → x ≠ y.

(** The cursor of a history is at -1 or on an entry. *)
Definition cursor_in_range (h : CommandHistory.t) : Prop :=
-1 ≤ CommandHistory._pos h
< Z.of_nat (length (CommandHistory._history h)).

(** What holds of a hex editor between [start()] on a table of rows of
  [ncols] cells and the end of the session: the two tables are the same
  list of distinct, allocated rows of [ncols] cells; the row cursor is
  within the file, and short of its end until the program is FINISHED;
  in ENTER_VAL the column cursor is within a row. *)
Definition consistent (ncols : nat) (self : HexEditor.t) : Prop :=
HexEditor._end_data self = HexEditor._start_data self
∧ NoDup (HexEditor._start_data self)
∧ HexEditor._start_data self ≠ []
∧ Forall (λ r, ∃ row, HexEditor.heap self !! r = Some row
                      ∧ length row = ncols)
         (HexEditor._start_data self)
∧ 0 ≤ HexEditor._row self
    ≤ Z.of_nat (length (HexEditor._start_data self))
∧ (HexEditor._state self ≠ HexEditor.FINISHED →
   HexEditor._row self < Z.of_nat (length (HexEditor._start_data self)))
∧ (HexEditor._state self = HexEditor.ENTER_VAL →
   0 ≤ HexEditor._col self < Z.of_nat ncols).

(** The cell at row [i], column [j] of a table, if there is one. *)
Definition cell (rows : list (list Z)) (i j : nat) : option Z :=
match rows !! i with
| Some row => row !! j
| None => None
end.

(** A string of lower-case hexadecimal digits, and the number it denotes
  when read after a prefix that denotes [acc]. *)
Fixpoint all_hex (s : string) : Prop :=
match s with
| EmptyString => True
| String c s' => (∃ d, 0 ≤ d < 16 ∧ c = PyStr.hex_digit d) ∧ all_hex s'
end.

Fixpoint hex_fold (acc : Z) (s : string) : Z :=
match s with
| EmptyString => acc
| String c s' => hex_fold (acc * 16 + default 0 (PyStr.digit_value c)) s'
end.

End Invariants.

(** ** [terminal.py]: the reboot sequence of Terminal *)

Module Reboot.
Import Py.

Definition _VISIBLE_LINES : Z := 29.
Definition PAUSE_LEN : Z := 20.

(** The reboot attributes of a terminal; they sit beside the attributes of
  [Terminal.t]. *)
Record t : Type := mk {
_rebooting : bool;
_reboot_update_time : Z;
_reboot_buf : list (Z * string)      (* deque of (pause, line) *)
}.

(** Their values in [__init__], before [reboot()] is called. *)
Definition init : t := mk false 0 [].

Section Methods.
Context {P : Type}.

(** The clock of the terminal reads [now]. *)
Definition at_time (now : Z) (term : Terminal.t P) : Terminal.t P :=
Terminal.mk (Terminal._current_line term) (Terminal._buf term)
(Terminal._prompt term) (Terminal._cmd_history term)
(Terminal._programs term) (Terminal._current_program term)
(Terminal._depends term) (Terminal._freeze_start term)
(Terminal._freeze_time term) now (Terminal._countdown_timer term)
(Terminal._TEXT_COLOUR term) (Terminal.start_log term).

(** The welcome message. *)
Definition banner (secs_left : Z) : list (Z * string) :=
[(PAUSE_LEN, PyStr.replicate_char 60 "-");
(PAUSE_LEN, "Mainframe terminal"%string);
(PAUSE_LEN, ""%string);
(PAUSE_LEN,
("You have " ++ PyStr.format_d 0 secs_left
   ++ "s to login before terminal is locked down.")%string);
(PAUSE_LEN, ""%string);
(PAUSE_LEN,
"Tip of the day: press ctrl+c to cancel current command."%string);
(PAUSE_LEN, PyStr.replicate_char 60 "-")].

Definition end_msgs (term : Terminal.t P) : list (Z * string) :=
if decide (is_Some (Terminal._programs term !! "login"%string))
then [(PAUSE_LEN,
     "Type 'login' to log in, or 'help' to list available commands"
       %string)]
else [(PAUSE_LEN, "Type 'help' to list available commands"%string)].

(** [reboot(msg)] *)
Definition reboot (msg : string) (s : Terminal.t P * t) : Terminal.t P * t :=
let '(term, rb) := s in
(* Clear the buffer. *)
let term1 := Terminal.set_buf [] term in
(* Display welcome message. *)
let buf1 :=
_reboot_buf rb
++ banner (CountdownTimer.secs_left (Terminal._countdown_timer term)) in
let buf2 :=
if decide (msg ≠ ""%string)
then buf1 ++ [(PAUSE_LEN * 25, ""%string); (PAUSE_LEN * 50, msg)]
else buf1 in
(* Push banner to top, leaving space for end messages, and for current
 line. *)
let blank_lines :=
_VISIBLE_LINES - Z.of_nat (length buf2)
- Z.of_nat (length (end_msgs term)) - 1 in
(term1,
mk true (Terminal.time term)
  (buf2 ++ replicate (Z.to_nat blank_lines) (PAUSE_LEN, ""%string)
        ++ end_msgs term)).

(** [_run_reboot()] *)
Definition _run_reboot : M (Terminal.t P * t) unit := fun '(term, rb) =>
if _rebooting rb && (_reboot_update_time rb <=? Terminal.time term) then
match _reboot_buf rb with
| [] => (Raise IndexError, (term, rb))
| (pause, line) :: rest =>
    let term1 := Terminal.output [line] term in
    match rest with
    | [] => (Ok tt, (term1, mk false (_reboot_update_time rb) []))
    | _ :: _ =>
        let residual := Terminal.time term - _reboot_update_time rb in
        (Ok tt,
         (term1, mk true (Terminal.time term + pause - residual) rest))
    end
end
else (Ok tt, (term, rb)).

(** [n] frames in which the clock reads [now]. *)
Fixpoint frames (n : nat) : M (Terminal.t P * t) unit :=
match n with
| O => ret tt
| S n' => _run_reboot ;;; frames n'
end.

End Methods.

End Reboot.

(** ** More sample data *)

Module MoreSamples.
Import Samples.

(** The level of [level_terminal] with both programs completed. *)
Definition finished_level : Terminal.t HexEditor.t :=
Terminal.set_programs
  {[ "hexedit"%string := HexEditor.set_completed true HexEditor.init;
     "door"%string := HexEditor.set_completed true HexEditor.init ]}
  level_terminal.

(** The hex editor of the level, drawing [quiet_table]. *)
Definition level_program : Terminal.Program HexEditor.t :=
hexedit_program failure_prefix quiet_table.

(** The level after "hexedit" and "y" were entered, with "zz" typed at the
  column prompt. *)
Definition at_column_prompt : Terminal.t HexEditor.t :=
Terminal.set_current_line "zz"
  (@Terminal.enter_all _ level_program byte_colour
     ["hexedit"; "y"]%string level_terminal).2.

(** A session on [quiet_table] after [start()], after "y", and after "y"
  and column "2". *)
Definition started : HexEditor.world :=
(HexEditor.start quiet_table world0).2.
Definition asked_column : HexEditor.world :=
(HexEditor.text_inputs failure_prefix ["y"]%string started).2.
Definition asked_value : HexEditor.world :=
(HexEditor.text_inputs failure_prefix ["y"; "2"]%string started).2.

(** A reboot with two lines left, and a terminal whose clock reads 100. *)
Definition two_lines : Reboot.t :=
Reboot.mk true 0 [(20, "a"%string); (30, "b"%string)].
Definition terminal_at_100 : Terminal.t HexEditor.t :=
Reboot.at_time 100 terminal0.

(** The terminal one second after [reboot()] at clock 0. *)
Definition rebooted : Terminal.t HexEditor.t * Reboot.t :=
Reboot.reboot "" (terminal0, Reboot.init).
Definition terminal_at_1000 : Terminal.t HexEditor.t :=
Reboot.at_time 1000 rebooted.1.

End MoreSamples.

(** * Properties *)

(** ** CountdownTimer *)

Section CountdownTimer_facts.
Import CountdownTimer.

Lemma crossed_strip secs times : crossed secs times ++ strip secs times = times.
Proof.
  induction times as [|th rest IH]; simpl; [done|].
  destruct (secs <=? th); simpl; [by rewrite IH | done].
Qed.

End CountdownTimer_facts.

Section CountdownTimer_lifetime.
Import CountdownTimer.

Lemma update_traced_queue ms c :
  crossed_by (update_traced ms c).2 ++ _flash_times (update_traced ms c).1
    = _flash_times c
  ∧ consumes_head (update_traced ms c).2.
Proof.
  unfold update_traced, consumes_head.
  destruct (_timeleft c - ms <=? 0); simpl; [by auto|].
  set (fs := match _flash_start c with
             | Some fs => if _FLASH_TIME <? fs - (_timeleft c - ms)
                          then None else Some fs
             | None => None
             end).
  destruct fs; simpl; [by auto|].
  destruct (_flash_times c) as [|th rest] eqn:Hq; simpl; [by auto|].
  destruct ((_timeleft c - ms) / 1000 <=? th) eqn:Hle;
    cbn [fst snd crossed_by _flash_times]; [|by auto].
  split; [|right; by eexists _, _].
  simpl. f_equal. apply crossed_strip.
Qed.

Lemma run_queue steps : ∀ c,
  concat (crossed_by <$> (run steps c).2) ++ _flash_times (run steps c).1
    = _flash_times c
  ∧ Forall consumes_head (run steps c).2.
Proof.
  induction steps as [|ms steps IH]; intros c; simpl.
  - by split.
  - destruct (update_traced_queue ms c) as [Hq Hh].
    destruct (update_traced ms c) as [c1 e]; simpl in *.
    destruct (IH c1) as [Hq' Hh'].
    destruct (run steps c1) as [c2 es]; simpl in *.
    split; [|by constructor].
    rewrite <- Hq, <- Hq'. by rewrite <- !app_assoc.
Qed.

Lemma starts_le_consumed es :
  Forall consumes_head es →
  (starts es ≤ length (concat (crossed_by <$> es)))%nat.
Proof.
  unfold starts. induction 1 as [|e es He _ IH]; [done|].
  rewrite filter_cons, fmap_cons, concat_cons, length_app.
  destruct He as [->|(th & more & ->)]; simpl; lia.
Qed.

(** Once the queue is empty, no call of [update] starts a flash window. *)
Lemma exhausted_never_flashes steps c :
  _flash_times c = [] → starts (run steps c).2 = 0%nat.
Proof.
  intros Hq. destruct (run_queue steps c) as [Hc Hh].
  apply starts_le_consumed in Hh.
  rewrite Hq in Hc. apply (f_equal length) in Hc.
  rewrite length_app in Hc. simpl in Hc. lia.
Qed.

(** C8. Over any sequence of [update] calls (nonnegative steps or not),
    from any timer: the thresholds removed by the flash windows that were
    started, in order, followed by the thresholds still queued, are exactly
    the queue the timer began with.  Every started window removed at
    least the head of the queue, so each threshold belongs to at most one
    started window and at most as many windows start as thresholds were
    queued; with an empty queue that number is zero.  For a fresh timer
    the queue is the warning mark, 15, 5, 4, 3, 2, 1. *)
Theorem C8_threshold_starts_one_flash (c : t) (steps : list Z) :
  concat (crossed_by <$> (run steps c).2) ++ _flash_times (run steps c).1
    = _flash_times c
  ∧ Forall consumes_head (run steps c).2
  ∧ (starts (run steps c).2 ≤ length (_flash_times c))%nat
  ∧ (∀ time_in_s warning_secs,
       _flash_times (init time_in_s warning_secs)
         = [warning_secs; 15; 5; 4; 3; 2; 1])
  ∧ (∀ more,
       starts (run more
         {| _timeleft := _timeleft c; _warning_secs := _warning_secs c;
            _flash_start := _flash_start c; _flash_times := [] |}).2
       = 0%nat).
Proof.
  destruct (run_queue steps c) as [Hc Hh].
  repeat split; try done.
  - apply starts_le_consumed in Hh.
    apply (f_equal length) in Hc. rewrite length_app in Hc. lia.
  - intros more. by apply exhausted_never_flashes.
Qed.

Example countdown_5s_flashes :
  (run [1000; 1000; 1000; 1000; 500] (init 5 30)).2
  = [FlashStarted [30; 15; 5; 4]; NoFlash; NoFlash; NoFlash;
     FlashStarted [3; 2; 1]].
Proof. vm_compute. reflexivity. Qed.

End CountdownTimer_lifetime.

(** ** PyList *)

Section PyList_facts.
Import Py PyList.
Context {A : Type}.

Lemma getitem_in_range (l : list A) (i : Z) :
  0 ≤ i < Z.of_nat (length l) →
  ∃ x, getitem l i = Ok x ∧ l !! Z.to_nat i = Some x.
Proof.
  intros Hi. unfold getitem.
  destruct (Z.ltb_spec i 0); [lia|].
  destruct (Z.ltb_spec i 0); [lia|].
  destruct (Z.leb_spec (Z.of_nat (length l)) i); [lia|]. simpl.
  destruct (lookup_lt_is_Some_2 l (Z.to_nat i)) as [x Hx]; [lia|].
  rewrite Hx. eauto.
Qed.

Lemma getitem_raises (l : list A) (i : Z) e :
  getitem l i = Raise e → e = IndexError.
Proof.
  unfold getitem.
  repeat match goal with
    | |- context [match ?x with _ => _ end] => destruct x
    end; congruence.
Qed.

Lemma setitem_raises (l : list A) (i : Z) x e :
  setitem l i x = Raise e → e = IndexError.
Proof.
  unfold setitem.
  repeat match goal with
    | |- context [match ?x with _ => _ end] => destruct x
    end; congruence.
Qed.

End PyList_facts.

(** ** CommandHistory *)

Section CommandHistory_facts.
Import Py CommandHistory.

Lemma show_entry_in_range h line :
  0 ≤ _pos h < Z.of_nat (length (_history h)) →
  ∃ cmd, show_entry (h, line) = (Ok tt, (h, Some cmd)).
Proof.
  intros Hp. unfold show_entry.
  destruct (getitem_in_range (_history h) (_pos h) Hp) as (cmd & -> & _).
  eauto.
Qed.

Lemma navigate_up_idle h0 line0 :
  _pos h0 = -1 →
  navigate true (h0, line0) = (Ok tt, (h0, line0)) ∧ _history h0 = []
  ∨ ∃ s, navigate true (h0, line0) = (Ok tt, s) ∧ navigating h0 line0 s.
Proof.
  intros Hp. unfold navigate.
  destruct (Z.ltb_spec (_pos h0 + 1) (Z.of_nat (length (_history h0))))
    as [Hlen|Hlen].
  - right. destruct (Z.eqb_spec (_pos h0) (-1)); [|lia].
    cbn [_pos set_saved_line]. rewrite Hp.
    destruct (show_entry_in_range
                (set_pos (-1 + 1) (set_saved_line line0 h0)) line0)
      as [cmd Hcmd]; [cbn [_pos set_pos _history set_saved_line]; lia|].
    eexists; split; [exact Hcmd|]. exists (-1 + 1), cmd. split; [lia|done].
  - left. split; [done|]. destruct (_history h0); [done|simpl in Hlen; lia].
Qed.

Lemma navigate_up_navigating h0 line0 s :
  navigating h0 line0 s →
  ∃ s', navigate true s = (Ok tt, s') ∧ navigating h0 line0 s'.
Proof.
  intros (p & cmd & Hp & ->). unfold navigate. cbn [_pos set_pos _history
    set_saved_line].
  destruct (Z.ltb_spec (p + 1) (Z.of_nat (length (_history h0)))) as [Hlt|Hge].
  - destruct (Z.eqb_spec p (-1)); [lia|].
    destruct (show_entry_in_range
                (set_pos (p + 1) (set_saved_line line0 h0)) (Some cmd))
      as [cmd' Hcmd]; [simpl; lia|].
    exists (set_pos (p + 1) (set_saved_line line0 h0), Some cmd').
    split; [exact Hcmd|]. exists (p + 1), cmd'. split; [lia|done].
  - eexists; split; [done|]. by exists p, cmd.
Qed.

Lemma presses_up_navigating n : ∀ h0 line0 s,
  navigating h0 line0 s →
  ∃ s', presses n true s = (Ok tt, s') ∧ navigating h0 line0 s'.
Proof.
  induction n as [|n IH]; intros h0 line0 s Hs; simpl.
  - by exists s.
  - destruct (navigate_up_navigating _ _ _ Hs) as (s1 & Hs1 & Hn1).
    destruct (IH _ _ _ Hn1) as (s2 & Hs2 & Hn2).
    exists s2. split; [|done]. unfold bind. by rewrite Hs1.
Qed.

Lemma presses_up_empty n : ∀ h0 line0,
  _pos h0 = -1 → _history h0 = [] →
  presses n true (h0, line0) = (Ok tt, (h0, line0)).
Proof.
  induction n as [|n IH]; intros h0 line0 Hp Hh; simpl; [done|].
  unfold bind, navigate at 1. rewrite Hp, Hh. simpl. by apply IH.
Qed.

Lemma presses_up n h0 line0 :
  _pos h0 = -1 →
  presses n true (h0, line0) = (Ok tt, (h0, line0))
  ∨ ∃ s, presses n true (h0, line0) = (Ok tt, s) ∧ navigating h0 line0 s.
Proof.
  intros Hp. destruct n as [|n]; [by left|]. simpl.
  destruct (navigate_up_idle h0 line0 Hp) as [[Hs Hh]|(s & Hs & Hn)].
  - left. unfold bind. rewrite Hs. by apply presses_up_empty.
  - right. destruct (presses_up_navigating n _ _ _ Hn) as (s' & Hs' & Hn').
    exists s'. split; [|done]. unfold bind. by rewrite Hs.
Qed.

(** Walking down from entry [p] takes [p] presses to reach entry 0. *)
Lemma presses_down_navigating h0 line0 (j : nat) : ∀ p cmd,
  Z.of_nat j ≤ p < Z.of_nat (length (_history h0)) →
  ∃ cmd', presses j false (set_pos p (set_saved_line line0 h0), Some cmd)
          = (Ok tt, (set_pos (p - Z.of_nat j) (set_saved_line line0 h0),
                     Some cmd')).
Proof.
  induction j as [|j IH]; intros p cmd Hp; simpl.
  - exists cmd. unfold ret. do 3 f_equal. lia.
  - unfold bind, navigate at 1. cbn [_pos set_pos].
    destruct (Z.ltb_spec 0 p); [|lia].
    destruct (show_entry_in_range
                (set_pos (p - 1) (set_saved_line line0 h0)) (Some cmd))
      as [cmd1 Hcmd1]; [simpl; lia|].
    change (set_pos (p - 1) (set_pos p (set_saved_line line0 h0)))
      with (set_pos (p - 1) (set_saved_line line0 h0)).
    rewrite Hcmd1.
    destruct (IH (p - 1) cmd1) as [cmd' Hcmd']; [lia|].
    exists cmd'. rewrite Hcmd'. do 3 f_equal. lia.
Qed.

Lemma presses_add a up : ∀ b s,
  presses (a + b) up s = (presses a up ;;; presses b up) s.
Proof.
  induction a as [|a IH]; intros b s; simpl; [done|].
  unfold bind. destruct (navigate up s) as [[[]|e] s1]; [|done].
  rewrite IH. done.
Qed.

(** C9. From any history whose cursor is at "not navigating" (-1) and any
    current input line: pressing Up [n] times raises nothing and leaves the
    cursor at some position [p]; pressing Down [p + 1] times from there
    brings the cursor back to -1 with the input line equal to the line
    before the navigation, and the cursor is not at -1 after any smaller
    number of Down presses. *)
Theorem C9_up_then_down_restores_line
    (h : t) (line : option string) (n : nat) :
  _pos h = -1 →
  ∃ s, presses n true (h, line) = (Ok tt, s)
       ∧ (∃ h', presses (Z.to_nat (_pos s.1 + 1)) false s
                = (Ok tt, (h', line))
                ∧ _pos h' = -1)
       ∧ (∀ j, (j < Z.to_nat (_pos s.1 + 1))%nat →
               ∃ s', presses j false s = (Ok tt, s') ∧ _pos s'.1 ≠ -1).
Proof.
  intros Hp.
  destruct (presses_up n h line Hp) as [Hs|(s & Hs & p & cmd & Hr & ->)].
  - exists (h, line). split; [done|]. cbn [fst]. rewrite Hp. simpl.
    split; [by exists h|]. intros j Hj. lia.
  - eexists; split; [exact Hs|]. cbn [fst _pos set_pos].
    split.
    + replace (Z.to_nat (p + 1)) with (Z.to_nat p + 1)%nat by lia.
      rewrite presses_add. unfold bind at 1.
      destruct (presses_down_navigating h line (Z.to_nat p) p cmd)
        as [cmd' ->]; [lia|].
      replace (p - Z.of_nat (Z.to_nat p)) with 0 by lia.
      exists (set_pos (-1) (set_saved_line line h)). split; [|done].
      reflexivity.
    + intros j Hj.
      destruct (presses_down_navigating h line j p cmd) as [cmd' ->]; [lia|].
      eexists; split; [done|]. cbn [fst _pos set_pos]. lia.
Qed.

Lemma C9_up_then_down_restores_line_witness :
  let h := {| _history := ["ls"; "hexedit"]; maxlen := 50; _pos := -1;
              _saved_line := None |} in
  _pos h = -1
  ∧ presses 3 true (h, Some "he")
    = (Ok tt, (set_pos 1 (set_saved_line (Some "he") h), Some "hexedit"))
  ∧ (presses 2 false
       (set_pos 1 (set_saved_line (Some "he") h), Some "hexedit")).2.2
    = Some "he".
Proof.
  split; [reflexivity|].
  destruct (C9_up_then_down_restores_line
              {| _history := ["ls"; "hexedit"]; maxlen := 50; _pos := -1;
                 _saved_line := None |} (Some "he") 3 eq_refl)
    as (s & Hs & (h' & Hdown & Hpos) & _).
  vm_compute in Hs. injection Hs as <-.
  split; [vm_compute; reflexivity|].
  vm_compute in Hdown. vm_compute. by injection Hdown as <-.
Defined.

End CommandHistory_facts.

(** ** Terminal: dependency gating *)

Section Terminal_gating.
Import Py Terminal.
Context {P : Type} `{Program P}.
Variable font_renders : Z * Z * Z → bool.

Lemma blocked_on_registered (self : t P) depends_list :
  Forall (λ c, is_Some (_programs self !! c)) depends_list →
  blocked_on self depends_list = Ok (unmet self depends_list).
Proof.
  unfold unmet. induction 1 as [|c rest [p Hp] _ IH]; [done|].
  cbn [blocked_on omap list_omap]. rewrite Hp, IH. cbn [rbind].
  rewrite filter_cons. destruct (completed p) eqn:Hc.
  - by rewrite decide_False by done.
  - by rewrite decide_True by done.
Qed.

Lemma unmet_lists_every_unmet (self : t P) depends_list c p :
  c ∈ depends_list → _programs self !! c = Some p → completed p = false →
  p ∈ unmet self depends_list.
Proof.
  intros Hc Hp Hn. unfold unmet. apply list_elem_of_filter. split; [done|].
  apply list_elem_of_omap. eauto.
Qed.

Lemma blocked_on_cases (self : t P) depends_list :
  Forall (λ c, is_Some (_programs self !! c)) depends_list
  ∧ blocked_on self depends_list = Ok (unmet self depends_list)
  ∨ blocked_on self depends_list = Raise KeyError.
Proof.
  induction depends_list as [|c rest IH].
  - left. by split.
  - destruct (_programs self !! c) as [p|] eqn:Hp.
    + destruct IH as [[Hreg Hrest]|Hraise].
      * left. split; [constructor; eauto|].
        apply blocked_on_registered. constructor; eauto.
      * right. cbn [blocked_on]. by rewrite Hp, Hraise.
    + right. cbn [blocked_on]. by rewrite Hp.
Qed.

(** With an unmet prerequisite the command's program is not started and
    nothing but the buffer changes, also when some prerequisite is not a
    registered command (KeyError, nothing changes at all). *)
Lemma blocked_command_never_started
    (self : t P) (cmd : string) (depends_list : list string) :
  is_Some (_programs self !! cmd) →
  _depends self !! cmd = Some depends_list →
  Exists (λ c, ∃ p, _programs self !! c = Some p ∧ completed p = false)
         depends_list →
  _process_command font_renders cmd self
  = (Ok tt, output [blocked_message cmd (unmet self depends_list)] self)
  ∨ _process_command font_renders cmd self = (Raise KeyError, self).
Proof.
  intros [p0 Hcmd] Hdep Hunmet.
  unfold _process_command, _is_cmd_runnable. rewrite Hcmd, Hdep.
  destruct (blocked_on_cases self depends_list) as [[_ ->]| ->];
    [|by right].
  left. apply Exists_exists in Hunmet as (c & Hc & p & Hp & Hn).
  pose proof (unmet_lists_every_unmet self depends_list c p Hc Hp Hn) as Hin.
  destruct (unmet self depends_list); [by apply elem_of_nil in Hin|done].
Qed.



(** Typing the command on the input line and pressing Enter, with no
    program running: the line is echoed behind the prompt, the command
    goes into the history, the blocked-by message is output and the input
    line is reset; [start()] is not called. *)
Lemma entering_blocked_command
    (self : t P) (line cmd : string) (depends_list : list string) :
  _current_program self = None →
  PyStr.rstrip (PyStr.lstrip line) = cmd →
  cmd ≠ ""%string →
  is_Some (_programs self !! cmd) →
  _depends self !! cmd = Some depends_list →
  Exists (λ c, ∃ p, _programs self !! c = Some p ∧ completed p = false)
         depends_list →
  ∃ r self', enter font_renders line self = (r, self')
             ∧ start_log self' = start_log self
             ∧ _programs self' = _programs self
             ∧ _current_program self' = None
             ∧ (Forall (λ c, is_Some (_programs self !! c)) depends_list →
                r = Ok tt
                ∧ head (_buf self')
                  = Some (blocked_message cmd (unmet self depends_list))).
Proof.
  intros Hcur Hstrip Hne Hcmd Hdep Hunmet.
  unfold enter, _complete_input, get_current_line.
  cbn [_current_program set_current_line _prompt _current_line rbind
       _add_to_buf set_buf].
  rewrite Hcur. cbn [rbind]. rewrite Hstrip.
  destruct (decide (cmd ≠ ""%string)) as [_|]; [|done].
  set (self2 := set_cmd_history _ _).
  destruct Hcmd as [p0 Hcmd].
  unfold _process_command, _is_cmd_runnable.
  change (_programs self2) with (_programs self).
  change (_depends self2) with (_depends self).
  rewrite Hcmd, Hdep.
  destruct (blocked_on_cases self2 depends_list) as [[_ Hok]|Hraise].
  - rewrite Hok.
    apply Exists_exists in Hunmet as (c & Hc & p & Hp & Hn).
    pose proof (unmet_lists_every_unmet self2 depends_list c p Hc Hp Hn)
      as Hin.
    destruct (unmet self2 depends_list) as [|q qs] eqn:Hq;
      [by apply elem_of_nil in Hin|].
    eexists _, _. split; [done|]. repeat split; try done.
    change (unmet self depends_list) with (unmet self2 depends_list).
    by rewrite Hq.
  - rewrite Hraise. eexists _, _. split; [done|].
    split; [done|]. split; [done|]. split; [done|].
    intros Hreg.
    rewrite (blocked_on_registered self2 depends_list) in Hraise by done.
    done.
Qed.

End Terminal_gating.

(** ** HexEditor: the session *)

Section HexEditor_session.
Import Py HexEditor.
Context {P : Type}.
Variable failure_prefix : string.

(** The unpacking at the top of [_data_correct] raises before any row is
    looked at, whatever the tables hold. *)
Lemma _data_correct_rows_raises start_data end_data :
  _data_correct_rows start_data end_data = Raise ValueError.
Proof. reflexivity. Qed.

Lemma _data_correct_raises self : _data_correct self = Raise ValueError.
Proof. reflexivity. Qed.

Lemma _check_finished_at_end (self : t) (term : Terminal.t P) :
  _row self = Z.of_nat (length (_start_data self)) →
  _check_finished failure_prefix (self, term)
  = (Raise ValueError, (set_state FINISHED self, term)).
Proof.
  intros Hrow. unfold _check_finished.
  rewrite Hrow, Z.eqb_refl. by rewrite _data_correct_raises.
Qed.

Lemma _check_finished_before_end (self : t) (term : Terminal.t P) :
  _row self ≠ Z.of_nat (length (_start_data self)) →
  _check_finished failure_prefix (self, term) = (Ok tt, (self, term)).
Proof.
  intros Hrow. unfold _check_finished.
  destruct (Z.eqb_spec (_row self) (Z.of_nat (length (_start_data self))));
    [lia|done].
Qed.

(** [_check_finished] either returns with the world untouched or raises
    ValueError with only the state changed. *)
Lemma _check_finished_cases (self : t) (term : Terminal.t P) :
  _check_finished failure_prefix (self, term) = (Ok tt, (self, term))
  ∨ _check_finished failure_prefix (self, term)
    = (Raise ValueError, (set_state FINISHED self, term)).
Proof.
  destruct (decide (_row self = Z.of_nat (length (_start_data self)))).
  - right. by apply _check_finished_at_end.
  - left. by apply _check_finished_before_end.
Qed.

Lemma start_ok (self : t) (term : Terminal.t P) row data :
  ∃ term',
    start (row :: data) (self, term)
    = (Ok tt,
       ({| _completed := _completed self; _row := 0; _col := 0;
           _state := QUERY_ROW;
           _start_data := seq (length (heap self)) (S (length data));
           _end_data := seq (length (heap self)) (S (length data));
           heap := heap self ++ row :: data |}, term')).
Proof.
  unfold start, _output_data.
  set (self' := {| _completed := _completed self; _row := 0 |}).
  assert (PyList.getitem (start_rows self') 0 = Ok row) as ->.
  { unfold start_rows, rows_of, self'. cbn [heap _start_data length seq].
    rewrite fmap_cons. unfold PyList.getitem. cbn [length].
    assert (deref (heap self ++ row :: data) (length (heap self)) = row)
      as ->.
    { unfold deref. by rewrite list_lookup_middle. }
    replace (0 <? 0) with false by done.
    destruct (Z.leb_spec (Z.of_nat (S (length
      (deref (heap self ++ row :: data) <$> seq (S (length (heap self)))
         (length data))))) 0); [lia|].
    done. }
  eauto.
Qed.

(** Answering "n" in QUERY_ROW for each of the [k] rows that are left. *)
Lemma answer_n_to_the_end (k : nat) : ∀ (self : t) (term : Terminal.t P),
  _state self = QUERY_ROW →
  0 ≤ _row self →
  _row self + Z.of_nat (S k) = Z.of_nat (length (_start_data self)) →
  text_inputs failure_prefix (replicate (S k) "n"%string) (self, term)
  = (Raise ValueError,
     (set_state FINISHED
        (set_row (Z.of_nat (length (_start_data self))) self), term)).
Proof.
  induction k as [|k IH]; intros self term Hst Hrow Hlen.
  - cbn [replicate text_inputs]. unfold bind, text_input. rewrite Hst.
    cbn [PyStr.lower PyStr.lstrip PyStr.map_chars].
    replace (PyStr.startswith _ _) with false by reflexivity.
    rewrite _check_finished_at_end by (cbn [_row _start_data set_row]; lia).
    replace (_row self + 1) with (Z.of_nat (length (_start_data self)))
      by lia.
    done.
  - cbn [replicate text_inputs]. unfold bind at 1. unfold text_input at 1.
    rewrite Hst.
    replace (PyStr.startswith _ _) with false by reflexivity.
    rewrite _check_finished_before_end
      by (cbn [_row _start_data set_row]; lia).
    specialize (IH (set_row (_row self + 1) self) term).
    cbn [replicate text_inputs] in IH.
    rewrite IH; [done|done|cbn [_row set_row]; lia|
                 cbn [_row set_row _start_data]; lia].
Qed.

(** C1. The correctness evaluation never returns a verdict.  Whenever the
    row counter stands at the row count, [_check_finished] sets the state
    to FINISHED and then raises ValueError out of [_data_correct]:
    [completed()] is not set, no message is output and the terminal is
    not frozen.  In particular, after [start()] on any table with at least
    one row, answering "n" for every row ends in that ValueError, which
    [text_input] does not catch. *)
Theorem C1_finished_session_raises_ValueError :
  (∀ (self : t) (term : Terminal.t P),
     _check_finished failure_prefix
       (set_row (Z.of_nat (length (_start_data self))) self, term)
     = (Raise ValueError,
        (set_state FINISHED
           (set_row (Z.of_nat (length (_start_data self))) self), term)))
  ∧ (∀ (self : t) (term : Terminal.t P) row data,
       ∃ self1 term1,
         start (row :: data) (self, term) = (Ok tt, (self1, term1))
         ∧ text_inputs failure_prefix
             (replicate (S (length data)) "n"%string) (self1, term1)
           = (Raise ValueError,
              (set_state FINISHED
                 (set_row (Z.of_nat (S (length data))) self1), term1))
         ∧ _completed self1 = _completed self).
Proof.
  split.
  - intros self term. by apply _check_finished_at_end.
  - intros self term row data.
    destruct (start_ok self term row data) as [term1 Hstart].
    eexists _, term1. split; [exact Hstart|].
    split; [|done].
    rewrite answer_n_to_the_end; cbn [_state _row _start_data]; try done.
    + by rewrite length_seq.
    + rewrite length_seq. lia.
Qed.

(** *** The two tables are one set of rows *)

(** [start()] leaves both tables holding the same row objects. *)
Lemma start_shares_rows data (w w' : t * Terminal.t P) r :
  start data w = (r, w') → _end_data w'.1 = _start_data w'.1.
Proof.
  destruct w as [self term]. unfold start, _output_data.
  destruct (PyList.getitem _ 0); intros [= <- <-]; done.
Qed.

(** A successful write replaces one row object in the heap and nothing
    else; a failed one is an IndexError. *)
Lemma write_cell_cases value self :
  (∃ r row', write_cell value self
             = Ok (set_heap (<[r := row']> (heap self)) self)
             ∧ PyList.getitem (_end_data self) (_row self) = Ok r
             ∧ PyList.setitem (deref (heap self) r) (_col self) value
               = Ok row')
  ∨ write_cell value self = Raise IndexError.
Proof.
  unfold write_cell.
  destruct (PyList.getitem (_end_data self) (_row self)) as [r|e] eqn:Hr;
    cbn [rbind].
  - destruct (PyList.setitem (deref (heap self) r) (_col self) value)
      as [row'|e] eqn:Hrow; cbn [rbind].
    + left. by exists r, row'.
    + right. by rewrite (setitem_raises _ _ _ _ Hrow).
  - right. by rewrite (getitem_raises _ _ _ Hr).
Qed.

(** [text_input] never rebinds [_start_data] or [_end_data]. *)
Lemma text_input_keeps_refs line (w w' : t * Terminal.t P) r :
  text_input failure_prefix line w = (r, w') →
  _start_data w'.1 = _start_data w.1 ∧ _end_data w'.1 = _end_data w.1.
Proof.
  destruct w as [self term]. unfold text_input.
  repeat match goal with
    | |- context [write_cell ?v ?s] =>
        destruct (write_cell_cases v s) as [(? & ? & -> & _)| ->]
    | |- _check_finished _ (?s, ?t) = _ → _ =>
        destruct (_check_finished_cases s t) as [-> | ->];
        intros [= <- <-]; done
    | |- (_, _) = _ → _ => intros [= <- <-]; done
    | |- context [match ?x with _ => _ end] => destruct x eqn:?; cbn [rbind]
    end.
Qed.

(** So whatever is written through one table is read through the other:
    once the tables share their rows they have the same contents after
    every input line. *)
Lemma tables_stay_equal line (w w' : t * Terminal.t P) r :
  _end_data w.1 = _start_data w.1 →
  text_input failure_prefix line w = (r, w') →
  end_rows w'.1 = start_rows w'.1.
Proof.
  intros Hshare Hstep.
  destruct (text_input_keeps_refs _ _ _ _ Hstep) as [Hs He].
  unfold end_rows, start_rows. by rewrite Hs, He, Hshare.
Qed.

(** *** Bad input *)

Lemma _check_finished_not_BadInput (self : t) (term : Terminal.t P)
    reason w' :
  _check_finished failure_prefix (self, term) ≠ (Raise (BadInput reason), w').
Proof. destruct (_check_finished_cases self term) as [-> | ->]; done. Qed.

(** C3 (amended). When [text_input] raises the bad-input signal, the
    terminal is untouched and the program's stage, row cursor, completed
    flag, both tables and the rows behind them are as before the call.
    The column cursor is as before too when the column was not a number or
    the value was not hexadecimal; when the column was a number out of
    range, the cursor holds that number. *)
Theorem C3_bad_input_keeps_all_but_column
    line (self self' : t) (term term' : Terminal.t P) reason :
  text_input failure_prefix line (self, term)
  = (Raise (BadInput reason), (self', term')) →
  term' = term
  ∧ set_col (_col self) self' = self
  ∧ (self' = self
     ∨ ∃ col, _state self = ENTER_COL
              ∧ reason = "Column out of range"%string
              ∧ PyStr.int 10 (PyStr.lower (PyStr.lstrip line)) = Ok col
              ∧ self' = set_col col self).
Proof.
  assert (Hself : set_col (_col self) self = self) by by destruct self.
  unfold text_input.
  repeat match goal with
    | |- _check_finished _ _ = _ → _ =>
        intros Hc; by apply _check_finished_not_BadInput in Hc
    | |- context [write_cell ?v ?s] =>
        destruct (write_cell_cases v s) as [(? & ? & -> & _)| ->]
    | |- (_, _) = _ → _ => intros [= <- <- <-]
    | |- (_, _) = _ → _ => intros [= <- <-]
    | |- (_, _) = _ → _ => intros [=]
    | |- context [match ?x with _ => _ end] => destruct x eqn:?
    end.
  all: try (split; [done|split; [done|by left]]).
  all: try match goal with
         | H : PyList.getitem _ _ = Raise ?e |- _ =>
             apply getitem_raises in H; congruence
         end.
  all: split; [done|split; [by destruct self|right; eauto]].
Qed.

(** *** The row question *)

(** The normalised line starts with "y" exactly when the line, after its
    leading whitespace, starts with "y" or "Y". *)
Lemma starts_with_y line :
  PyStr.startswith (PyStr.lower (PyStr.lstrip line)) "y" = true
  ↔ ∃ rest, PyStr.lstrip line = String "y" rest
            ∨ PyStr.lstrip line = String "Y" rest.
Proof.
  destruct (PyStr.lstrip line) as [|c rest].
  - split; [done|]. by intros (? & [[=]|[=]]).
  - change (PyStr.startswith (PyStr.lower (String c rest)) "y")
      with (Ascii.eqb "y" (PyStr.lower_char c) && true).
    rewrite andb_true_r. split.
    + intros Hc. exists rest.
      destruct c as [[] [] [] [] [] [] [] []]; vm_compute in Hc;
        try discriminate Hc; auto.
    + intros (rest' & [[= -> _]|[= -> _]]); reflexivity.
Qed.

(** C10. In QUERY_ROW a line that, stripped of leading whitespace and
    lowercased, does not start with "y" advances the row cursor by one,
    raises no bad-input signal and does not lead to ENTER_COL; a line that
    does start with "y" leaves the row cursor alone and, unless the cursor
    already stands at the row count, moves the program to ENTER_COL. *)
Theorem C10_query_row_anything_but_y_is_no
    line (self : t) (term : Terminal.t P) :
  _state self = QUERY_ROW →
  let r := (text_input failure_prefix line (self, term)).1 in
  let self' := (text_input failure_prefix line (self, term)).2.1 in
  if PyStr.startswith (PyStr.lower (PyStr.lstrip line)) "y"
  then _row self' = _row self
       ∧ (_row self = Z.of_nat (length (_start_data self))
          ∨ (r = Ok tt ∧ _state self' = ENTER_COL))
  else _row self' = _row self + 1
       ∧ (∀ reason, r ≠ Raise (BadInput reason))
       ∧ _state self' ≠ ENTER_COL.
Proof.
  intros Hst. unfold text_input. rewrite Hst.
  destruct (PyStr.startswith _ _).
  - destruct (decide (_row self = Z.of_nat (length (_start_data self))))
      as [Hrow|Hrow].
    + rewrite _check_finished_at_end by done. cbn. auto.
    + rewrite _check_finished_before_end by done. cbn. auto.
  - destruct (_check_finished_cases (set_row (_row self + 1) self) term)
      as [-> | ->]; cbn; rewrite ?Hst; done.
Qed.

End HexEditor_session.

(** ** HexEditor: the row loop of [_data_correct] *)

Section HexEditor_loop.
Import Py HexEditor.

Lemma rbind_Ok {A B} (r : res A) (k : A → res B) b :
  rbind r k = Ok b → ∃ a, r = Ok a ∧ k a = Ok b.
Proof. destruct r; cbn; [eauto|done]. Qed.

(** An iteration only ever returns False. *)
Lemma check_row_returns n v idx s e b :
  check_row n v idx s e = Ok (Return b) → b = false.
Proof.
  unfold check_row. intros (r & _ & Hr)%rbind_Ok.
  destruct r as [|expect]; [congruence|].
  apply rbind_Ok in Hr as (v' & _ & Hr).
  destruct (edited_previous v' && negb expect); congruence.
Qed.

Lemma run_rows_returns n rows : ∀ v idx b,
  run_rows n v idx rows = Ok (Return b) → b = false.
Proof.
  induction rows as [|[s e] rows IH]; intros v idx b; cbn [run_rows];
    [done|].
  intros (f & Hf & Hrest)%rbind_Ok. destruct f as [v'|b'].
  - by eapply IH.
  - injection Hrest as <-. by eapply check_row_returns.
Qed.

(** The loop accepts exactly when every iteration lets it go on. *)
Lemma loop_true_iff edits0 idx0 old0 new0 start_data end_data :
  _data_correct_loop edits0 idx0 old0 new0 start_data end_data = Ok true
  ↔ ∃ v, run_rows (Z.of_nat (length start_data))
                  (mk_vars false edits0 idx0 old0 new0) 0
                  (zip start_data end_data) = Ok (Continue v).
Proof.
  unfold _data_correct_loop. split.
  - intros (f & Hf & Hr)%rbind_Ok. destruct f as [v|b]; [eauto|].
    apply run_rows_returns in Hf. congruence.
  - intros [v ->]. done.
Qed.

Lemma run_rows_app n pre : ∀ post v idx,
  run_rows n v idx (pre ++ post)
  = let? f := run_rows n v idx pre in
    match f with
    | Return b => Ok (Return b)
    | Continue v' => run_rows n v' (idx + Z.of_nat (length pre)) post
    end.
Proof.
  induction pre as [|[s e] pre IH]; intros post v idx.
  - cbn. by rewrite Z.add_0_r.
  - cbn [app run_rows length].
    destruct (check_row n v idx s e) as [[v'|b]|err]; cbn [rbind]; try done.
    rewrite IH. by replace (idx + 1 + Z.of_nat (length pre))
                     with (idx + Z.of_nat (S (length pre))) by lia.
Qed.

(** *** Bookkeeping *)

Lemma track_unedited v s :
  track v s s
  = Ok (mk_vars false (edits v) (edited_idx v) (edited_old v)
                (edited_new v)).
Proof. unfold track. by rewrite decide_False by (by intros []). Qed.

Lemma track_Ok v s e v' :
  track v s e = Ok v' →
  edited_previous v' = bool_decide (s ≠ e)
  ∧ edits v' = edits v + (if decide (s ≠ e) then 1 else 0).
Proof.
  unfold track. destruct (decide (s ≠ e)) as [Hne|Heq].
  - intros (i & _ & (o & _ & (n & _ & [= <-])%rbind_Ok)%rbind_Ok)%rbind_Ok.
    cbn. by rewrite bool_decide_eq_true_2.
  - intros [= <-]. cbn. rewrite bool_decide_eq_false_2 by done.
    split; [done|lia].
Qed.

Lemma check_row_Continue n v idx s e v' :
  check_row n v idx s e = Ok (Continue v') →
  ∃ expect, rule n v idx s e = Ok (Expect expect)
            ∧ track v s e = Ok v'
            ∧ (s ≠ e → expect = true).
Proof.
  unfold check_row. intros (r & Hr & Hk)%rbind_Ok.
  destruct r as [|expect]; [done|].
  apply rbind_Ok in Hk as (v1 & Ht & Hk).
  destruct (edited_previous v1 && negb expect) eqn:Hc; [done|].
  injection Hk as ->. exists expect. repeat split; try done.
  intros Hne. apply track_Ok in Ht as [Hp _].
  rewrite Hp, bool_decide_eq_true_2 in Hc by done.
  by destruct expect.
Qed.

Lemma edited_count_app rows rows' :
  edited_count (rows ++ rows') = edited_count rows + edited_count rows'.
Proof. unfold edited_count. rewrite filter_app, length_app. lia. Qed.

Lemma edited_count_cons s e rows :
  edited_count ((s, e) :: rows)
  = (if decide (s ≠ e) then 1 else 0) + edited_count rows.
Proof.
  unfold edited_count. rewrite filter_cons. cbn [fst snd].
  destruct (decide (s ≠ e)); cbn [length]; lia.
Qed.

(** While the loop goes on, [edits] counts the edited lines seen so far. *)
Lemma run_rows_edits n rows : ∀ v idx v',
  run_rows n v idx rows = Ok (Continue v') →
  edits v' = edits v + edited_count rows.
Proof.
  induction rows as [|[s e] rows IH]; intros v idx v'; cbn [run_rows].
  - intros [= <-]. unfold edited_count. cbn. lia.
  - intros (f & Hf & Hrest)%rbind_Ok. destruct f as [v1|b]; [|done].
    apply check_row_Continue in Hf as (_ & _ & Ht & _).
    apply track_Ok in Ht as [_ Ht]. apply IH in Hrest.
    rewrite edited_count_cons. lia.
Qed.

(** After a line, [edited_previous] tells whether that line was edited. *)
Lemma run_rows_edited_previous n rows s e : ∀ v idx v',
  run_rows n v idx (rows ++ [(s, e)]) = Ok (Continue v') →
  edited_previous v' = bool_decide (s ≠ e).
Proof.
  intros v idx v'. rewrite run_rows_app.
  intros (f & _ & Hrest)%rbind_Ok. destruct f as [v1|b]; [|done].
  cbn [run_rows] in Hrest.
  apply rbind_Ok in Hrest as (f & Hf & Hrest). destruct f as [v2|b]; [|done].
  injection Hrest as ->.
  apply check_row_Continue in Hf as (_ & _ & Ht & _).
  by apply track_Ok in Ht as [Ht _].
Qed.

(** *** Tables without edits *)

Lemma check_row_unedited n v idx s :
  edited_previous v = false →
  check_row n v idx s s
  = match rule_unedited_previous s s with
    | Ok (Expect _) => Ok (Continue v)
    | Ok ReturnFalse => Ok (Return false)
    | Raise err => Raise err
    end.
Proof.
  intros Hv. unfold check_row, rule. rewrite Hv, orb_true_r.
  destruct (rule_unedited_previous s s) as [[|expect]|err]; cbn [rbind];
    try done.
  rewrite track_unedited. cbn. destruct v; cbn in *. by subst.
Qed.

Lemma run_rows_unedited n data : ∀ v idx,
  edited_previous v = false →
  (∃ v', run_rows n v idx (zip data data) = Ok (Continue v'))
  ↔ Forall (λ row, ∃ expect_edit,
              rule_unedited_previous row row = Ok (Expect expect_edit))
           data.
Proof.
  induction data as [|row data IH]; intros v idx Hv.
  - cbn. split; [by constructor|eauto].
  - cbn [zip zip_with run_rows]. rewrite check_row_unedited by done.
    rewrite Forall_cons, <- (IH v (idx + 1) Hv).
    destruct (rule_unedited_previous row row) as [[|expect]|err];
      cbn [rbind].
    + split; [by intros [? [=]]|by intros [[? [=]] _]].
    + split; [eauto|by intros [_ ?]].
    + split; [by intros [? [=]]|by intros [[? [=]] _]].
Qed.

(** The row loop (lines 154-215, what follows the unpacking of line 153)
    accepts a table without edits, whatever values it is entered with,
    exactly when the first rule set lets every row through with the edited
    row equal to the reference row: the row takes branch (x), where no
    edit is expected, or it takes (d), (e) or (f) and the cell that branch
    names already holds the required value. *)
Theorem loop_accepts_unedited_iff
    (edits0 idx0 old0 new0 : Z) (data : list (list Z)) :
  _data_correct_loop edits0 idx0 old0 new0 data data = Ok true
  ↔ Forall (λ row, ∃ expect_edit,
              rule_unedited_previous row row = Ok (Expect expect_edit))
           data.
Proof. rewrite loop_true_iff. by apply run_rows_unedited. Qed.

(** In particular a table of rows that all take branch (x) is accepted. *)
Corollary quiet_rows_accepted (edits0 idx0 old0 new0 : Z) data :
  Forall (λ row, rule_unedited_previous row row = Ok (Expect false)) data →
  _data_correct_loop edits0 idx0 old0 new0 data data = Ok true.
Proof.
  intros Hq. rewrite loop_true_iff. apply run_rows_unedited; [done|].
  eapply Forall_impl; [exact Hq|]. intros row Hrow. by exists false.
Qed.

(** *** The last line *)

(** The row loop on two tables that do not share their rows.  When the
    line before the last one was edited: the loop, entered with an edit
    count of 0, accepts only if the final cell of the last line equals the
    number of edited lines before it and the rest of the last line is as
    in the reference table; and if the loop gets as far as the last line
    and either condition is violated, it returns False. *)
Theorem loop_last_line_after_an_edited_line
    (idx0 old0 new0 : Z) (before : list (list Z * list Z))
    (sp ep s e : list Z) :
  sp ≠ ep →
  let rows := before ++ [(sp, ep); (s, e)] in
  let earlier := edited_count (before ++ [(sp, ep)]) in
  (_data_correct_loop 0 idx0 old0 new0 rows.*1 rows.*2 = Ok true →
   PyList.getitem e (-1) = Ok earlier
   ∧ PyList.but_last e = PyList.but_last s)
  ∧ (∀ v last,
       run_rows (Z.of_nat (length rows)) (mk_vars false 0 idx0 old0 new0) 0
                (before ++ [(sp, ep)]) = Ok (Continue v) →
       PyList.getitem e (-1) = Ok last →
       last ≠ earlier ∨ PyList.but_last e ≠ PyList.but_last s →
       _data_correct_loop 0 idx0 old0 new0 rows.*1 rows.*2 = Ok false).
Proof.
  intros Hedit rows earlier.
  assert (Hrows : rows = (before ++ [(sp, ep)]) ++ [(s, e)])
    by (unfold rows; by rewrite <- app_assoc).
  assert (Hlen : Z.of_nat (length (before ++ [(sp, ep)])) + 1
                 = Z.of_nat (length rows))
    by (rewrite Hrows, !length_app; cbn; lia).
  assert (Hidx : 0 < Z.of_nat (length (before ++ [(sp, ep)])))
    by (rewrite length_app; cbn; lia).
  assert (Hrule : ∀ v,
    run_rows (Z.of_nat (length rows)) (mk_vars false 0 idx0 old0 new0) 0
             (before ++ [(sp, ep)]) = Ok (Continue v) →
    edits v = earlier
    ∧ rule (Z.of_nat (length rows)) v
           (0 + Z.of_nat (length (before ++ [(sp, ep)]))) s e
      = rule_last v s e).
  { intros v Hv. split.
    - apply run_rows_edits in Hv. cbn in Hv. by rewrite Hv.
    - apply run_rows_edited_previous in Hv.
      rewrite bool_decide_eq_true_2 in Hv by done.
      unfold rule. rewrite Hv.
      destruct (Z.eqb_spec
        (0 + Z.of_nat (length (before ++ [(sp, ep)]))) 0); [lia|].
      destruct (Z.eqb_spec
        (0 + Z.of_nat (length (before ++ [(sp, ep)])) + 1)
        (Z.of_nat (length rows))); [done|lia]. }
  split.
  - rewrite loop_true_iff, zip_fst_snd, length_fmap. intros [v' Hrun].
    rewrite Hrows, run_rows_app in Hrun.
    apply rbind_Ok in Hrun as (f & Hf & Hrest).
    destruct f as [v|b]; [|done].
    rewrite <- Hrows in Hf. destruct (Hrule v Hf) as [Hedits Hlast].
    cbn [run_rows] in Hrest.
    apply rbind_Ok in Hrest as (f & Hf' & Hrest).
    destruct f as [v2|b]; [|done].
    apply check_row_Continue in Hf' as (expect & Hr & _).
    rewrite <- Hrows, Hlast in Hr. unfold rule_last in Hr.
    apply rbind_Ok in Hr as (x & Hx & Hr).
    destruct (Z.eqb_spec x (edits v)) as [->|]; cbn [negb] in Hr; [|done].
    destruct (decide (PyList.but_last e ≠ PyList.but_last s)) as [|Heq];
      [done|].
    rewrite Hx, Hedits. split; [done|]. by apply dec_stable.
  - intros v last Hv Hx Hbad.
    unfold _data_correct_loop.
    rewrite zip_fst_snd, length_fmap.
    rewrite Hrows at 2. rewrite run_rows_app, Hv. cbn [rbind run_rows].
    unfold check_row. destruct (Hrule v Hv) as [Hedits ->].
    unfold rule_last. rewrite Hx. cbn [rbind]. rewrite Hedits.
    destruct (Z.eqb_spec last earlier) as [->|]; cbn [negb]; [|done].
    destruct Hbad as [|Hbad]; [done|].
    by rewrite decide_True by done.
Qed.

(** *** Edits where none is expected *)

(** If the loop reaches a line whose rule set expects no edit and that
    line differs from its reference, the loop does not accept, whatever
    the other lines hold; it returns False when the two versions of the
    line have the same length. *)
Lemma unexpected_edit_rejected
    (edits0 idx0 old0 new0 : Z) (before after : list (list Z * list Z))
    (s e : list Z) (v : vars) :
  let rows := before ++ (s, e) :: after in
  let n := Z.of_nat (length rows) in
  run_rows n (mk_vars false edits0 idx0 old0 new0) 0 before
    = Ok (Continue v) →
  rule n v (Z.of_nat (length before)) s e = Ok (Expect false) →
  s ≠ e →
  _data_correct_loop edits0 idx0 old0 new0 rows.*1 rows.*2 ≠ Ok true
  ∧ (length s = length e →
     _data_correct_loop edits0 idx0 old0 new0 rows.*1 rows.*2 = Ok false).
Proof.
  intros rows n Hv Hrule Hne.
  assert (Hrow : check_row n v (0 + Z.of_nat (length before)) s e
                 = (let? v' := track v s e in Ok (Return false))).
  { unfold check_row. rewrite Z.add_0_l, Hrule. cbn [rbind].
    destruct (track v s e) as [v'|err] eqn:Ht; cbn [rbind]; [|done].
    apply track_Ok in Ht as [-> _].
    by rewrite bool_decide_eq_true_2. }
  assert (Hrun : _data_correct_loop edits0 idx0 old0 new0 rows.*1 rows.*2
                 = (let? v' := track v s e in Ok false)).
  { unfold _data_correct_loop. rewrite zip_fst_snd, length_fmap.
    fold n. unfold rows at 1. rewrite run_rows_app, Hv.
    cbn [rbind run_rows]. rewrite Hrow.
    by destruct (track v s e). }
  rewrite Hrun. split.
  - by destruct (track v s e).
  - intros Hlen. unfold track. rewrite decide_True by done.
    assert (∃ i, PyList.getitem (differing s e) 0 = Ok i
                 ∧ 0 ≤ i < Z.of_nat (length s)) as (i & -> & Hi).
    { clear - Hne Hlen. unfold differing.
      assert (∀ k, ∃ i,
        PyList.getitem
          ((λ ise : Z * (Z * Z), ise.1)
             <$> filter (λ ise : Z * (Z * Z), ise.2.1 ≠ ise.2.2)
                   (imap (λ (j : nat) (x : Z * Z), (Z.of_nat (k + j), x))
                         (zip s e))) 0 = Ok i
        ∧ Z.of_nat k ≤ i < Z.of_nat (k + length s)) as Hgen.
      { revert e Hne Hlen.
        induction s as [|x s IH]; intros [|y e] Hne Hlen k;
          try done.
        cbn [zip zip_with imap]. rewrite filter_cons. cbn [fst snd].
        destruct (decide (x ≠ y)) as [Hxy|Hxy].
        - exists (Z.of_nat (k + 0)). split; [done|]. cbn [length]. lia.
        - apply dec_stable in Hxy as ->.
          destruct (IH e) with (k := S k) as (i & Hi & Hr);
            [congruence|by injection Hlen|].
          exists i. split; [|cbn [length]; lia].
          rewrite <- Hi. do 3 f_equal.
          apply imap_ext. intros j z _. cbn. do 2 f_equal. lia. }
      destruct (Hgen 0%nat) as (i & Hi & Hr). exists i. split; [|lia].
      rewrite <- Hi. unfold PyList.enumerate. done. }
    cbn [rbind].
    destruct (getitem_in_range s i Hi) as (o & -> & _).
    destruct (getitem_in_range e i ltac:(lia)) as (w & -> & _).
    done.
Qed.

End HexEditor_loop.

Section HexEditor_examples.
Import Py HexEditor Samples.

(** C2. After [start()] on [quiet_table], the lines "y", "0", "a" write
    0xa into cell (0, 0) through the edited table; the reference table
    reads 0xa in that cell as well, where [start()] had put 9.  The two
    tables hold the same row objects. *)
Theorem C2_write_changes_reference_table :
  let w1 := (start quiet_table world0).2 in
  let w2 := (text_inputs failure_prefix ["y"; "0"; "a"]%string w1).2 in
  (text_inputs failure_prefix ["y"; "0"; "a"]%string w1).1 = Ok tt
  ∧ start_rows w1.1 !! 0%nat = Some [9; 3; 9; 4; 9; 9]
  ∧ end_rows w2.1 !! 0%nat = Some [10; 3; 9; 4; 9; 9]
  ∧ start_rows w2.1 !! 0%nat = Some [10; 3; 9; 4; 9; 9]
  ∧ _start_data w1.1 = _end_data w1.1.
Proof. vm_compute. done. Qed.

(** C3, as stated, fails: in ENTER_COL the line "9" raises the bad-input
    signal "Column out of range", and the column cursor, 0 before the
    call, is 9 after it. *)
Lemma C3_out_of_range_column_is_kept :
  let w := (text_inputs failure_prefix ["y"]%string
              (start quiet_table world0).2).2 in
  _state w.1 = ENTER_COL
  ∧ (text_input failure_prefix "9" w).1
    = Raise (BadInput "Column out of range")
  ∧ _col w.1 = 0
  ∧ _col (text_input failure_prefix "9" w).2.1 = 9
  ∧ (text_input failure_prefix "9" w).2 ≠ w.
Proof. vm_compute. repeat split; done. Qed.

Lemma C3_bad_input_keeps_all_but_column_witness :
  let w := (text_inputs failure_prefix ["y"]%string
              (start quiet_table world0).2).2 in
  text_input failure_prefix "9" w
  = (Raise (BadInput "Column out of range"), (set_col 9 w.1, w.2))
  ∧ set_col (_col w.1) (set_col 9 w.1) = w.1.
Proof.
  intros w.
  assert (Hraise : text_input failure_prefix "9" (w.1, w.2)
                   = (Raise (BadInput "Column out of range"),
                      (set_col 9 w.1, w.2)))
    by (vm_compute; reflexivity).
  split; [exact Hraise|].
  exact (proj1 (proj2 (C3_bad_input_keeps_all_but_column failure_prefix
           "9" w.1 (set_col 9 w.1) w.2 w.2 "Column out of range" Hraise))).
Defined.

Lemma C10_query_row_anything_but_y_is_no_witness :
  let w := (start quiet_table world0).2 in
  _state w.1 = QUERY_ROW
  ∧ _row (text_input failure_prefix "  maybe" w).2.1 = 1
  ∧ _state (text_input failure_prefix " Yes" w).2.1 = ENTER_COL.
Proof.
  split; [reflexivity|]. split.
  - exact (proj1 (C10_query_row_anything_but_y_is_no failure_prefix
                    "  maybe" (start quiet_table world0).2.1
                    (start quiet_table world0).2.2 eq_refl)).
  - destruct (proj2 (C10_query_row_anything_but_y_is_no failure_prefix
                       " Yes" (start quiet_table world0).2.1
                       (start quiet_table world0).2.2 eq_refl))
      as [Hrow|[_ Hst]].
    + vm_compute in Hrow. discriminate Hrow.
    + exact Hst.
Defined.

(** C1, further: with the unpacking out of the way the loop still raises
    on tables [_generate_data] can draw.  A first cell of 6 takes branch
    (d) and indexes the six-cell edited row at 6. *)
Lemma first_cell_six_raises :
  generated six_table
  ∧ _data_correct_loop 0 0 0 0 six_table six_table = Raise IndexError.
Proof.
  split; [|reflexivity].
  split; [vm_compute; split; [by intros [=]|done]|].
  repeat (constructor; [split; [done|repeat constructor; lia]|]).
  constructor.
Qed.

Lemma quiet_table_generated : generated quiet_table.
Proof.
  split; [vm_compute; split; [by intros [=]|done]|].
  repeat (constructor; [split; [done|repeat constructor; lia]|]).
  constructor.
Qed.

(** The row loop accepts [lucky_table], a table [_generate_data] can
    draw, without edits although its first row takes branch (d), not the
    branch that expects no edit; on [quiet_table], whose rows all take the
    no-edit branch, [_data_correct] raises. *)
Lemma lucky_table_accepted_by_loop :
  generated lucky_table
  ∧ _data_correct_loop 0 0 0 0 lucky_table lucky_table = Ok true
  ∧ ¬ Forall (λ row, rule_unedited_previous row row = Ok (Expect false))
             lucky_table
  ∧ Forall (λ row, rule_unedited_previous row row = Ok (Expect false))
           quiet_table
  ∧ _data_correct_rows quiet_table quiet_table = Raise ValueError.
Proof.
  split.
  { split; [vm_compute; split; [by intros [=]|done]|].
    repeat (constructor; [split; [done|repeat constructor; lia]|]).
    constructor. }
  split; [reflexivity|]. split.
  - intros H. apply Forall_cons in H as [H _]. vm_compute in H.
    discriminate H.
  - split; [|reflexivity]. repeat constructor.
Qed.

(** The row loop accepts [quiet_table] without edits; its last line ends
    in 7 while no line before it was edited.  The last line was checked by
    the first rule set, because the line before it was not edited. *)
Lemma loop_last_line_unchecked_after_unedited_line :
  _data_correct_loop 0 0 0 0 quiet_table quiet_table = Ok true
  ∧ PyList.getitem [7; 7; 7; 7; 7; 7] (-1) = Ok 7
  ∧ last quiet_table = Some [7; 7; 7; 7; 7; 7]
  ∧ edited_count (zip (take 2 quiet_table) (take 2 quiet_table)) = 0
  ∧ _data_correct_rows quiet_table quiet_table = Raise ValueError.
Proof. repeat split; reflexivity. Qed.

Lemma loop_last_line_after_an_edited_line_example :
  [1; 5; 9; 9; 9; 9] ≠ [1; 0; 9; 9; 9; 9]
  ∧ _data_correct_loop 0 0 0 0 edited_pair.*1 edited_pair.*2 = Ok true
  ∧ PyList.getitem [9; 9; 9; 9; 9; 1] (-1) = Ok 1
  ∧ PyList.but_last [9; 9; 9; 9; 9; 1] = PyList.but_last [9; 9; 9; 9; 9; 4].
Proof.
  assert (Hne : [1; 5; 9; 9; 9; 9] ≠ [1; 0; 9; 9; 9; 9]) by (by intros [=]).
  assert (Hok : _data_correct_loop 0 0 0 0 edited_pair.*1 edited_pair.*2
                = Ok true) by reflexivity.
  split; [exact Hne|]. split; [exact Hok|].
  exact (proj1 (loop_last_line_after_an_edited_line 0 0 0 []
                  [1; 5; 9; 9; 9; 9] [1; 0; 9; 9; 9; 9]
                  [9; 9; 9; 9; 9; 4] [9; 9; 9; 9; 9; 1] Hne) Hok).
Defined.

(** C4. A session with zero edits never passes the correctness check.
    After [start()] on [quiet_table], a table [_generate_data] can draw
    and whose rows all fall into the branch that expects no edit, the
    lines "n", "n", "n" finish the file with both tables equal to the
    table drawn.  The last call raises ValueError out of [_data_correct]:
    the program is FINISHED and not completed.  The row loop, had it been
    reached, accepts this table.  The same holds of every table:
    [_data_correct] on a table without edits raises ValueError. *)
Theorem C4_zero_edit_session_raises :
  let w1 := (start quiet_table world0).2 in
  let r := text_inputs failure_prefix ["n"; "n"; "n"]%string w1 in
  generated quiet_table
  ∧ Forall (λ row, rule_unedited_previous row row = Ok (Expect false))
           quiet_table
  ∧ start_rows r.2.1 = quiet_table
  ∧ end_rows r.2.1 = quiet_table
  ∧ r.1 = Raise ValueError
  ∧ _state r.2.1 = FINISHED
  ∧ _completed r.2.1 = false
  ∧ r.2.2 = w1.2
  ∧ _data_correct r.2.1 = Raise ValueError
  ∧ _data_correct_loop 0 0 0 0 (start_rows r.2.1) (end_rows r.2.1) = Ok true
  ∧ (∀ data, _data_correct_rows data data = Raise ValueError).
Proof.
  split; [exact quiet_table_generated|].
  split; [repeat constructor|].
  vm_compute. repeat split; reflexivity.
Qed.

(** C5. After [start()] on [mismatch_table], "n" leaves line 0 as it is,
    "y", "1", "0" change cell (1, 1) from 5 to 0, as the rule for line 1
    asks, and "n" leaves the last line as it is: its final cell holds 4
    while one line before it was edited.  The last call raises ValueError
    out of [_data_correct]: the program is FINISHED, not completed, the
    terminal has received no message after the table and is not frozen,
    so the check does not fail.  On the table as drawn and the edited
    table the row loop returns False, and with the final cell set to 1 it
    accepts; on the two tables of the program, which share their rows, it
    compares the edited table with itself and accepts. *)
Theorem C5_wrong_last_line_session_raises :
  let w1 := (start mismatch_table world0).2 in
  let r := text_inputs failure_prefix ["n"; "y"; "1"; "0"; "n"]%string w1 in
  generated mismatch_table
  ∧ r.1 = Raise ValueError
  ∧ _state r.2.1 = FINISHED
  ∧ _completed r.2.1 = false
  ∧ r.2.2 = w1.2
  ∧ Terminal._freeze_time r.2.2 = None
  ∧ end_rows r.2.1
    = [[9; 3; 9; 4; 9; 9]; [1; 0; 9; 9; 9; 9]; [9; 9; 9; 9; 9; 4]]
  ∧ edited_count (zip (take 2 mismatch_table) (take 2 (end_rows r.2.1))) = 1
  ∧ PyList.getitem [9; 9; 9; 9; 9; 4] (-1) = Ok 4
  ∧ _data_correct r.2.1 = Raise ValueError
  ∧ _data_correct_loop 0 0 0 0 mismatch_table (end_rows r.2.1) = Ok false
  ∧ _data_correct_loop 0 0 0 0 mismatch_table
      [[9; 3; 9; 4; 9; 9]; [1; 0; 9; 9; 9; 9]; [9; 9; 9; 9; 9; 1]] = Ok true
  ∧ _data_correct_loop 0 0 0 0 (start_rows r.2.1) (end_rows r.2.1) = Ok true.
Proof.
  split.
  { split; [vm_compute; split; [by intros [=]|done]|].
    repeat (constructor; [split; [done|repeat constructor; lia]|]).
    constructor. }
  vm_compute. repeat split; reflexivity.
Qed.

(** C6. After [start()] on [quiet_table], whose line 0 takes the branch
    that expects no edit, the lines "y", "0", "a" change cell (0, 0) from
    9 to 0xa and "n", "n" finish the file.  The last call raises
    ValueError: the program is FINISHED, not completed, the terminal has
    received no message after the table and is not frozen.  Had the loop
    been reached, it would have compared the edited table with itself and
    accepted; on the table as drawn and the edited table it returns
    False. *)
Theorem C6_unexpected_edit_session_raises :
  let w1 := (start quiet_table world0).2 in
  let r := text_inputs failure_prefix ["y"; "0"; "a"; "n"; "n"]%string w1 in
  r.1 = Raise ValueError
  ∧ _state r.2.1 = FINISHED
  ∧ _completed r.2.1 = false
  ∧ r.2.2 = w1.2
  ∧ Terminal._freeze_time r.2.2 = None
  ∧ end_rows r.2.1
    = [[10; 3; 9; 4; 9; 9]; [12; 1; 2; 3; 4; 8]; [7; 7; 7; 7; 7; 7]]
  ∧ rule_unedited_previous [9; 3; 9; 4; 9; 9] [10; 3; 9; 4; 9; 9]
    = Ok (Expect false)
  ∧ _data_correct_loop 0 0 0 0 (start_rows r.2.1) (end_rows r.2.1) = Ok true
  ∧ _data_correct_loop 0 0 0 0 quiet_table (end_rows r.2.1) = Ok false.
Proof. vm_compute. repeat split; reflexivity. Qed.

End HexEditor_examples.

Section Terminal_examples.
Import Py Terminal Samples.



(** A whole session at the terminal: the player starts the hex editor
    and answers "n" for each of the three rows.  The ValueError of
    [_data_correct] passes through [_complete_input], whose only handler
    is for BadInput. *)
Example finishing_the_file_crashes_the_terminal :
  (@enter_all _ (hexedit_program failure_prefix quiet_table) byte_colour
     ["hexedit"; "n"; "n"; "n"]%string level_terminal).1
  = Raise ValueError.
Proof. vm_compute. reflexivity. Qed.

(** A bad column is reported inline and the program goes on. *)
Example bad_column_is_reported_inline :
  let r := @enter_all _ (hexedit_program failure_prefix quiet_table)
             byte_colour ["hexedit"; "y"; "9"]%string level_terminal in
  r.1 = Ok tt
  ∧ take 2 (_buf r.2)
    = ["Error: Column out of range"; "Edit col num: 9"]%string
  ∧ _current_program r.2 = Some "hexedit"%string.
Proof. vm_compute. done. Qed.

(** Without unmet prerequisites the command starts its program. *)
Example hexedit_is_started :
  start_log (@_process_command _
               (hexedit_program failure_prefix quiet_table) byte_colour
               "hexedit" level_terminal).2
  = ["hexedit"%string].
Proof. vm_compute. reflexivity. Qed.

End Terminal_examples.

(** * Further properties *)

(** ** CountdownTimer.update *)

Section CountdownTimer_update.
Import CountdownTimer.

Lemma update_timeleft ms c :
  _timeleft (update ms c) = Z.max 0 (_timeleft c - ms).
Proof.
  unfold update, update_traced.
  destruct (Z.leb_spec (_timeleft c - ms) 0); cbn [fst _timeleft]; [lia|].
  repeat match goal with
    | |- context [match ?x with _ => _ end] => destruct x
    end; cbn [fst _timeleft]; lia.
Qed.

(** X1. After [update] the time left is never negative; the timer has
    ended exactly when the step was at least the time left, and then the
    time left is 0 and the timer is not flashing; otherwise the time left
    went down by the step. *)
Theorem update_clamps_at_zero (ms : Z) (c : t) :
  0 ≤ _timeleft (update ms c)
  ∧ (ended (update ms c) = true ↔ _timeleft c ≤ ms)
  ∧ (if ended (update ms c)
     then _timeleft (update ms c) = 0 ∧ _flash_start (update ms c) = None
     else _timeleft (update ms c) = _timeleft c - ms).
Proof.
  split; [rewrite update_timeleft; lia|].
  split.
  - unfold ended. rewrite update_timeleft, Z.leb_le. lia.
  - unfold ended. destruct (Z.leb_spec (_timeleft (update ms c)) 0) as [H|H];
      rewrite update_timeleft in H.
    + split; [rewrite update_timeleft; lia|].
      unfold update, update_traced.
      destruct (Z.leb_spec (_timeleft c - ms) 0); [done|lia].
    + rewrite update_timeleft. lia.
Qed.

(** A timer on which [update(0)] has nothing to do: time is left, and
    either a flash window is on and not over, or no threshold at the head
    of the queue has been reached. *)
Lemma update_zero_settled (tl w : Z) (fs : option Z) (times : list Z) :
  0 < tl →
  match fs with
  | Some f => f - tl ≤ _FLASH_TIME
  | None => match times with
            | [] => True
            | th :: _ => th < tl / 1000
            end
  end →
  update 0 (mk tl w fs times) = mk tl w fs times.
Proof.
  intros Htl Hfs. unfold update, update_traced.
  cbn [_timeleft _flash_start _flash_times _warning_secs].
  rewrite Z.sub_0_r. destruct (Z.leb_spec tl 0); [lia|].
  destruct fs as [f|].
  - destruct (Z.ltb_spec _FLASH_TIME (f - tl)); [lia|done].
  - destruct times as [|th rest]; [done|].
    destruct (Z.leb_spec (tl / 1000) th); [lia|done].
Qed.

(** X2. A zero-length step is idempotent: a second [update(0)] changes
    nothing.  (The first may: it can end an expired flash window or start
    one.) *)
Theorem update_zero_idempotent (c : t) :
  update 0 (update 0 c) = update 0 c.
Proof.
  unfold update at 2 3. unfold update_traced. rewrite !Z.sub_0_r.
  destruct (Z.leb_spec (_timeleft c) 0) as [Hz|Hpos]; cbn [fst].
  { reflexivity. }
  destruct (_flash_start c) as [fs|].
  - destruct (Z.ltb_spec _FLASH_TIME (fs - _timeleft c)) as [Hexp|Hon].
    + destruct (_flash_times c) as [|th rest]; cbn [fst].
      * by apply update_zero_settled.
      * destruct (Z.leb_spec (_timeleft c / 1000) th); cbn [fst];
          apply update_zero_settled; try done;
          unfold _FLASH_TIME; lia.
    + destruct (_flash_times c); cbn [fst]; by apply update_zero_settled.
  - destruct (_flash_times c) as [|th rest]; cbn [fst].
    + by apply update_zero_settled.
    + destruct (Z.leb_spec (_timeleft c / 1000) th); cbn [fst];
        apply update_zero_settled; try done;
        unfold _FLASH_TIME; lia.
Qed.

(** X3. Steps add up: after a first step of any size and further steps
    that are not negative, the time left is the time before minus the sum
    of the steps, or 0 if that is negative.  So once the timer has ended
    it stays ended. *)
Theorem updates_add_up (ms : Z) (steps : list Z) (c : t) :
  Forall (λ s, 0 ≤ s) steps →
  _timeleft (run (ms :: steps) c).1
  = Z.max 0 (_timeleft c - (ms + foldr Z.add 0 steps))
  ∧ (ended (update ms c) = true → ended (run (ms :: steps) c).1 = true).
Proof.
  intros Hsteps.
  assert (Hrun : ∀ steps c, Forall (λ s, 0 ≤ s) steps → 0 ≤ _timeleft c →
            _timeleft (run steps c).1
            = Z.max 0 (_timeleft c - foldr Z.add 0 steps)).
  { clear. induction steps as [|s steps IH]; intros c Hs Hc.
    - cbn. lia.
    - apply Forall_cons in Hs as [Hs0 Hs]. cbn [run foldr].
      pose proof (update_timeleft s c) as Hu. unfold update in Hu.
      destruct (update_traced s c) as [c1 e]; cbn [fst] in Hu.
      specialize (IH c1 Hs ltac:(lia)).
      destruct (run steps c1) as [c2 es]; cbn [fst] in *.
      assert (0 ≤ foldr Z.add 0 steps).
      { clear -Hs. induction Hs; cbn; lia. }
      lia. }
  assert (Hsum : 0 ≤ foldr Z.add 0 steps).
  { clear -Hsteps. induction Hsteps; cbn; lia. }
  cbn [run]. pose proof (update_timeleft ms c) as Hu.
  unfold ended, update in *.
  destruct (update_traced ms c) as [c1 e]; cbn [fst] in *.
  specialize (Hrun steps c1 Hsteps ltac:(lia)).
  destruct (run steps c1) as [c2 es]; cbn [fst] in *.
  split; [lia|]. rewrite !Z.leb_le. lia.
Qed.

Lemma updates_add_up_witness :
  Forall (λ s, 0 ≤ s) [2000; 3000]
  ∧ _timeleft (run [1000; 2000; 3000] (init 5 30)).1 = 0.
Proof.
  assert (H : Forall (λ s, 0 ≤ s) [2000; 3000])
    by (repeat constructor; lia).
  split; [exact H|].
  exact (proj1 (updates_add_up 1000 [2000; 3000] (init 5 30) H)).
Defined.

(** X4. A flash window lasts [_FLASH_TIME] ms of countdown: while time is
    left and at most 3000 ms have gone since the window started, [update]
    keeps the window and the threshold queue as they are; once more than
    3000 ms have gone the window is over, and the timer is either not
    flashing or in a new window that starts at the present time left. *)
Theorem flash_window_lasts_3000ms (ms fs : Z) (c : t) :
  _flash_start c = Some fs →
  0 < _timeleft c - ms →
  (if fs - (_timeleft c - ms) <=? 3000
   then _flash_start (update ms c) = Some fs
        ∧ _flash_times (update ms c) = _flash_times c
   else _flash_start (update ms c) = None
        ∨ _flash_start (update ms c) = Some (_timeleft c - ms)).
Proof.
  intros Hfs Hleft. unfold update, update_traced. rewrite Hfs.
  destruct (Z.leb_spec (_timeleft c - ms) 0); [lia|].
  unfold _FLASH_TIME.
  destruct (Z.leb_spec (fs - (_timeleft c - ms)) 3000) as [Hon|Hoff].
  - destruct (Z.ltb_spec 3000 (fs - (_timeleft c - ms))); [lia|].
    by destruct (_flash_times c).
  - destruct (Z.ltb_spec 3000 (fs - (_timeleft c - ms))); [|lia].
    destruct (_flash_times c) as [|th rest]; [by left|].
    destruct ((_timeleft c - ms) / 1000 <=? th); cbn; auto.
Qed.

Lemma flash_window_lasts_3000ms_witness :
  let c := update 1000 (init 31 30) in
  _flash_start c = Some 30000
  ∧ _flash_start (update 3000 c) = Some 30000
  ∧ _flash_start (update 3001 c) = None.
Proof.
  intros c.
  assert (Hfs : _flash_start c = Some 30000) by reflexivity.
  split; [exact Hfs|]. split.
  - exact (proj1 (flash_window_lasts_3000ms 3000 30000 c Hfs eq_refl)).
  - destruct (flash_window_lasts_3000ms 3001 30000 c Hfs eq_refl)
      as [H|H]; [exact H|].
    vm_compute in H. discriminate H.
Defined.

End CountdownTimer_update.

(** ** CommandHistory *)

Section CommandHistory_more.
Import Py CommandHistory Invariants.

(** X5. Adding the same command twice in a row is the same as adding it
    once, and after [add_command] the command is at the front of the
    history (unless the history can hold nothing). *)
Theorem add_command_idempotent (cmd : string) (self : t) :
  add_command cmd (add_command cmd self) = add_command cmd self
  ∧ (head (_history (add_command cmd self)) = Some cmd
     ∨ maxlen self = 0%nat).
Proof.
  unfold add_command, appendleft.
  destruct (_history self) as [|front rest] eqn:Hh.
  - destruct (maxlen self) as [|n] eqn:Hn; cbn.
    + split; [done|by right].
    + split; [|by left]. by rewrite decide_False by (by intros []).
  - destruct (decide (front ≠ cmd)) as [Hne|Heq].
    + destruct (maxlen self) as [|n] eqn:Hn; cbn.
      * split; [done|by right].
      * split; [|by left]. by rewrite decide_False by (by intros []).
    + apply dec_stable in Heq as ->. rewrite Hh.
      rewrite decide_False by (by intros []). split; [done|by left].
Qed.

Lemma no_adjacent_repeat_cons x l :
  no_adjacent_repeat l → head l ≠ Some x → no_adjacent_repeat (x :: l).
Proof.
  intros Hl Hx [|i] a b Ha Hb.
  - cbn in Ha, Hb. injection Ha as <-.
    destruct l as [|y l]; [done|]. cbn in Hb, Hx. congruence.
  - cbn in Ha, Hb. by eapply Hl.
Qed.

Lemma no_adjacent_repeat_take n l :
  no_adjacent_repeat l → no_adjacent_repeat (take n l).
Proof.
  intros Hl i a b Ha Hb.
  apply lookup_take_Some in Ha as [Ha _].
  apply lookup_take_Some in Hb as [Hb _]. by eapply Hl.
Qed.

(** X6. [add_command] keeps the history tidy: if no entry equals its
    neighbour and the history holds at most [maxlen] entries, both are
    still so afterwards. *)
Theorem add_command_keeps_history_tidy (cmd : string) (self : t) :
  no_adjacent_repeat (_history self) →
  (length (_history self) ≤ maxlen self)%nat →
  no_adjacent_repeat (_history (add_command cmd self))
  ∧ (length (_history (add_command cmd self)) ≤ maxlen self)%nat.
Proof.
  intros Hrep Hlen. unfold add_command, appendleft.
  destruct (_history self) as [|front rest] eqn:Hh.
  - cbn [_history]. split.
    + apply no_adjacent_repeat_take, no_adjacent_repeat_cons; done.
    + rewrite length_take. lia.
  - destruct (decide (front ≠ cmd)) as [Hne|Heq]; cbn [_history].
    + split.
      * apply no_adjacent_repeat_take, no_adjacent_repeat_cons; [done|].
        cbn. congruence.
      * rewrite length_take. lia.
    + rewrite Hh. done.
Qed.

Lemma add_command_keeps_history_tidy_witness :
  let h := add_command "ls" (add_command "ls" (add_command "cd" (init 2))) in
  _history h = ["ls"; "cd"]%string
  ∧ no_adjacent_repeat (_history (add_command "pwd" h))
  ∧ (length (_history (add_command "pwd" h)) ≤ 2)%nat.
Proof.
  intros h. split; [reflexivity|].
  apply (add_command_keeps_history_tidy "pwd" h).
  - intros [|[|i]] x y Hx Hy; vm_compute in Hx, Hy; try discriminate.
    injection Hx as <-. injection Hy as <-. discriminate.
  - vm_compute. lia.
Defined.

(** X7. With the cursor at -1 or on an entry, [navigate] raises nothing,
    leaves the entries alone and moves the cursor by one step that stops
    at the ends: up to at most the oldest entry, down to at least -1. *)
Theorem navigate_stays_in_range
    (up : bool) (self : t) (line : option string) :
  cursor_in_range self →
  ∃ self' line',
    navigate up (self, line) = (Ok tt, (self', line'))
    ∧ cursor_in_range self'
    ∧ _history self' = _history self
    ∧ _pos self'
      = (if up
         then Z.min (_pos self + 1) (Z.of_nat (length (_history self)) - 1)
         else Z.max (_pos self - 1) (-1)).
Proof.
  unfold cursor_in_range. intros Hr. unfold navigate. destruct up.
  - destruct (Z.ltb_spec (_pos self + 1)
                (Z.of_nat (length (_history self)))) as [Hlt|Hge].
    + set (self1 := if _pos self =? -1 then set_saved_line line self
                    else self).
      assert (H1 : _pos self1 = _pos self ∧ _history self1 = _history self)
        by (unfold self1; by destruct (_pos self =? -1)).
      destruct H1 as [Hp1 Hh1].
      destruct (show_entry_in_range (set_pos (_pos self1 + 1) self1) line)
        as [cmd ->].
      { cbn [_pos set_pos _history]. rewrite Hp1, Hh1. lia. }
      eexists _, _. split; [done|].
      cbn [_pos set_pos _history]. rewrite Hp1, Hh1.
      repeat split; try lia; done.
    + eexists _, _. split; [done|]. repeat split; try lia; done.
  - destruct (Z.ltb_spec 0 (_pos self)) as [Hpos|Hnp].
    + destruct (show_entry_in_range (set_pos (_pos self - 1) self) line)
        as [cmd ->].
      { cbn [_pos set_pos _history]. lia. }
      eexists _, _. split; [done|].
      cbn [_pos set_pos _history]. repeat split; try lia; done.
    + destruct (Z.eqb_spec (_pos self) 0) as [H0|Hn0].
      * eexists _, _. split; [done|].
        cbn [_pos set_pos _history]. repeat split; try lia; done.
      * eexists _, _. split; [done|]. repeat split; try lia; done.
Qed.

Lemma navigate_stays_in_range_witness :
  let h := {| _history := ["ls"; "hexedit"]; maxlen := 50; _pos := 1;
              _saved_line := Some "dr"%string |} in
  cursor_in_range h
  ∧ navigate true (h, Some "hexedit"%string)
    = (Ok tt, (h, Some "hexedit"%string)).
Proof.
  intros h.
  assert (Hr : cursor_in_range h) by (unfold cursor_in_range; cbn; lia).
  split; [exact Hr|].
  destruct (navigate_stays_in_range true h (Some "hexedit"%string) Hr)
    as (h' & l' & Hn & _).
  vm_compute in Hn. vm_compute. exact eq_refl.
Defined.

End CommandHistory_more.

(** ** Terminal: the output buffer *)

Section Terminal_buffer.
Import Py Terminal.
Context {P : Type}.

Lemma take_app_take {A} (n : nat) (l k : list A) :
  take n (l ++ take n k) = take n (l ++ k).
Proof. rewrite !take_app, take_take. do 2 f_equal. lia. Qed.

Lemma appendleft_all (lines : list string) : ∀ buf : list string,
  (length buf ≤ _BUF_SIZE)%nat →
  foldl (λ buf line, take _BUF_SIZE (line :: buf)) buf lines
  = take _BUF_SIZE (rev lines ++ buf).
Proof.
  induction lines as [|x lines IH]; intros buf Hlen.
  - cbn. by rewrite take_ge.
  - cbn [foldl rev]. rewrite IH by (rewrite length_take; lia).
    rewrite take_app_take. by rewrite <- app_assoc.
Qed.

(** With at least one line the bound on the old buffer is not needed. *)
Lemma appendleft_some (x : string) (lines buf : list string) :
  foldl (λ buf line, take _BUF_SIZE (line :: buf)) buf (x :: lines)
  = take _BUF_SIZE (rev (x :: lines) ++ buf).
Proof.
  cbn [foldl rev]. rewrite appendleft_all by (rewrite length_take; lia).
  change (take _BUF_SIZE (x :: buf)) with (take _BUF_SIZE ([x] ++ buf)).
  rewrite take_app_take. by rewrite <- app_assoc.
Qed.

(** X8. [output] keeps the buffer within [_BUF_SIZE] lines: a buffer of
    at most 100 lines holds, after [output(lines)], the first 100 of the
    new lines in reverse order (newest first) followed by the old
    lines. *)
Theorem output_newest_first_bounded (lines : list string) (self : t P) :
  (length (_buf self) ≤ _BUF_SIZE)%nat →
  _buf (output lines self) = take _BUF_SIZE (rev lines ++ _buf self)
  ∧ (length (_buf (output lines self)) ≤ _BUF_SIZE)%nat.
Proof.
  intros Hlen. unfold output, _add_to_buf. cbn [_buf set_buf].
  rewrite appendleft_all by done. split; [done|].
  rewrite length_take. lia.
Qed.

End Terminal_buffer.

Section Terminal_buffer_example.
Import Py Terminal Samples.

Lemma output_newest_first_bounded_witness :
  (length (_buf terminal0) ≤ _BUF_SIZE)%nat
  ∧ _buf (output ["a"; "b"]%string terminal0) = ["b"; "a"]%string.
Proof.
  assert (H : (length (_buf terminal0) ≤ _BUF_SIZE)%nat)
    by (vm_compute; lia).
  split; [exact H|].
  exact (proj1 (output_newest_first_bounded ["a"; "b"]%string terminal0 H)).
Defined.

End Terminal_buffer_example.

(** ** Python strings: splitting and prefixes *)

Section PyStr_facts.
Import PyStr.

Lemma startswith_app (s p : string) :
  startswith s p = true → ∃ rest, s = (p ++ rest)%string.
Proof.
  revert s. induction p as [|a p IH]; intros s.
  - intros _. by exists s.
  - destruct s as [|b s]; cbn; [done|].
    intros [Hab Hrest]%andb_true_iff.
    apply Ascii.eqb_eq in Hab as ->.
    destruct (IH s Hrest) as [rest ->]. by exists rest.
Qed.

Lemma split_nonempty (sep : ascii) (s : string) :
  ∃ w ws, split sep s = w :: ws.
Proof.
  induction s as [|c s (w & ws & IH)]; cbn; [eauto|].
  destruct (Ascii.eqb c sep); [eauto|]. rewrite IH. eauto.
Qed.

Lemma split_freeze (rest : string) :
  ∃ arg more, split " " ("freeze " ++ rest) = "freeze"%string :: arg :: more.
Proof.
  destruct (split_nonempty " " rest) as (w & ws & Hs).
  exists w, ws.
  change ("freeze " ++ rest)%string
    with (String "f" (String "r" (String "e" (String "e" (String "z"
            (String "e" (String " " rest))))))).
  cbn. by rewrite Hs.
Qed.

Lemma int_raises base s e : int base s = Py.Raise e → e = Py.ValueError.
Proof.
  unfold int.
  repeat match goal with
    | |- context [match ?x with _ => _ end] => destruct x
    end; congruence.
Qed.

End PyStr_facts.

(** ** Terminal: command dispatch *)

Section Terminal_dispatch.
Import Py Terminal.
Context {P : Type} `{Program P}.
Variable font_renders : Z * Z * Z → bool.

Lemma blocked_on_all_completed (self : t P) depends_list :
  Forall (λ c, ∃ q, _programs self !! c = Some q ∧ completed q = true)
         depends_list →
  blocked_on self depends_list = Ok [].
Proof.
  induction 1 as [|c rest (q & Hq & Hc) _ IH]; [done|].
  cbn [blocked_on]. by rewrite Hq, IH, Hc.
Qed.

(** X9. A registered command whose prerequisites are all completed and
    whose own program is already completed is not started again: the
    terminal outputs "<Label> already completed!" (capitalised), which is
    the newest line of the buffer afterwards, leaves no program current
    and changes nothing else. *)
Theorem completed_command_not_restarted
    (self : t P) (cmd : string) (p : P) :
  _programs self !! cmd = Some p →
  completed p = true →
  (∀ depends_list, _depends self !! cmd = Some depends_list →
     Forall (λ c, ∃ q, _programs self !! c = Some q ∧ completed q = true)
            depends_list) →
  _process_command font_renders cmd self
  = (Ok tt,
     set_current_program None
       (output [PyStr.capitalize
                  (security_type p ++ " already completed!")] self))
  ∧ start_log (_process_command font_renders cmd self).2 = start_log self
  ∧ _buf (_process_command font_renders cmd self).2
    = take _BUF_SIZE
        (PyStr.capitalize (security_type p ++ " already completed!")
         :: _buf self)
  ∧ head (_buf (_process_command font_renders cmd self).2)
    = Some (PyStr.capitalize (security_type p ++ " already completed!")).
Proof.
  intros Hp Hc Hdeps.
  assert (Hrun : _is_cmd_runnable cmd self = (Ok true, self)).
  { unfold _is_cmd_runnable.
    destruct (_depends self !! cmd) as [deps|] eqn:Hd; [|done].
    by rewrite (blocked_on_all_completed self deps (Hdeps deps eq_refl)). }
  unfold _process_command. rewrite Hp, Hrun, Hp, Hc. cbn [negb].
  repeat split; reflexivity.
Qed.

(** X10. A command that is not registered never starts or changes a
    program and never raises: whichever branch it takes ([help], [?],
    [colour], [freeze], unknown command or empty line),
    [_process_command] returns normally with the start log, the registry,
    the current program and the dependencies as they were; the empty
    command changes nothing at all. *)
Theorem unregistered_command_is_harmless (self : t P) (cmd : string) :
  _programs self !! cmd = None →
  ∃ self',
    _process_command font_renders cmd self = (Ok tt, self')
    ∧ start_log self' = start_log self
    ∧ _programs self' = _programs self
    ∧ _current_program self' = _current_program self
    ∧ _depends self' = _depends self
    ∧ (cmd = ""%string → self' = self).
Proof.
  intros Hcmd. unfold _process_command. rewrite Hcmd.
  destruct (decide (cmd = "help"%string ∨ cmd = "?"%string)) as [Hh|_].
  { eexists. split; [done|]. repeat split; try done.
    intros ->. by destruct Hh. }
  destruct (PyStr.startswith cmd "colour ") eqn:Hcol.
  { eexists. split; [done|]. unfold colour_command.
    repeat match goal with
      | |- context [match ?x with _ => _ end] => destruct x
      end; repeat split; try done; by intros ->. }
  destruct (PyStr.startswith cmd "freeze ") eqn:Hfr.
  { apply startswith_app in Hfr as [rest ->].
    destruct (split_freeze rest) as (arg & more & Hs).
    unfold freeze_command. rewrite Hs.
    destruct (getitem_in_range ("freeze"%string :: arg :: more) 1)
      as (x & -> & Hx); [cbn [length]; lia|].
    injection Hx as <-.
    destruct (PyStr.int 10 arg) as [n|e] eqn:Hint.
    - eexists. split; [done|]. repeat split; try done.
    - rewrite (int_raises _ _ _ Hint).
      eexists. split; [done|]. repeat split; try done. }
  destruct (decide (cmd ≠ ""%string)).
  - eexists. split; [done|]. repeat split; try done.
  - eexists. split; [done|]. repeat split; try done.
Qed.

(** X11. [completed()] of the terminal is true exactly when every
    registered program reports completed; with nothing registered it is
    true. *)
Theorem all_completed_iff (self : t P) :
  all_completed self = true
  ↔ ∀ c p, _programs self !! c = Some p → completed p = true.
Proof.
  unfold all_completed. rewrite forallb_forall. split.
  - intros Hall c p Hp.
    apply (Hall (c, p)), list_elem_of_In, elem_of_map_to_list, Hp.
  - intros Hall [c p] Hin.
    apply list_elem_of_In, elem_of_map_to_list in Hin. by eapply Hall.
Qed.

(** X12. The [colour] command only ever installs a colour that the font
    renders: afterwards the text colour is the old one or one accepted by
    [font.render].  With a number of components other than three the
    command does nothing at all, not even output. *)
Theorem colour_command_installs_only_rendered (self : t P) (cmd : string) :
  (_TEXT_COLOUR (colour_command font_renders cmd self) = _TEXT_COLOUR self
   ∨ font_renders (_TEXT_COLOUR (colour_command font_renders cmd self))
     = true)
  ∧ (if decide (length (drop 1 (PyStr.split " " cmd)) = 3%nat)
     then ∃ line, _buf (colour_command font_renders cmd self)
                  = take _BUF_SIZE (line :: _buf self)
     else colour_command font_renders cmd self = self).
Proof.
  unfold colour_command.
  destruct (drop 1 (PyStr.split " " cmd)) as [|a [|b [|c [|d l]]]];
    cbn [length]; try (split; [by left|done]).
  - rewrite decide_True by done.
    destruct (PyStr.int 10 a) as [r|]; cbn [rbind];
      [|split; [by left|by eexists]].
    destruct (PyStr.int 10 b) as [g|]; cbn [rbind];
      [|split; [by left|by eexists]].
    destruct (PyStr.int 10 c) as [b'|]; cbn [rbind];
      [|split; [by left|by eexists]].
    destruct (font_renders (r, g, b')) eqn:Hr.
    + split; [by right|by eexists].
    + split; [by left|by eexists].
Qed.

(** X13. [_complete_input] with a program running hands the input line
    to the program and then: on a normal return resets the input line; on
    the bad-input signal outputs "Error: <reason>" as the newest line,
    returns normally and resets the input line; on any other exception
    passes the exception on without resetting the input line. *)
Theorem complete_input_handles_only_BadInput
    (self : t P) (c : string) (p : P) (pr : option string) :
  _current_program self = Some c →
  _programs self !! c = Some p →
  prompt p = Ok pr →
  let echoed := match pr with
                | Some pr => (pr ++ _current_line self)%string
                | None => _current_line self
                end in
  let fed := text_input (_current_line self)
               (p, _add_to_buf [echoed] self) in
  let after := (_complete_input font_renders self).2 in
  match fed.1 with
  | Ok _ =>
      (_complete_input font_renders self).1 = Ok tt
      ∧ _current_line after = ""%string
  | Raise (BadInput reason) =>
      (_complete_input font_renders self).1 = Ok tt
      ∧ _current_line after = ""%string
      ∧ head (_buf after) = Some ("Error: " ++ reason)%string
  | Raise e =>
      (_complete_input font_renders self).1 = Raise e
      ∧ _current_line after = _current_line fed.2.2
  end.
Proof.
  intros Hcur Hp Hpr echoed fed after.
  unfold after, _complete_input, get_current_line.
  rewrite Hcur, Hp, Hpr. cbn [rbind]. fold echoed.
  change (_current_program (_add_to_buf [echoed] self))
    with (_current_program self).
  rewrite Hcur. unfold forward_input.
  change (_programs (_add_to_buf [echoed] self)) with (_programs self).
  rewrite Hp.
  change (_current_line (_add_to_buf [echoed] self))
    with (_current_line self).
  fold fed. destruct fed as [[[]|e] [p' self']]; cbn [fst snd].
  - done.
  - destruct e; done.
Qed.

End Terminal_dispatch.

(** ** HexEditor: what a session can and cannot do *)

Section HexEditor_session_more.
Import Py HexEditor Invariants.
Context {P : Type}.
Variable failure_prefix : string.

(** X14. [text_input] never sets the completed flag and never touches
    the terminal: whatever the line and the state, the flag and the
    terminal (buffer, freeze, everything) are the same after the call.
    The hex editor can therefore never be completed, and its failure
    message and freeze never happen. *)
Theorem text_input_never_completes
    (line : string) (self : t) (term : Terminal.t P) :
  _completed (text_input failure_prefix line (self, term)).2.1
  = _completed self
  ∧ (text_input failure_prefix line (self, term)).2.2 = term.
Proof.
  unfold text_input.
  repeat match goal with
    | |- context [_check_finished _ (?s, ?t)] =>
        destruct (_check_finished_cases failure_prefix s t) as [-> | ->]
    | |- context [write_cell ?v ?s] =>
        destruct (write_cell_cases v s) as [(? & ? & -> & _)| ->]
    | |- context [match ?x with _ => _ end] => destruct x eqn:?
    end; done.
Qed.

(** X15. In ENTER_VAL an empty line, or one of whitespace only, cancels:
    the program goes back to QUERY_ROW for the same row and nothing else
    changes, in particular no cell. *)
Theorem empty_value_cancels
    (line : string) (self : t) (term : Terminal.t P) :
  _state self = ENTER_VAL →
  PyStr.lstrip line = ""%string →
  _row self ≠ Z.of_nat (length (_start_data self)) →
  text_input failure_prefix line (self, term)
  = (Ok tt, (set_state QUERY_ROW self, term)).
Proof.
  intros Hst Hline Hrow. unfold text_input. rewrite Hst, Hline.
  cbn [PyStr.lower PyStr.map_chars].
  rewrite decide_True by done.
  by rewrite _check_finished_before_end.
Qed.

(** *** Tables after [start()] *)

Lemma rows_of_fresh (data : list (list Z)) : ∀ h,
  rows_of (h ++ data) (seq (length h) (length data)) = data.
Proof.
  unfold rows_of. induction data as [|row data IH]; intros h; [done|].
  cbn [length seq fmap list_fmap]. f_equal.
  - unfold deref. by rewrite list_lookup_middle.
  - specialize (IH (h ++ [row])).
    rewrite <- app_assoc, length_app in IH. cbn in IH.
    by rewrite Nat.add_1_r in IH.
Qed.

Lemma fresh_rows_allocated (data h : list (list Z)) (ncols : nat) :
  Forall (λ row, length row = ncols) data →
  Forall (λ r, ∃ row, (h ++ data) !! r = Some row ∧ length row = ncols)
         (seq (length h) (length data)).
Proof.
  intros Hdata. apply Forall_forall. intros r Hr.
  apply elem_of_seq in Hr.
  destruct (lookup_lt_is_Some_2 data (r - length h)) as [row Hrow]; [lia|].
  exists row. split.
  - rewrite lookup_app_r by lia. done.
  - eapply Forall_lookup_1 in Hdata; [|exact Hrow]. done.
Qed.

(** X16. [start()] on a table with at least one row, all rows of [ncols]
    cells: both the reference table and the edited table read back the
    table that was drawn, the cursors are at 0, the state is QUERY_ROW and
    the completed flag is what it was (it is not reset).  On an empty
    table [start()] raises IndexError. *)
Theorem start_loads_table
    (row : list Z) (rest : list (list Z)) (ncols : nat)
    (self : t) (term : Terminal.t P) :
  (start [] (self, term)).1 = Raise IndexError
  ∧ (Forall (λ r, length r = ncols) (row :: rest) →
     ∃ self' term',
       start (row :: rest) (self, term) = (Ok tt, (self', term'))
       ∧ start_rows self' = row :: rest
       ∧ end_rows self' = row :: rest
       ∧ _row self' = 0 ∧ _col self' = 0 ∧ _state self' = QUERY_ROW
       ∧ _completed self' = _completed self
       ∧ consistent ncols self').
Proof.
  split; [reflexivity|]. intros Hdata.
  destruct (start_ok self term row rest) as [term' Hstart].
  eexists _, term'. split; [exact Hstart|].
  unfold start_rows, end_rows. cbn [heap _start_data _end_data].
  change (S (length rest)) with (length (row :: rest)).
  rewrite rows_of_fresh.
  repeat split; try done.
  - apply NoDup_seq.
  - apply (fresh_rows_allocated (row :: rest)). done.
Qed.

(** *** Safety of a session *)

Lemma consistent_first_row (ncols : nat) (self : t) :
  consistent ncols self →
  ∃ row0, PyList.getitem (start_rows self) 0 = Ok row0
          ∧ length row0 = ncols.
Proof.
  intros (_ & _ & Hne & Hrows & _).
  destruct (_start_data self) as [|r refs] eqn:Hrefs; [done|].
  apply Forall_cons in Hrows as [(row & Hrow & Hlen) _].
  exists row. split; [|done].
  unfold start_rows, rows_of. rewrite Hrefs. cbn [fmap list_fmap].
  destruct (getitem_in_range (deref (heap self) r :: (deref (heap self) <$> refs)) 0)
    as (x & -> & Hx); [cbn [length]; lia|].
  cbn in Hx. injection Hx as <-. unfold deref. by rewrite Hrow.
Qed.

Ltac fields :=
  cbn [_row _col _state _completed _start_data _end_data heap set_state
       set_row set_col set_heap set_completed fst snd] in *.

Ltac consistent_fields :=
  repeat split; fields; try done; try lia; try congruence;
  try (intros; fields; first [done | lia | congruence]);
  try (intuition (first [done | lia | congruence])).

(** [_check_finished] on a program whose row cursor is within the
    file. *)
Lemma consistent_after_check
    (ncols : nat) (self : t) (term : Terminal.t P) :
  consistent ncols (set_state FINISHED self) →
  (_state self = ENTER_VAL → 0 ≤ _col self < Z.of_nat ncols) →
  let out := _check_finished failure_prefix (self, term) in
  consistent ncols out.2.1
  ∧ (out.1 = Ok tt ∧ out.2.1 = self
     ∨ out.1 = Raise ValueError
       ∧ _state out.2.1 = FINISHED
       ∧ _row out.2.1 = Z.of_nat (length (_start_data out.2.1))
       ∧ _row out.2.1 = _row self).
Proof.
  intros Hfin Hcol out. unfold out.
  destruct Hfin as (He & Hnd & Hne & Hrows & Hrow & _ & _).
  cbn [_end_data _start_data heap set_state _row] in *.
  destruct (decide (_row self = Z.of_nat (length (_start_data self))))
    as [Hend|Hmid].
  - rewrite _check_finished_at_end by done. split.
    + consistent_fields.
    + right. consistent_fields.
  - rewrite _check_finished_before_end by done. split.
    + consistent_fields.
    + by left.
Qed.

Lemma consistent_finished (ncols : nat) (self : t) :
  consistent ncols self → consistent ncols (set_state FINISHED self).
Proof.
  intros (He & Hnd & Hne & Hrows & Hrow & _ & _).
  consistent_fields.
Qed.

(** X17. A session that began with [start()] cannot go out of bounds:
    from a consistent program state, [text_input] on any line leaves the
    state consistent, moves the row cursor by at most one and never back,
    and ends in one of three ways: normally, with the bad-input signal, or
    with the ValueError of [_data_correct] when the row cursor has reached
    the row count (the state is then FINISHED).  IndexError, KeyError and
    TypeError do not occur. *)
Theorem session_stays_in_bounds
    (ncols : nat) (line : string) (self : t) (term : Terminal.t P) :
  consistent ncols self →
  let out := text_input failure_prefix line (self, term) in
  consistent ncols out.2.1
  ∧ _row self ≤ _row out.2.1 ≤ _row self + 1
  ∧ (out.1 = Ok tt
     ∨ (∃ reason, out.1 = Raise (BadInput reason))
     ∨ (out.1 = Raise ValueError
        ∧ _state out.2.1 = FINISHED
        ∧ _row out.2.1 = Z.of_nat (length (_start_data out.2.1)))).
Proof.
  intros Hc out.
  pose proof Hc as (He & Hnd & Hne & Hrows & Hrow & Hlive & Hcol).
  assert (Hstep : ∀ self1,
    consistent ncols (set_state FINISHED self1) →
    (_state self1 = ENTER_VAL → 0 ≤ _col self1 < Z.of_nat ncols) →
    _row self ≤ _row self1 ≤ _row self + 1 →
    let o := _check_finished failure_prefix (self1, term) in
    consistent ncols o.2.1
    ∧ _row self ≤ _row o.2.1 ≤ _row self + 1
    ∧ (o.1 = Ok tt
       ∨ (∃ reason, o.1 = Raise (BadInput reason))
       ∨ (o.1 = Raise ValueError
          ∧ _state o.2.1 = FINISHED
          ∧ _row o.2.1 = Z.of_nat (length (_start_data o.2.1))))).
  { intros self1 H1 H2 H3 o.
    destruct (consistent_after_check ncols self1 term H1 H2)
      as [Hc1 [[Hok Hsame]|(Hr & Hf & Hl & Hk)]].
    - fold o in Hc1, Hok, Hsame. split; [done|]. rewrite Hsame.
      split; [done|by left].
    - fold o in Hc1, Hr, Hf, Hl, Hk. split; [done|].
      split; [lia|]. right. right. done. }
  unfold out, text_input.
  destruct (_state self) eqn:Hst.
  - (* QUERY_ROW *)
    specialize (Hlive ltac:(done)).
    destruct (PyStr.startswith _ _); apply Hstep; consistent_fields.
  - (* ENTER_COL *)
    specialize (Hlive ltac:(done)).
    destruct (PyStr.int 10 _) as [col|e] eqn:Hint.
    + destruct (consistent_first_row ncols (set_col col self))
        as (row0 & -> & Hlen0); [consistent_fields|].
      rewrite Hlen0.
      destruct (Z.ltb_spec col 0) as [Hneg|Hnn]; cbn [orb].
      { split; [consistent_fields|]. split; [fields; lia|eauto]. }
      destruct (Z.leb_spec (Z.of_nat ncols) col) as [Hbig|Hin].
      { split; [consistent_fields|]. split; [fields; lia|eauto]. }
      apply Hstep; consistent_fields.
    + rewrite (int_raises _ _ _ Hint).
      split; [done|]. split; [fields; lia|eauto].
  - (* ENTER_VAL *)
    specialize (Hlive ltac:(done)). specialize (Hcol eq_refl).
    destruct (decide (PyStr.lower (PyStr.lstrip line) = ""%string)).
    + apply Hstep; consistent_fields.
    + destruct (PyStr.int 16 _) as [value|e] eqn:Hint.
      2:{ rewrite (int_raises _ _ _ Hint).
          split; [done|]. split; [fields; lia|eauto]. }
      destruct (getitem_in_range (_end_data self) (_row self))
        as (r & Hr & Hlook); [rewrite He; lia|].
      assert (Hrin : r ∈ _start_data self).
      { rewrite <- He. by eapply list_elem_of_lookup_2. }
      pose proof Hrows as Hrows'.
      rewrite Forall_forall in Hrows'.
      destruct (Hrows' r Hrin) as (row & Hrowr & Hlenr).
      unfold write_cell. rewrite Hr. cbn [rbind].
      assert (Hderef : deref (heap self) r = row)
        by (unfold deref; by rewrite Hrowr).
      rewrite Hderef.
      assert (Hset : PyList.setitem row (_col self) value
                     = Ok (<[Z.to_nat (_col self) := value]> row)).
      { unfold PyList.setitem.
        destruct (Z.ltb_spec (_col self) 0); [lia|].
        destruct (Z.ltb_spec (_col self) 0); [lia|].
        destruct (Z.leb_spec (Z.of_nat (length row)) (_col self));
          [lia|done]. }
      rewrite Hset. cbn [rbind].
      assert (Hrows2 : Forall
        (λ r', ∃ row', <[r := <[Z.to_nat (_col self) := value]> row]>
                         (heap self) !! r' = Some row'
                       ∧ length row' = ncols) (_start_data self)).
      { apply Forall_forall. intros r' Hr'.
        destruct (Hrows' r' Hr') as (row' & Hrow' & Hlen').
        destruct (decide (r' = r)) as [->|Hne'].
        - eexists. split.
          + apply list_lookup_insert_eq. by eapply lookup_lt_Some.
          + by rewrite length_insert.
        - exists row'. split; [|done]. by rewrite list_lookup_insert_ne. }
      apply Hstep; consistent_fields.
  - (* FINISHED *)
    apply Hstep; [by apply consistent_finished|intros; congruence|lia].
Qed.

(** *** Entering a column and a value *)

(** X18. In ENTER_COL of a consistent session a line is accepted exactly
    when [int] reads it as a decimal number from 0 to [ncols - 1]: then
    the column cursor is set and the program is in ENTER_VAL.  A number
    outside that range raises "Column out of range" with the column cursor
    already overwritten; anything [int] refuses, a literal of more than
    4300 digits included, raises "Not a number" with nothing changed.
    Neither moves the program on. *)
Theorem column_accepted_iff_in_range
    (ncols : nat) (line : string) (self : t) (term : Terminal.t P) :
  consistent ncols self →
  _state self = ENTER_COL →
  text_input failure_prefix line (self, term)
  = match PyStr.int 10 (PyStr.lower (PyStr.lstrip line)) with
    | Ok col =>
        if (0 <=? col) && (col <? Z.of_nat ncols)
        then (Ok tt, (set_state ENTER_VAL (set_col col self), term))
        else (Raise (BadInput "Column out of range"),
              (set_col col self, term))
    | Raise _ => (Raise (BadInput "Not a number"), (self, term))
    end.
Proof.
  intros Hc Hst.
  pose proof Hc as (He & Hnd & Hne & Hrows & Hrow & Hlive & Hcol).
  specialize (Hlive ltac:(congruence)).
  unfold text_input. rewrite Hst.
  destruct (PyStr.int 10 _) as [col|e] eqn:Hint.
  - destruct (consistent_first_row ncols (set_col col self))
      as (row0 & -> & Hlen0); [consistent_fields|].
    rewrite Hlen0.
    destruct (Z.ltb_spec col 0) as [Hneg|Hnn]; cbn [orb].
    { destruct (Z.leb_spec 0 col); [lia|done]. }
    destruct (Z.leb_spec 0 col); [|lia]. cbn [andb].
    destruct (Z.leb_spec (Z.of_nat ncols) col) as [Hbig|Hin].
    { destruct (Z.ltb_spec col (Z.of_nat ncols)); [lia|done]. }
    destruct (Z.ltb_spec col (Z.of_nat ncols)); [|lia].
    apply _check_finished_before_end. fields. lia.
  - by rewrite (int_raises _ _ _ Hint).
Qed.

Lemma lookup_rows_of (h : list (list Z)) (refs : list ref) (i : nat) :
  rows_of h refs !! i = deref h <$> refs !! i.
Proof. unfold rows_of. apply list_lookup_fmap. Qed.

(** X19. In ENTER_VAL of a consistent session a hexadecimal value is
    written to the cell under the cursors and read back from it, every
    other cell of the edited table keeps its value, and the row cursor
    moves on by one.  The reference table reads the same as the edited
    table afterwards: the write shows in both. *)
Theorem value_is_written_and_read_back
    (ncols : nat) (line : string) (value : Z)
    (self : t) (term : Terminal.t P) :
  consistent ncols self →
  _state self = ENTER_VAL →
  PyStr.lower (PyStr.lstrip line) ≠ ""%string →
  PyStr.int 16 (PyStr.lower (PyStr.lstrip line)) = Ok value →
  let self' := (text_input failure_prefix line (self, term)).2.1 in
  (∀ i j,
     cell (end_rows self') i j
     = if decide (i = Z.to_nat (_row self) ∧ j = Z.to_nat (_col self))
       then Some value
       else cell (end_rows self) i j)
  ∧ start_rows self' = end_rows self'
  ∧ _row self' = _row self + 1.
Proof.
  intros Hc Hst Hline Hint self'.
  pose proof Hc as (He & Hnd & Hne & Hrows & Hrow & Hlive & Hcol).
  specialize (Hlive ltac:(congruence)). specialize (Hcol Hst).
  destruct (getitem_in_range (_end_data self) (_row self))
    as (r & Hr & Hlook); [rewrite He; lia|].
  assert (Hrin : r ∈ _start_data self).
  { rewrite <- He. by eapply list_elem_of_lookup_2. }
  pose proof Hrows as Hrows'. rewrite Forall_forall in Hrows'.
  destruct (Hrows' r Hrin) as (row & Hrowr & Hlenr).
  assert (Hderef : deref (heap self) r = row)
    by (unfold deref; by rewrite Hrowr).
  assert (Hset : PyList.setitem row (_col self) value
                 = Ok (<[Z.to_nat (_col self) := value]> row)).
  { unfold PyList.setitem.
    destruct (Z.ltb_spec (_col self) 0); [lia|].
    destruct (Z.ltb_spec (_col self) 0); [lia|].
    destruct (Z.leb_spec (Z.of_nat (length row)) (_col self)); [lia|done]. }
  set (heap' := <[r := <[Z.to_nat (_col self) := value]> row]> (heap self)).
  assert (Hpost : heap self' = heap'
                  ∧ _start_data self' = _start_data self
                  ∧ _end_data self' = _end_data self
                  ∧ _row self' = _row self + 1).
  { unfold self', text_input. rewrite Hst.
    rewrite decide_False by done. rewrite Hint.
    unfold write_cell. rewrite Hr. cbn [rbind]. rewrite Hderef, Hset.
    cbn [rbind].
    match goal with
    | |- context [_check_finished _ (?s, ?t)] =>
        destruct (_check_finished_cases failure_prefix s t) as [-> | ->]
    end; done. }
  destruct Hpost as (Hheap & Hsd & Hed & Hrw).
  split; [|split; [|done]].
  - intros i j. unfold cell, end_rows.
    rewrite Hheap, Hed, !lookup_rows_of.
    destruct (_end_data self !! i) as [ri|] eqn:Hri; cbn [fmap option_fmap
      option_map].
    2:{ rewrite decide_False; [done|]. intros [-> _]. congruence. }
    destruct (decide (i = Z.to_nat (_row self))) as [->|Hi].
    + assert (ri = r) as -> by congruence.
      unfold deref, heap'.
      rewrite list_lookup_insert_eq by (by eapply lookup_lt_Some).
      rewrite Hrowr. cbn [default from_option id].
      destruct (decide (j = Z.to_nat (_col self))) as [->|Hj].
      * rewrite decide_True by done.
        apply list_lookup_insert_eq. lia.
      * rewrite decide_False by (by intros [_ ?]).
        by rewrite list_lookup_insert_ne.
    + rewrite decide_False by (by intros [? _]).
      assert (ri ≠ r).
      { intros ->. apply Hi. rewrite He in Hri, Hlook.
        eapply NoDup_lookup; eauto. }
      unfold deref, heap'. by rewrite list_lookup_insert_ne.
  - unfold start_rows, end_rows. by rewrite Hsd, Hed, He.
Qed.

End HexEditor_session_more.

(** ** HexEditor: the rules of [_data_correct] *)

Section HexEditor_rules.
Import Py HexEditor.

Lemma index_in_range (l : list Z) (v : Z) :
  PyList.count l v ≠ 0 →
  ∃ i, PyList.index l v = Ok i ∧ 0 ≤ i < Z.of_nat (length l).
Proof.
  unfold PyList.count. induction l as [|x l IH]; [done|].
  rewrite filter_cons. cbn [PyList.index].
  destruct (decide (x = v)) as [->|Hne].
  - intros _. exists 0. split; [done|]. cbn [length]. lia.
  - intros Hc. destruct (IH Hc) as (i & -> & Hi).
    exists (i + 1). split; [done|]. cbn [length]. lia.
Qed.

Ltac getitem_cases :=
  repeat first
    [ done
    | match goal with
      | H : PyList.getitem _ _ = Raise ?e |- Raise ?e = Raise _ → _ =>
          intros [= <-]; exact (getitem_raises _ _ _ H)
      | |- context [PyList.getitem ?l ?i] =>
          destruct (PyList.getitem l i) eqn:?; cbn [rbind]
      end ].

Lemma rule_unedited_previous_raises start end_ err :
  rule_unedited_previous start end_ = Raise err → err = IndexError.
Proof.
  unfold rule_unedited_previous.
  destruct (PyList.getitem start 0) as [s0|e0] eqn:H0; cbn [rbind];
    [|getitem_cases].
  destruct (s0 <? 7); [getitem_cases|].
  destruct (Z.ltb_spec 0 (PyList.count start 0)).
  { destruct (index_in_range start 0) as (i & -> & _); [lia|].
    cbn [rbind]. getitem_cases. }
  destruct (3 <? _); [|done]. getitem_cases.
Qed.

Lemma rule_last_raises v start end_ err :
  rule_last v start end_ = Raise err → err = IndexError.
Proof.
  unfold rule_last.
  destruct (PyList.getitem end_ (-1)) eqn:H1; cbn [rbind];
    [|getitem_cases].
  repeat match goal with
    | |- context [match ?x with _ => _ end] => destruct x
    end; done.
Qed.

Lemma rule_middle_raises v start end_ err :
  rule_middle v start end_ = Raise err → err = IndexError.
Proof.
  unfold rule_middle.
  destruct (PyList.getitem start (-1)) as [sl|] eqn:H0; cbn [rbind];
    [|getitem_cases].
  destruct (sl <? 7); [getitem_cases|].
  destruct (Z.eqb_spec (PyList.count start 15) 0); cbn [negb].
  2:{ destruct (index_in_range start 15) as (i & -> & _); [done|].
      cbn [rbind]. getitem_cases. }
  destruct (Z.eqb_spec (PyList.count start (edited_new v)) 0); cbn [negb];
    [done|].
  destruct (index_in_range start (edited_new v)) as (i & -> & _); [done|].
  cbn [rbind]. getitem_cases.
Qed.

Lemma track_raises v start end_ err :
  track v start end_ = Raise err → err = IndexError.
Proof.
  unfold track. destruct (decide (start ≠ end_)); [|done]. getitem_cases.
Qed.

Lemma check_row_raises n v idx start end_ err :
  check_row n v idx start end_ = Raise err → err = IndexError.
Proof.
  unfold check_row, rule.
  destruct (_ || _).
  - destruct (rule_unedited_previous start end_) as [[|expect]|e] eqn:Hr;
      cbn [rbind]; try done.
    + destruct (track v start end_) eqn:Ht; cbn [rbind].
      * by destruct (_ && _).
      * intros [= <-]. by eapply track_raises.
    + intros [= <-]. by eapply rule_unedited_previous_raises.
  - destruct (_ =? _).
    + destruct (rule_last v start end_) as [[|expect]|e] eqn:Hr;
        cbn [rbind]; try done.
      * destruct (track v start end_) eqn:Ht; cbn [rbind].
        -- by destruct (_ && _).
        -- intros [= <-]. by eapply track_raises.
      * intros [= <-]. by eapply rule_last_raises.
    + destruct (rule_middle v start end_) as [[|expect]|e] eqn:Hr;
        cbn [rbind]; try done.
      * destruct (track v start end_) eqn:Ht; cbn [rbind].
        -- by destruct (_ && _).
        -- intros [= <-]. by eapply track_raises.
      * intros [= <-]. by eapply rule_middle_raises.
Qed.

(** X20. The row loop of [_data_correct] raises nothing but IndexError:
    the [index] calls are guarded by [count], so ValueError cannot come
    out of the loop, whatever the two tables hold. *)
Theorem loop_raises_only_IndexError
    (edits0 idx0 old0 new0 : Z) (start_data end_data : list (list Z))
    (err : exn) :
  _data_correct_loop edits0 idx0 old0 new0 start_data end_data = Raise err →
  err = IndexError.
Proof.
  unfold _data_correct_loop.
  generalize (mk_vars false edits0 idx0 old0 new0) as v.
  generalize 0 as idx.
  generalize (Z.of_nat (length start_data)) as n.
  intros n idx v Hrun.
  assert (Hrows : run_rows n v idx (zip start_data end_data) = Raise err).
  { destruct (run_rows n v idx (zip start_data end_data)) as [[]|];
      cbn [rbind] in Hrun; congruence. }
  clear Hrun. revert v idx Hrows.
  induction (zip start_data end_data) as [|[s e] rows IH]; intros v idx;
    cbn [run_rows]; [done|].
  destruct (check_row n v idx s e) as [[v'|b]|e0] eqn:Hrow; cbn [rbind].
  - apply IH.
  - done.
  - intros [= <-]. by eapply check_row_raises.
Qed.

Lemma few_odd_positions (start : list Z) :
  (length start ≤ 7)%nat →
  (3 <? Z.of_nat (length (filter (λ iv : Z * Z, iv.1 mod 2 = 1)
                                 (PyList.enumerate start)))) = false.
Proof.
  intros Hlen.
  destruct start as [|? [|? [|? [|? [|? [|? [|? [|? ?]]]]]]]];
    try (vm_compute; reflexivity).
  cbn [length] in Hlen. lia.
Qed.

(** X21. Branch (f), the one about the cells at odd positions, needs a
    row of at least eight cells: on a row of at most seven cells whose
    first cell is 7 or more and which holds no zero, the first rule set
    expects no edit.  [_generate_random_line] makes rows of six cells, so
    (f) is never taken on a generated table. *)
Theorem odd_cells_rule_needs_eight_cells (start end_ : list Z) (s0 : Z) :
  (length start ≤ 7)%nat →
  PyList.getitem start 0 = Ok s0 →
  7 ≤ s0 →
  PyList.count start 0 = 0 →
  rule_unedited_previous start end_ = Ok (Expect false).
Proof.
  intros Hlen H0 Hs0 Hcount. unfold rule_unedited_previous.
  rewrite H0. cbn [rbind].
  destruct (Z.ltb_spec s0 7); [lia|]. rewrite Hcount. cbn.
  by rewrite few_odd_positions.
Qed.

Lemma getitem_out_of_range {A} (l : list A) (i : Z) :
  Z.of_nat (length l) ≤ i → PyList.getitem l i = Raise IndexError.
Proof.
  intros Hi. unfold PyList.getitem.
  destruct (Z.ltb_spec i 0); [lia|].
  destruct (Z.ltb_spec i 0); [lia|].
  destruct (Z.leb_spec (Z.of_nat (length l)) i); [done|lia].
Qed.

(** X22. On rows as [_generate_random_line] makes them (six cells from 0
    to 15) and an edited row of six cells, the first rule set raises
    exactly when the first cell is 6: branch (d) is taken for a first cell
    below 7 and indexes the edited row at that cell's value. *)
Theorem first_rule_raises_iff_first_cell_six (start end_ : list Z) :
  length start = 6%nat →
  length end_ = 6%nat →
  Forall (λ v, 0 ≤ v < 16) start →
  (∃ err, rule_unedited_previous start end_ = Raise err)
  ↔ PyList.getitem start 0 = Ok 6.
Proof.
  intros Hls Hle Hrange.
  destruct start as [|s0 rest]; [done|].
  assert (H0 : PyList.getitem (s0 :: rest) 0 = Ok s0).
  { destruct (getitem_in_range (s0 :: rest) 0) as (x & -> & Hx);
      [rewrite Hls; lia|].
    by injection Hx as <-. }
  assert (Hs0 : 0 ≤ s0 < 16) by (by apply Forall_cons in Hrange as [? _]).
  unfold rule_unedited_previous. rewrite H0. cbn [rbind].
  destruct (Z.ltb_spec s0 7) as [Hlt|Hge].
  - destruct (decide (s0 = 6)) as [->|Hne].
    + rewrite getitem_out_of_range by (rewrite Hle; lia). cbn [rbind].
      split; [done|eauto].
    + destruct (getitem_in_range end_ s0) as (x & -> & _);
        [rewrite Hle; lia|].
      cbn [rbind]. split; [by intros [? [=]]|intros [=]; lia].
  - split; [|intros [=]; lia]. intros [err Herr]. exfalso.
    destruct (Z.ltb_spec 0 (PyList.count (s0 :: rest) 0)) as [Hc|Hc].
    + destruct (index_in_range (s0 :: rest) 0) as (i & Hi & Hr); [lia|].
      rewrite Hi in Herr. cbn [rbind] in Herr.
      destruct (getitem_in_range end_ i) as (x & Hx & _);
        [rewrite Hle; rewrite Hls in Hr; lia|].
      rewrite Hx in Herr. done.
    + rewrite few_odd_positions in Herr by (rewrite Hls; lia). done.
Qed.

End HexEditor_rules.

(** ** HexEditor: what the table shows can be typed back *)

Section Hex_round_trip.
Import Py PyStr Invariants.

Lemma hex_digit_facts (d : Z) :
  0 ≤ d < 16 →
  digit_value (hex_digit d) = Some d
  ∧ is_underscore (hex_digit d) = false
  ∧ lower_char (hex_digit d) = hex_digit d
  ∧ hex_digit d ≠ "_"%char.
Proof.
  intros Hd.
  assert (d = 0 ∨ d = 1 ∨ d = 2 ∨ d = 3 ∨ d = 4 ∨ d = 5 ∨ d = 6 ∨ d = 7
          ∨ d = 8 ∨ d = 9 ∨ d = 10 ∨ d = 11 ∨ d = 12 ∨ d = 13 ∨ d = 14
          ∨ d = 15) as Hcases by lia.
  repeat destruct Hcases as [->|Hcases]; try subst d;
    (repeat split; [vm_compute; reflexivity..|discriminate]).
Qed.

Lemma lower_all_hex (s : string) : all_hex s → lower s = s.
Proof.
  unfold lower. induction s as [|c s IH]; [done|].
  intros [(d & Hd & ->) Hs]. cbn [map_chars].
  destruct (hex_digit_facts d Hd) as (_ & _ & -> & _). by rewrite IH.
Qed.

Lemma scan_all_hex (s : string) : ∀ acc,
  all_hex s → scan_digits 16 acc false s = Some (hex_fold acc s, ""%string).
Proof.
  induction s as [|c s IH]; intros acc; [done|].
  intros [(d & Hd & ->) Hs]. cbn [scan_digits hex_fold].
  destruct (hex_digit_facts d Hd) as (-> & -> & _ & _).
  cbn [default from_option id].
  destruct (Z.ltb_spec d 16); [|lia]. by apply IH.
Qed.

Lemma digits_of_all_hex (fuel : nat) : ∀ n acc,
  0 ≤ n → all_hex acc → all_hex (digits_of fuel 16 n acc).
Proof.
  induction fuel as [|fuel IH]; intros n acc Hn Hacc; [done|].
  cbn [digits_of].
  assert (Hnew : all_hex (String (hex_digit (n mod 16)) acc)).
  { split; [|done]. exists (n mod 16). split; [|done].
    apply Z.mod_pos_bound. lia. }
  destruct (n / 16 =? 0); [done|].
  apply IH; [|done]. apply Z.div_pos; lia.
Qed.

Lemma digits_of_value (fuel : nat) : ∀ n acc,
  0 ≤ n < 2 ^ Z.of_nat fuel →
  ∃ k, 0 ≤ k ∧ ∀ a, hex_fold a (digits_of fuel 16 n acc)
                    = hex_fold (a * 16 ^ k + n) acc.
Proof.
  induction fuel as [|fuel IH]; intros n acc Hn.
  - exists 0. split; [done|]. intros a. cbn [digits_of].
    f_equal. cbn in Hn. lia.
  - cbn [digits_of].
    assert (Hmod : 0 ≤ n mod 16 < 16) by (apply Z.mod_pos_bound; lia).
    assert (Hstep : ∀ a, hex_fold a (String (hex_digit (n mod 16)) acc)
                         = hex_fold (a * 16 + n mod 16) acc).
    { intros a. cbn [hex_fold].
      destruct (hex_digit_facts (n mod 16) Hmod) as (-> & _). done. }
    destruct (Z.eqb_spec (n / 16) 0) as [Hz|Hnz].
    + exists 1. split; [done|]. intros a. rewrite Hstep. f_equal.
      pose proof (Z.div_mod n 16). lia.
    + destruct (IH (n / 16) (String (hex_digit (n mod 16)) acc))
        as (k & Hk & Hfold).
      { split; [apply Z.div_pos; lia|].
        apply Z.div_lt_upper_bound; [lia|].
        rewrite Nat2Z.inj_succ, Z.pow_succ_r in Hn by lia. lia. }
      exists (k + 1). split; [lia|]. intros a.
      rewrite Hfold, Hstep. f_equal.
      rewrite Z.pow_add_r by lia.
      pose proof (Z.div_mod n 16). lia.
Qed.

Lemma digits_of_nonempty (fuel : nat) : ∀ n acc,
  acc ≠ ""%string → digits_of fuel 16 n acc ≠ ""%string.
Proof.
  induction fuel as [|fuel IH]; intros n acc Hacc; [done|].
  cbn [digits_of]. destruct (_ =? 0); [done|]. by apply IH.
Qed.

Lemma digits_value (n : Z) :
  0 ≤ n → all_hex (digits 16 n) ∧ hex_fold 0 (digits 16 n) = n
          ∧ digits 16 n ≠ ""%string.
Proof.
  intros Hn. unfold digits. split; [by apply digits_of_all_hex|]. split.
  - destruct (digits_of_value (S (Z.to_nat (Z.log2 n))) n ""%string)
      as (k & _ & Hfold).
    { split; [done|].
      destruct (decide (n = 0)) as [->|Hne]; [done|].
      rewrite Nat2Z.inj_succ, Z2Nat.id by apply Z.log2_nonneg.
      apply Z.log2_spec. lia. }
    rewrite Hfold. cbn. lia.
  - cbn [digits_of]. destruct (_ =? 0); [done|].
    by apply digits_of_nonempty.
Qed.

Lemma zeros_all_hex (k : nat) (s : string) :
  all_hex s →
  all_hex (replicate_char k "0" ++ s)
  ∧ hex_fold 0 (replicate_char k "0" ++ s) = hex_fold 0 s.
Proof.
  intros Hs. induction k as [|k [IH1 IH2]]; [done|].
  change (replicate_char (S k) "0" ++ s)%string
    with (String "0" (replicate_char k "0" ++ s)).
  split; [|done]. split; [|done]. exists 0. split; [lia|done].
Qed.

(** X23. What the table and the ENTER_VAL prompt show can be typed back:
    for every integer, the text [_output_data] prints for it
    (["{:#04x}"]), taken through [text_input]'s [lstrip().lower()], is
    read by [int(line, 16)] as that integer. *)
Theorem shown_value_parses_back (v : Z) :
  int 16 (lower (lstrip (format_hex04 v))) = Ok v.
Proof.
  unfold format_hex04.
  set (ds := digits 16 (Z.abs v)).
  destruct (digits_value (Z.abs v)) as (Hhex & Hval & Hne); [lia|].
  fold ds in Hhex, Hval, Hne.
  set (pad := Z.to_nat _).
  destruct (zeros_all_hex pad ds Hhex) as [Hbody Hfold].
  set (body := (replicate_char pad "0" ++ ds)%string) in *.
  assert (Hbody_ne : ∃ c rest, body = String c rest
                               ∧ (∃ d, 0 ≤ d < 16 ∧ c = hex_digit d)).
  { destruct body as [|c rest] eqn:Hb.
    - exfalso. unfold body in Hb. destruct pad; [|done].
      by apply Hne.
    - destruct Hbody as [Hc _]. eauto. }
  destruct Hbody_ne as (c & rest & Hb & d & Hd & Hc).
  destruct (hex_digit_facts d Hd) as (Hdv & Hus & Hlow & Hnus).
  assert (Hscan : int 16 (String "0" (String "x" body))
                  = Ok (Z.abs v)
                  ∧ int 16 (String "-" (String "0" (String "x" body)))
                    = Ok (- Z.abs v)).
  { unfold int. cbn [skip_int_space]. 
    replace (int_space "0") with false by reflexivity.
    replace (int_space "-") with false by reflexivity.
    assert (Hskip : skip_prefix 16 (String "0" (String "x" body)) = body).
    { cbn. rewrite Hb. destruct c as [[] [] [] [] [] [] [] []]; try done. }
    rewrite Hskip.
    assert (Hstart : starts_with_digit 16 body = true).
    { rewrite Hb, Hc. cbn [starts_with_digit]. rewrite Hdv.
      destruct (Z.ltb_spec d 16); [done|lia]. }
    rewrite Hstart. cbn [negb].
    change (is_binary_base 16) with true. cbn [negb andb].
    rewrite scan_all_hex by done. cbn [skip_int_space].
    rewrite Hfold, Hval. split; f_equal; lia. }
  destruct Hscan as [Hpos Hneg].
  destruct (Z.ltb_spec v 0) as [Hv|Hv].
  - change ("-" ++ "0x" ++ body)%string
      with (String "-" (String "0" (String "x" body))).
    replace (lstrip _) with (String "-" (String "0" (String "x" body)))
      by reflexivity.
    unfold lower. cbn [map_chars].
    change (map_chars lower_char body) with (lower body).
    rewrite lower_all_hex by done.
    replace (lower_char "-") with "-"%char by reflexivity.
    replace (lower_char "0") with "0"%char by reflexivity.
    replace (lower_char "x") with "x"%char by reflexivity.
    rewrite Hneg. f_equal. lia.
  - change ("" ++ "0x" ++ body)%string
      with (String "0" (String "x" body)).
    replace (lstrip _) with (String "0" (String "x" body))
      by reflexivity.
    unfold lower. cbn [map_chars].
    change (map_chars lower_char body) with (lower body).
    rewrite lower_all_hex by done.
    replace (lower_char "0") with "0"%char by reflexivity.
    replace (lower_char "x") with "x"%char by reflexivity.
    rewrite Hpos. f_equal. lia.
Qed.

End Hex_round_trip.

(** ** Terminal: the reboot sequence *)

Section Reboot_facts.
Import Py Reboot.
Context {P : Type}.

(** X24. [reboot()] clears the buffer and touches nothing else of the
    terminal, marks it as rebooting from the present clock reading, and
    queues, behind the entries still queued from an earlier reboot: the
    seven lines of the banner (with the seconds left in the fourth), the
    two message lines if a message was given, blank lines, and last the
    hint that names [login] if it is a registered command.  The blank
    lines pad the queue to 28 entries, one less than the visible lines: a
    queue that was empty holds exactly 28 entries afterwards, with or
    without a message, and the queue is longer only if the earlier entries
    leave no room for padding. *)
Theorem reboot_fills_the_screen
    (msg : string) (term : Terminal.t P) (rb : t) :
  let out := reboot msg (term, rb) in
  let secs := CountdownTimer.secs_left (Terminal._countdown_timer term) in
  let message_lines :=
    if decide (msg ≠ ""%string)
    then [(PAUSE_LEN * 25, ""%string); (PAUSE_LEN * 50, msg)] else [] in
  let hint :=
    if decide (is_Some (Terminal._programs term !! "login"%string))
    then "Type 'login' to log in, or 'help' to list available commands"
           %string
    else "Type 'help' to list available commands"%string in
  let room := _VISIBLE_LINES - 2 - Z.of_nat (length (_reboot_buf rb))
              - 7 - Z.of_nat (length message_lines) in
  out.1 = Terminal.set_buf [] term
  ∧ Terminal._buf out.1 = []
  ∧ _rebooting out.2 = true
  ∧ _reboot_update_time out.2 = Terminal.time term
  ∧ _reboot_buf out.2
    = _reboot_buf rb
      ++ [(PAUSE_LEN, PyStr.replicate_char 60 "-");
          (PAUSE_LEN, "Mainframe terminal"%string);
          (PAUSE_LEN, ""%string);
          (PAUSE_LEN,
           ("You have " ++ PyStr.format_d 0 secs
              ++ "s to login before terminal is locked down.")%string);
          (PAUSE_LEN, ""%string);
          (PAUSE_LEN,
           "Tip of the day: press ctrl+c to cancel current command."
             %string);
          (PAUSE_LEN, PyStr.replicate_char 60 "-")]
      ++ message_lines
      ++ replicate (Z.to_nat room) (PAUSE_LEN, ""%string)
      ++ [(PAUSE_LEN, hint)]
  ∧ Z.of_nat (length (_reboot_buf out.2))
    = Z.max (_VISIBLE_LINES - 1)
            (Z.of_nat (length (_reboot_buf rb))
             + (if decide (msg ≠ ""%string) then 10 else 8))
  ∧ (_reboot_buf rb = [] → length (_reboot_buf out.2) = 28%nat).
Proof.
  intros out secs message_lines hint room.
  assert (Hend : end_msgs term = [(PAUSE_LEN, hint)])
    by (unfold end_msgs, hint; by destruct (decide (is_Some _))).
  assert (Hqueue : _reboot_buf out.2
    = _reboot_buf rb ++ banner secs ++ message_lines
      ++ replicate (Z.to_nat room) (PAUSE_LEN, ""%string)
      ++ [(PAUSE_LEN, hint)]).
  { unfold out, reboot, room, message_lines, _VISIBLE_LINES.
    cbn [snd _reboot_buf]. rewrite Hend. fold secs.
    destruct (decide (msg ≠ ""%string)).
    - rewrite !length_app. cbn [length banner].
      rewrite <- !app_assoc. do 4 f_equal. f_equal. lia.
    - rewrite !length_app. cbn [length banner].
      rewrite <- !app_assoc. cbn [app]. do 3 f_equal. f_equal. lia. }
  assert (Hlen : Z.of_nat (length (_reboot_buf out.2))
    = Z.max (_VISIBLE_LINES - 1)
            (Z.of_nat (length (_reboot_buf rb))
             + (if decide (msg ≠ ""%string) then 10 else 8))).
  { rewrite Hqueue. unfold room, message_lines, _VISIBLE_LINES.
    rewrite !length_app, length_replicate.
    destruct (decide (msg ≠ ""%string)); cbn [length banner]; lia. }
  split; [done|]. split; [done|]. split; [done|]. split; [done|].
  split; [exact Hqueue|]. split; [exact Hlen|].
  intros Hq. rewrite Hq in Hlen. unfold _VISIBLE_LINES in Hlen.
  cbn [length] in Hlen. destruct (decide (msg ≠ ""%string)); lia.
Qed.

(** One frame on a queue whose head is known. *)
Lemma run_reboot_head
    (term : Terminal.t P) (rb : t) (pause : Z) (line : string)
    (rest : list (Z * string)) :
  _reboot_buf rb = (pause, line) :: rest →
  _run_reboot (term, rb)
  = if _rebooting rb && (_reboot_update_time rb <=? Terminal.time term)
    then (Ok tt,
          (Terminal.output [line] term,
           match rest with
           | [] => mk false (_reboot_update_time rb) []
           | _ :: _ => mk true (_reboot_update_time rb + pause) rest
           end))
    else (Ok tt, (term, rb)).
Proof.
  intros Hq. unfold _run_reboot. rewrite Hq.
  destruct (_rebooting rb && _); [|done].
  destruct rest; [done|]. do 4 f_equal. lia.
Qed.

(** X25. A due frame of the reboot shows exactly the line at the head of
    the queue, which is the newest line of the buffer afterwards.  If more
    lines are queued, the next one becomes due one pause after the time
    the shown line was due, however late the frame came; if the line was
    the last, the reboot is over.  A frame that is not due, or with no
    reboot going on, changes nothing, whatever the queue holds. *)
Theorem reboot_frame_keeps_pace
    (term : Terminal.t P) (rb : t) (pause : Z) (line : string)
    (rest : list (Z * string)) :
  (_reboot_buf rb = (pause, line) :: rest →
   _run_reboot (term, rb)
   = (if _rebooting rb && (_reboot_update_time rb <=? Terminal.time term)
      then (Ok tt,
            (Terminal.output [line] term,
             match rest with
             | [] => mk false (_reboot_update_time rb) []
             | _ :: _ => mk true (_reboot_update_time rb + pause) rest
             end))
      else (Ok tt, (term, rb)))
   ∧ (_rebooting rb = true →
      _reboot_update_time rb ≤ Terminal.time term →
      Terminal._buf (_run_reboot (term, rb)).2.1
      = take Terminal._BUF_SIZE (line :: Terminal._buf term)))
  ∧ (_rebooting rb = false ∨ Terminal.time term < _reboot_update_time rb →
     _run_reboot (term, rb) = (Ok tt, (term, rb))).
Proof.
  split.
  - intros Hq.
    assert (Hrun : _run_reboot (term, rb)
      = (if _rebooting rb && (_reboot_update_time rb <=? Terminal.time term)
         then (Ok tt,
               (Terminal.output [line] term,
                match rest with
                | [] => mk false (_reboot_update_time rb) []
                | _ :: _ => mk true (_reboot_update_time rb + pause) rest
                end))
         else (Ok tt, (term, rb)))).
    { unfold _run_reboot. rewrite Hq.
      destruct (_rebooting rb && _); [|done].
      destruct rest; [done|]. do 4 f_equal. lia. }
    split; [exact Hrun|]. intros Hreb Hdue. rewrite Hrun, Hreb.
    destruct (Z.leb_spec (_reboot_update_time rb) (Terminal.time term));
      [|lia].
    reflexivity.
  - intros Hidle. unfold _run_reboot.
    destruct Hidle as [-> | Hlate]; [done|].
    destruct (Z.leb_spec (_reboot_update_time rb) (Terminal.time term));
      [lia|].
    by rewrite andb_false_r.
Qed.

(** X26. The reboot plays out: with a reboot going on, pauses that are
    not negative and a clock that has passed the time the first line was
    due by the sum of the pauses, as many frames as lines are queued show
    all the lines, newest first on top of the buffer, and end the
    reboot. *)
Theorem reboot_plays_out (queue : list (Z * string)) :
  ∀ (term : Terminal.t P) (due : Z),
  queue ≠ [] →
  Forall (λ pl, 0 ≤ pl.1) queue →
  due + foldr Z.add 0 queue.*1 ≤ Terminal.time term →
  (length (Terminal._buf term) ≤ Terminal._BUF_SIZE)%nat →
  ∃ term' due',
    frames (length queue) (term, mk true due queue)
    = (Ok tt, (term', mk false due' []))
    ∧ Terminal._buf term'
      = take Terminal._BUF_SIZE (rev queue.*2 ++ Terminal._buf term)
    ∧ Terminal.time term' = Terminal.time term.
Proof.
  induction queue as [|[pause line] queue IH]; intros term due Hne Hp Hdue
    Hlen; [done|].
  apply Forall_cons in Hp as [Hp0 Hp]. cbn [fst] in Hp0.
  cbn [fmap list_fmap foldr fst] in Hdue.
  assert (Hsum : 0 ≤ foldr Z.add 0 queue.*1).
  { clear -Hp. induction Hp as [|[] ? ? ? IHp]; cbn; [lia|].
    cbn [fst] in *. lia. }
  cbn [length frames]. unfold bind.
  rewrite (run_reboot_head term (mk true due ((pause, line) :: queue))
             pause line queue eq_refl).
  cbn [_rebooting _reboot_update_time andb].
  destruct (Z.leb_spec due (Terminal.time term)); [|lia].
  assert (Hbuf : Terminal._buf (Terminal.output [line] term)
                 = take Terminal._BUF_SIZE (rev [line] ++ Terminal._buf term)).
  { unfold Terminal.output, Terminal._add_to_buf.
    cbn [Terminal._buf Terminal.set_buf]. by rewrite appendleft_all. }
  assert (Hlen1 : (length (Terminal._buf (Terminal.output [line] term))
                   ≤ Terminal._BUF_SIZE)%nat)
    by (rewrite Hbuf, length_take; lia).
  destruct queue as [|pl queue'].
  - cbn [frames length]. eexists _, _. split; [reflexivity|].
    split; [|done]. rewrite Hbuf. done.
  - destruct (IH (Terminal.output [line] term) (due + pause))
      as (term' & due' & Hrun & Hbuf' & Htime); try done.
    { change (Terminal.time (Terminal.output [line] term))
        with (Terminal.time term). lia. }
    rewrite Hrun. eexists _, _. split; [reflexivity|].
    split; [|done]. rewrite Hbuf', Hbuf.
    rewrite take_app_take. cbn [fmap list_fmap rev snd].
    by rewrite <- !app_assoc.
Qed.

End Reboot_facts.

(** ** The theorems at sample inputs *)

Section Terminal_dispatch_examples.
Import Py Terminal Samples MoreSamples.

Lemma completed_command_not_restarted_witness :
  _programs finished_level !! "door"%string
  = Some (HexEditor.set_completed true HexEditor.init)
  ∧ @_process_command _ level_program byte_colour "door" finished_level
    = (Ok tt,
       set_current_program None
         (output ["Software lock already completed!"%string]
            finished_level)).
Proof.
  assert (Hp : _programs finished_level !! "door"%string
               = Some (HexEditor.set_completed true HexEditor.init))
    by reflexivity.
  split; [exact Hp|].
  refine (proj1 (@completed_command_not_restarted _ level_program
                   byte_colour finished_level "door" _ Hp eq_refl _)).
  intros depends_list Hd.
  assert (Hl : depends_list = ["hexedit"%string])
    by (vm_compute in Hd; congruence).
  rewrite Hl. constructor; [|constructor].
  eexists. split; reflexivity.
Defined.

Lemma unregistered_command_is_harmless_witness :
  _programs level_terminal !! "ls"%string = None
  ∧ ∃ self',
      @_process_command _ level_program byte_colour "ls" level_terminal
      = (Ok tt, self')
      ∧ start_log self' = start_log level_terminal.
Proof.
  assert (Hp : _programs level_terminal !! "ls"%string = None)
    by reflexivity.
  split; [exact Hp|].
  destruct (@unregistered_command_is_harmless _ level_program byte_colour
              level_terminal "ls" Hp) as (self' & Hrun & Hlog & _).
  exists self'. split; [exact Hrun|exact Hlog].
Defined.

Lemma complete_input_handles_only_BadInput_witness :
  _current_program at_column_prompt = Some "hexedit"%string
  ∧ (@_complete_input _ level_program byte_colour at_column_prompt).1
    = Ok tt
  ∧ head (_buf (@_complete_input _ level_program byte_colour
                  at_column_prompt).2)
    = Some "Error: Not a number"%string.
Proof.
  assert (Hc : _current_program at_column_prompt = Some "hexedit"%string)
    by (vm_compute; reflexivity).
  split; [exact Hc|].
  pose proof
    (λ p Hp Hpr,
       @complete_input_handles_only_BadInput _ level_program byte_colour
         at_column_prompt "hexedit" p (Some "Edit col num: "%string)
         Hc Hp Hpr) as H.
  specialize (H _ eq_refl eq_refl). vm_compute in H.
  destruct H as (Hok & _ & Hhead).
  split; [exact Hok|exact Hhead].
Defined.

End Terminal_dispatch_examples.

Section HexEditor_session_examples.
Import Py HexEditor Invariants Samples MoreSamples.

Lemma started_consistent : consistent 6 started.1.
Proof.
  unfold consistent. split; [reflexivity|]. split.
  { vm_compute _start_data.
    apply (bool_decide_unpack _). vm_compute. exact I. }
  split; [by vm_compute|]. split.
  { vm_compute _start_data. vm_compute heap.
    repeat constructor; eexists; split; reflexivity. }
  split; [vm_compute; split; discriminate|].
  split; [intros _; vm_compute; reflexivity|].
  intros Hs. vm_compute in Hs. discriminate.
Qed.

Lemma asked_column_consistent : consistent 6 asked_column.1.
Proof.
  unfold consistent. split; [reflexivity|]. split.
  { vm_compute _start_data.
    apply (bool_decide_unpack _). vm_compute. exact I. }
  split; [by vm_compute|]. split.
  { vm_compute _start_data. vm_compute heap.
    repeat constructor; eexists; split; reflexivity. }
  split; [vm_compute; split; discriminate|].
  split; [intros _; vm_compute; reflexivity|].
  intros Hs. vm_compute in Hs. discriminate.
Qed.

Lemma asked_value_consistent : consistent 6 asked_value.1.
Proof.
  unfold consistent. split; [reflexivity|]. split.
  { vm_compute _start_data.
    apply (bool_decide_unpack _). vm_compute. exact I. }
  split; [by vm_compute|]. split.
  { vm_compute _start_data. vm_compute heap.
    repeat constructor; eexists; split; reflexivity. }
  split; [vm_compute; split; discriminate|].
  split; [intros _; vm_compute; reflexivity|].
  intros _. vm_compute. split; [discriminate|reflexivity].
Qed.

Lemma empty_value_cancels_witness :
  _state asked_value.1 = ENTER_VAL
  ∧ text_input failure_prefix "  " (asked_value.1, asked_value.2)
    = (Ok tt, (set_state QUERY_ROW asked_value.1, asked_value.2)).
Proof.
  assert (Hs : _state asked_value.1 = ENTER_VAL) by reflexivity.
  split; [exact Hs|].
  refine (empty_value_cancels failure_prefix "  " asked_value.1
            asked_value.2 Hs eq_refl _).
  vm_compute. discriminate.
Defined.

Lemma start_loads_table_witness :
  Forall (λ r : list Z, length r = 6%nat) quiet_table
  ∧ ∃ self' term',
      start quiet_table world0 = (Ok tt, (self', term'))
      ∧ start_rows self' = quiet_table
      ∧ end_rows self' = quiet_table
      ∧ consistent 6 self'.
Proof.
  assert (Hf : Forall (λ r : list Z, length r = 6%nat) quiet_table)
    by (repeat constructor).
  split; [exact Hf|].
  destruct (proj2 (start_loads_table [9; 3; 9; 4; 9; 9]
                     [[12; 1; 2; 3; 4; 8]; [7; 7; 7; 7; 7; 7]] 6
                     world0.1 world0.2) Hf)
    as (self' & term' & Hrun & Hs & He & _ & _ & _ & _ & Hc).
  exists self', term'.
  split; [exact Hrun|]. split; [exact Hs|]. split; [exact He|exact Hc].
Defined.

Lemma session_stays_in_bounds_witness :
  consistent 6 started.1
  ∧ consistent 6 (text_input failure_prefix "y" (started.1, started.2)).2.1.
Proof.
  split; [exact started_consistent|].
  exact (proj1 (session_stays_in_bounds failure_prefix 6 "y" started.1
                  started.2 started_consistent)).
Defined.

Lemma column_accepted_iff_in_range_witness :
  _state asked_column.1 = ENTER_COL
  ∧ text_input failure_prefix "2" (asked_column.1, asked_column.2)
    = (Ok tt, (set_state ENTER_VAL (set_col 2 asked_column.1),
               asked_column.2))
  ∧ text_input failure_prefix "6" (asked_column.1, asked_column.2)
    = (Raise (BadInput "Column out of range"),
       (set_col 6 asked_column.1, asked_column.2))
  ∧ text_input failure_prefix (PyStr.replicate_char 4301 "1")
      (asked_column.1, asked_column.2)
    = (Raise (BadInput "Not a number"), (asked_column.1, asked_column.2)).
Proof.
  assert (Hs : _state asked_column.1 = ENTER_COL) by reflexivity.
  split; [exact Hs|]. split; [|split].
  - exact (column_accepted_iff_in_range failure_prefix 6 "2"
             asked_column.1 asked_column.2 asked_column_consistent Hs).
  - exact (column_accepted_iff_in_range failure_prefix 6 "6"
             asked_column.1 asked_column.2 asked_column_consistent Hs).
  - etrans;
      [exact (column_accepted_iff_in_range failure_prefix 6
                (PyStr.replicate_char 4301 "1")
                asked_column.1 asked_column.2 asked_column_consistent Hs)|].
    vm_compute. reflexivity.
Defined.

Lemma value_is_written_and_read_back_witness :
  _state asked_value.1 = ENTER_VAL
  ∧ PyStr.int 16 (PyStr.lower (PyStr.lstrip " FF")) = Ok 255
  ∧ let self' := (text_input failure_prefix " FF"
                    (asked_value.1, asked_value.2)).2.1 in
    start_rows self' = end_rows self' ∧ _row self' = _row asked_value.1 + 1.
Proof.
  assert (Hs : _state asked_value.1 = ENTER_VAL) by reflexivity.
  assert (Hv : PyStr.int 16 (PyStr.lower (PyStr.lstrip " FF")) = Ok 255)
    by reflexivity.
  split; [exact Hs|]. split; [exact Hv|].
  refine (proj2 (value_is_written_and_read_back failure_prefix 6 " FF" 255
                   asked_value.1 asked_value.2 asked_value_consistent Hs
                   _ Hv)).
  vm_compute. discriminate.
Defined.

End HexEditor_session_examples.

Section HexEditor_rules_examples.
Import Py HexEditor Samples.

Lemma loop_raises_only_IndexError_witness :
  _data_correct_loop 0 0 0 0 six_table six_table = Raise IndexError
  ∧ IndexError = IndexError.
Proof.
  assert (H : _data_correct_loop 0 0 0 0 six_table six_table
              = Raise IndexError) by reflexivity.
  split; [exact H|].
  exact (loop_raises_only_IndexError 0 0 0 0 six_table six_table
           IndexError H).
Defined.

Lemma odd_cells_rule_needs_eight_cells_witness :
  PyList.count [9; 3; 9; 4; 9; 9] 0 = 0
  ∧ rule_unedited_previous [9; 3; 9; 4; 9; 9] [9; 3; 9; 4; 9; 0]
    = Ok (Expect false).
Proof.
  split; [reflexivity|].
  refine (odd_cells_rule_needs_eight_cells [9; 3; 9; 4; 9; 9]
            [9; 3; 9; 4; 9; 0] 9 _ eq_refl _ eq_refl).
  - cbn [length]. lia.
  - lia.
Defined.

Lemma first_rule_raises_iff_first_cell_six_witness :
  PyList.getitem [6; 1; 2; 3; 4; 5] 0 = Ok 6
  ∧ ∃ err,
      rule_unedited_previous [6; 1; 2; 3; 4; 5] [9; 9; 9; 9; 9; 9]
      = Raise err.
Proof.
  split; [reflexivity|].
  refine (proj2 (first_rule_raises_iff_first_cell_six [6; 1; 2; 3; 4; 5]
                   [9; 9; 9; 9; 9; 9] eq_refl eq_refl _) eq_refl).
  repeat constructor; lia.
Defined.

End HexEditor_rules_examples.

Section Reboot_examples.
Import Py Reboot Samples MoreSamples.

Lemma reboot_frame_keeps_pace_witness :
  _reboot_buf two_lines = [(20, "a"%string); (30, "b"%string)]
  ∧ _run_reboot (terminal_at_100, two_lines)
    = (Ok tt,
       (Terminal.output ["a"%string] terminal_at_100,
        mk true 20 [(30, "b"%string)])).
Proof.
  split; [reflexivity|].
  exact (proj1 (proj1 (reboot_frame_keeps_pace terminal_at_100 two_lines
                         20 "a" [(30, "b"%string)]) eq_refl)).
Defined.

Lemma reboot_plays_out_witness :
  length (_reboot_buf rebooted.2) = 28%nat
  ∧ ∃ term' due',
      frames 28 (terminal_at_1000, mk true 0 (_reboot_buf rebooted.2))
      = (Ok tt, (term', mk false due' []))
      ∧ head (Terminal._buf term')
        = Some "Type 'help' to list available commands"%string.
Proof.
  assert (Hl : length (_reboot_buf rebooted.2) = 28%nat) by reflexivity.
  split; [exact Hl|].
  destruct (reboot_plays_out (_reboot_buf rebooted.2) terminal_at_1000 0)
    as (term' & due' & Hrun & Hbuf & _).
  - vm_compute. discriminate.
  - vm_compute. repeat (constructor; [discriminate|]). constructor.
  - vm_compute. discriminate.
  - vm_compute. lia.
  - rewrite Hl in Hrun. exists term', due'. split; [exact Hrun|].
    rewrite Hbuf. vm_compute. reflexivity.
Defined.

End Reboot_examples.

(** ** Terminal: the help listing *)

Section String_order.

Lemma ascii_compare_lt (a b : ascii) :
  Ascii.compare a b = Lt ↔ (N_of_ascii a < N_of_ascii b)%N.
Proof. unfold Ascii.compare. apply N.compare_lt_iff. Qed.

Lemma string_compare_refl (s : string) : String.compare s s = Eq.
Proof.
  induction s as [|c s IH]; [done|]. cbn [String.compare].
  assert (Ascii.compare c c = Eq) as ->; [|done].
  unfold Ascii.compare. apply N.compare_refl.
Qed.

Lemma string_lt_trans (s1 : string) : ∀ s2 s3,
  String.compare s1 s2 = Lt → String.compare s2 s3 = Lt →
  String.compare s1 s3 = Lt.
Proof.
  induction s1 as [|c1 s1 IH]; intros [|c2 s2] [|c3 s3]; cbn [String.compare];
    try done.
  destruct (Ascii.compare c1 c2) eqn:H12; try done;
    destruct (Ascii.compare c2 c3) eqn:H23; try done; intros Ha Hb.
  - apply Ascii.compare_eq_iff in H12 as ->.
    apply Ascii.compare_eq_iff in H23 as ->.
    assert (Ascii.compare c3 c3 = Eq) as ->
      by (unfold Ascii.compare; apply N.compare_refl).
    by eapply IH.
  - apply Ascii.compare_eq_iff in H12 as ->. by rewrite H23.
  - apply Ascii.compare_eq_iff in H23 as <-. by rewrite H12.
  - assert (Ascii.compare c1 c3 = Lt) as ->; [|done].
    apply (proj1 (ascii_compare_lt _ _)) in H12.
    apply (proj1 (ascii_compare_lt _ _)) in H23.
    apply ascii_compare_lt. lia.
Qed.

Lemma string_ltb_asym (s1 s2 : string) :
  String.ltb s1 s2 = true → String.ltb s2 s1 = false.
Proof.
  unfold String.ltb. rewrite (String.compare_antisym s1 s2).
  by destruct (String.compare s2 s1).
Qed.

Lemma string_ltb_total (s1 s2 : string) :
  String.ltb s1 s2 = false → s1 ≠ s2 → String.ltb s2 s1 = true.
Proof.
  unfold String.ltb. rewrite (String.compare_antisym s1 s2).
  destruct (String.compare s2 s1) eqn:Hc; try done.
  apply String.compare_eq_iff in Hc. congruence.
Qed.

Lemma string_ltb_trans (s1 s2 s3 : string) :
  String.ltb s1 s2 = true → String.ltb s2 s3 = true →
  String.ltb s1 s3 = true.
Proof.
  unfold String.ltb.
  destruct (String.compare s1 s2) eqn:H12; try done.
  destruct (String.compare s2 s3) eqn:H23; try done.
  by rewrite (string_lt_trans _ _ _ H12 H23).
Qed.

(** "Not after": the order [sorted] keeps between neighbours. *)
Lemma string_le_trans (s1 s2 s3 : string) :
  String.ltb s2 s1 = false → String.ltb s3 s2 = false →
  String.ltb s3 s1 = false.
Proof.
  intros H12 H23.
  destruct (decide (s1 = s2)) as [->|Hne12]; [done|].
  destruct (decide (s2 = s3)) as [->|Hne23]; [done|].
  apply string_ltb_asym.
  eapply string_ltb_trans; apply string_ltb_total; eauto.
Qed.

End String_order.

Section Help_listing.
Import Py Terminal.
Context {P : Type} `{Program P}.
Variable font_renders : Z * Z * Z → bool.

Lemma insert_by_key_perm {A} (x : string * A) (l : list (string * A)) :
  PyStr.insert_by_key x l ≡ₚ x :: l.
Proof.
  induction l as [|y l IH]; [done|]. cbn [PyStr.insert_by_key].
  destruct (String.ltb x.1 y.1); [done|].
  rewrite IH. apply Permutation_swap.
Qed.

Lemma sorted_by_key_perm {A} (l : list (string * A)) :
  PyStr.sorted_by_key l ≡ₚ l.
Proof.
  unfold PyStr.sorted_by_key. induction l as [|x l IH]; [done|].
  cbn [foldr]. by rewrite insert_by_key_perm, IH.
Qed.

Lemma insert_by_key_sorted {A} (x : string * A) (l : list (string * A)) :
  StronglySorted (λ a b, String.ltb b.1 a.1 = false) l →
  StronglySorted (λ a b, String.ltb b.1 a.1 = false)
                 (PyStr.insert_by_key x l).
Proof.
  induction 1 as [|y l Hs IH Hy]; cbn [PyStr.insert_by_key].
  - by repeat constructor.
  - destruct (String.ltb x.1 y.1) eqn:Hxy.
    + constructor; [by constructor|].
      apply string_ltb_asym in Hxy. constructor; [done|].
      eapply Forall_impl; [exact Hy|].
      intros z Hz. cbn beta in *. by eapply string_le_trans.
    + constructor; [done|].
      rewrite insert_by_key_perm. by constructor.
Qed.

Lemma sorted_by_key_sorted {A} (l : list (string * A)) :
  StronglySorted (λ a b, String.ltb b.1 a.1 = false)
                 (PyStr.sorted_by_key l).
Proof.
  unfold PyStr.sorted_by_key. induction l as [|x l IH]; [constructor|].
  cbn [foldr]. by apply insert_by_key_sorted.
Qed.

Lemma sorted_distinct_keys {A} (l : list (string * A)) :
  NoDup l.*1 →
  StronglySorted (λ a b, String.ltb b.1 a.1 = false) l →
  StronglySorted (λ a b, String.ltb a.1 b.1 = true) l.
Proof.
  intros Hnd. induction 1 as [|x l Hs IH Hx]; [constructor|].
  cbn [fmap list_fmap] in Hnd. apply NoDup_cons in Hnd as [Hnin Hnd].
  constructor; [by apply IH|].
  apply Forall_forall. intros y Hy.
  rewrite Forall_forall in Hx.
  apply string_ltb_total; [by apply Hx|].
  intros Heq. apply Hnin. rewrite <- Heq.
  apply list_elem_of_fmap. by exists y.
Qed.

(** X27. [help] and [?], when no program is registered under that name,
    output "Available commands:" and one line for every registered
    command, each exactly once, in strictly ascending order of the
    command names (by character code); the name is padded to ten columns
    and followed by the program's help text.  The lines go on the buffer
    newest first, so the heading lies below the commands.  Nothing is
    started. *)
Theorem help_lists_every_command_in_order (self : t P) (cmd : string) :
  cmd = "help"%string ∨ cmd = "?"%string →
  _programs self !! cmd = None →
  ∃ listed : list (string * P),
    _process_command font_renders cmd self
    = (Ok tt,
       output ("Available commands:"%string ::
               ((λ cp, "  " ++ PyStr.format_s 10 cp.1 ++ "   " ++ help cp.2)
                  %string <$> listed)) self)
    ∧ _buf (_process_command font_renders cmd self).2
      = take _BUF_SIZE
          (rev ("Available commands:"%string ::
                ((λ cp, "  " ++ PyStr.format_s 10 cp.1 ++ "   "
                        ++ help cp.2)%string <$> listed))
           ++ _buf self)
    ∧ listed ≡ₚ map_to_list (_programs self)
    ∧ StronglySorted (λ a b, String.ltb a.1 b.1 = true) listed
    ∧ (∀ c p, (c, p) ∈ listed ↔ _programs self !! c = Some p).
Proof.
  intros Hcmd Hp.
  exists (PyStr.sorted_by_key (map_to_list (_programs self))).
  assert (Hrun : _process_command font_renders cmd self
                 = (Ok tt, output (help_lines self) self)).
  { unfold _process_command. rewrite Hp.
    by rewrite decide_True by done. }
  split; [exact Hrun|]. split; [|split; [|split]].
  - rewrite Hrun. unfold output, _add_to_buf, help_lines.
    cbn [snd _buf set_buf]. apply appendleft_some.
  - apply sorted_by_key_perm.
  - apply sorted_distinct_keys; [|apply sorted_by_key_sorted].
    rewrite sorted_by_key_perm. apply NoDup_fst_map_to_list.
  - intros c p. rewrite sorted_by_key_perm. apply elem_of_map_to_list.
Qed.

End Help_listing.

Section Help_listing_example.
Import Py Terminal Samples MoreSamples.

Lemma help_lists_every_command_in_order_witness :
  _programs level_terminal !! "help"%string = None
  ∧ ∃ listed,
      (@_process_command _ level_program byte_colour "help" level_terminal).1
      = Ok tt
      ∧ listed ≡ₚ map_to_list (_programs level_terminal)
      ∧ StronglySorted (λ a b, String.ltb a.1 b.1 = true) listed.
Proof.
  assert (Hp : _programs level_terminal !! "help"%string = None)
    by reflexivity.
  split; [exact Hp|].
  destruct (@help_lists_every_command_in_order _ level_program byte_colour
              level_terminal "help" (or_introl eq_refl) Hp)
    as (listed & Hrun & _ & Hperm & Hsorted & _).
  exists listed. rewrite Hrun. split; [reflexivity|].
  split; [exact Hperm|exact Hsorted].
Defined.

End Help_listing_example.

(** ** Terminal and hex editor together *)

Section Terminal_runs_HexEditor.
Import Py Terminal.
Variable failure_prefix : string.
Variable font_renders : Z * Z * Z → bool.

Lemma start_keeps_terminal
    (data : list (list Z)) (p : HexEditor.t) (term : t HexEditor.t) :
  let term' := (HexEditor.start data (p, term)).2.2 in
  _programs term' = _programs term
  ∧ start_log term' = start_log term
  ∧ _current_program term' = _current_program term
  ∧ _depends term' = _depends term.
Proof.
  unfold HexEditor.start, HexEditor._output_data.
  by destruct (PyList.getitem _ 0).
Qed.

(** X28. Entering the command of a hex editor that is not completed and
    whose prerequisites are all completed starts it once: the command
    becomes the current program, the start log gets the command, and the
    registry entry of the command (and only that entry) is replaced by a
    program in QUERY_ROW at row 0 whose reference table and edited table
    both read back the table that was drawn. *)
Theorem runnable_hexedit_is_started
    (row : list Z) (rest : list (list Z))
    (self : t HexEditor.t) (cmd : string) (p : HexEditor.t) :
  let program := hexedit_program failure_prefix (row :: rest) in
  _programs self !! cmd = Some p →
  HexEditor._completed p = false →
  (∀ depends_list, _depends self !! cmd = Some depends_list →
     Forall (λ c, ∃ q, _programs self !! c = Some q
                       ∧ HexEditor._completed q = true) depends_list) →
  ∃ p' self',
    @_process_command _ program font_renders cmd self = (Ok tt, self')
    ∧ _current_program self' = Some cmd
    ∧ start_log self' = cmd :: start_log self
    ∧ _programs self' = <[cmd := p']> (_programs self)
    ∧ HexEditor.start_rows p' = row :: rest
    ∧ HexEditor.end_rows p' = row :: rest
    ∧ HexEditor._state p' = HexEditor.QUERY_ROW
    ∧ HexEditor._row p' = 0.
Proof.
  intros program Hp Hc Hdeps.
  assert (Hrun : @_is_cmd_runnable _ program cmd self = (Ok true, self)).
  { unfold _is_cmd_runnable.
    destruct (_depends self !! cmd) as [deps|] eqn:Hd; [|done].
    by rewrite (@blocked_on_all_completed _ program self deps
                  (Hdeps deps eq_refl)). }
  unfold _process_command. rewrite Hp, Hrun, Hp.
  change (@completed _ program p) with (HexEditor._completed p).
  rewrite Hc. cbn [negb]. unfold start_current.
  change (@start _ program) with (@HexEditor.start HexEditor.t (row :: rest)).
  set (term := log_start cmd (set_current_program (Some cmd) self)).
  pose proof (start_keeps_terminal (row :: rest) p term)
    as (Hprogs & Hlog & Hcur & _).
  destruct (start_ok p term row rest) as [term' Hstart].
  rewrite Hstart in Hprogs, Hlog, Hcur |- *. cbn [fst snd] in *.
  eexists _, _. split; [reflexivity|].
  split; [exact Hcur|]. split; [exact Hlog|].
  split; [by rewrite Hprogs|].
  unfold HexEditor.start_rows, HexEditor.end_rows.
  cbn [HexEditor.heap HexEditor._start_data HexEditor._end_data
       HexEditor._state HexEditor._row].
  change (S (length rest)) with (length (row :: rest)).
  by rewrite rows_of_fresh.
Qed.

End Terminal_runs_HexEditor.

Section Terminal_runs_HexEditor_example.
Import Py Terminal Samples MoreSamples.

Lemma runnable_hexedit_is_started_witness :
  _programs level_terminal !! "hexedit"%string = Some HexEditor.init
  ∧ ∃ p' self',
      @_process_command _ level_program byte_colour "hexedit" level_terminal
      = (Ok tt, self')
      ∧ _current_program self' = Some "hexedit"%string
      ∧ _programs self' !! "hexedit"%string = Some p'
      ∧ HexEditor.start_rows p' = quiet_table.
Proof.
  assert (Hp : _programs level_terminal !! "hexedit"%string
               = Some HexEditor.init) by reflexivity.
  split; [exact Hp|].
  destruct (runnable_hexedit_is_started failure_prefix byte_colour
              [9; 3; 9; 4; 9; 9] [[12; 1; 2; 3; 4; 8]; [7; 7; 7; 7; 7; 7]]
              level_terminal "hexedit" HexEditor.init Hp eq_refl)
    as (p' & self' & Hrun & Hcur & _ & Hprogs & Hrows & _).
  - intros depends_list Hd. vm_compute in Hd. discriminate.
  - exists p', self'. split; [exact Hrun|]. split; [exact Hcur|].
    split; [|exact Hrows]. rewrite Hprogs. apply lookup_insert_eq.
Defined.

End Terminal_runs_HexEditor_example.
